(** * jobzee: scoring engine, matching pipeline and agent message protocol

    A shallow embedding of the parts of the repository that the
    specification talks about:

    - [job_finder_agent/workflows/match_jobs.py]  (module [MatchJobs]),
    - [candidate_finder_agent/workflows/analyze_candidates.py]
      (module [AnalyzeCandidates]),
    - [common/a2a_protocol.py]  (module [A2A]),
    - the class [WorkflowState] of [common/langgraph_utils.py]
      (module [LanggraphUtils]),

    and of the code around them: the report functions of the analysis
    (module [AnalyzeCandidatesReport]), the sending side of the protocol
    ([A2ASend]), the workflow executor ([LanggraphExec]), the text search
    of [common/vector_db.py] ([VectorDb]) and the job search of the
    matcher on it ([MatchJobsSearch]).

    Conventions of the embedding.

    - Python [float] values are embedded as exact rationals ([Q]); the
      comparisons, [min] and [max] of the source are the ones of [Q].
      Rounding of binary floating point is outside this model. Where a
      statement is about the exact value that the program computes, the
      code is also given in IEEE 754 binary64 (modules [Float64] and
      [MatchJobsFloat], for the experience factor).
    - A profile is a Python [dict] read only through [d.get(key, default)];
      it is embedded as a record of optional fields, [None] standing for an
      absent key, and every read spells out the default of the source.
    - Python [set] is [gset]; Python [dict] used as a map is [gmap].
    - Strings are sequences of 8-bit characters; [str.lower] acts on the
      ASCII letters, and [str.split] separates at the ASCII white space.
    - The bodies of the source are wrapped in [try ... except Exception].
      An exception can only come from a call to an external service (they
      are the [Raised] outcomes below) or from a value that does not have
      the type of its annotation, which the typed records rule out; the
      handlers of the second kind are not reachable and are left out.
    - Writes to the log are not part of the embedding. *)

From Stdlib Require Import QArith Qminmax Qabs ZArith String Ascii List Lia Lqa.
From Stdlib Require Import DecimalString Sorted Permutation.
From Stdlib Require SpecFloat.
From stdpp Require Import gmap strings.

Open Scope string_scope.

(** ** Python primitives used by the source *)

Module Py.

(** [x < y] on floats. *)
Definition Qltb (x y : Q) : bool := negb (Qle_bool y x).

(** [c.lower()] for one character. *)
Definition lower_ascii (c : ascii) : ascii :=
  let n := nat_of_ascii c in
  if (65 <=? n)%nat && (n <=? 90)%nat then ascii_of_nat (n + 32) else c.

(** [s.lower()]. *)
Fixpoint lower (s : string) : string :=
  match s with
  | EmptyString => EmptyString
  | String c s' => String (lower_ascii c) (lower s')
  end.

(** [s.startswith(p)]. *)
Fixpoint startswith (p s : string) : bool :=
  match p, s with
  | EmptyString, _ => true
  | String _ _, EmptyString => false
  | String a p', String b s' => Ascii.eqb a b && startswith p' s'
  end.

(** [needle in hay] for strings: [needle] occurs as a contiguous run. *)
Fixpoint contains (needle hay : string) : bool :=
  startswith needle hay ||
  match hay with
  | EmptyString => false
  | String _ hay' => contains needle hay'
  end.

(** [not s] for a string. *)
Definition str_falsy (s : string) : bool :=
  match s with EmptyString => true | _ => false end.

Definition is_digit (c : ascii) : bool :=
  let n := nat_of_ascii c in (48 <=? n)%nat && (n <=? 57)%nat.

Definition digit_val (c : ascii) : Z := Z.of_nat (nat_of_ascii c) - 48.

(** [[int(x) for x in re.findall(r'\d+', s)]]: the maximal runs of decimal
    digits of [s], left to right, read as integers. [cur] is the run being
    read, if any. *)
Fixpoint findall_ints_from (cur : option Z) (s : string) : list Z :=
  match s with
  | EmptyString => match cur with Some n => [n] | None => [] end
  | String c s' =>
      if is_digit c
      then findall_ints_from (Some (10 * default 0 cur + digit_val c)%Z) s'
      else match cur with
           | Some n => n :: findall_ints_from None s'
           | None => findall_ints_from None s'
           end
  end.

Definition findall_ints (s : string) : list Z := findall_ints_from None s.

(** [sum(l)]. *)
Definition sum (l : list Z) : Z := fold_right Z.add 0%Z l.

(** [sum(l) / len(l)] (true division). *)
Definition mean_int (l : list Z) : Q :=
  (inject_Z (sum l) / inject_Z (Z.of_nat (length l)))%Q.

End Py.

(** ** Binary floating point

    Python's [float] is IEEE 754 binary64, rounding to nearest, ties to
    even. The operations are those of the specification of binary
    floating point of the Standard Library ([SpecFloat]), at precision 53
    and maximal exponent 1024. *)

Module Float64.

Definition prec : Z := 53.
Definition emax : Z := 1024.

Definition float : Type := SpecFloat.spec_float.

(** [float(n)] for an integer [n] (exact when [|n| <= 2^53]). *)
Definition of_int (n : Z) : float := SpecFloat.binary_normalize prec emax n 0 false.

(** [x - y] and [x / y]. *)
Definition sub (x y : float) : float := SpecFloat.SFsub prec emax x y.
Definition div (x y : float) : float := SpecFloat.SFdiv prec emax x y.

(** [x < y], [x <= y] and [x == y]. *)
Definition ltb (x y : float) : bool := SpecFloat.SFltb x y.
Definition leb (x y : float) : bool := SpecFloat.SFleb x y.
Definition eqb (x y : float) : bool := SpecFloat.SFeqb x y.

(** [max(0.0, x)]: the second argument when it is greater than the first,
    the first otherwise. *)
Definition max0 (x : float) : float := if ltb (of_int 0) x then x else of_int 0.

(** The float that a decimal literal [n / 10^k] denotes, for [n] up to
    [2^53] and [k] up to 22: the quotient of two integers that are floats,
    correctly rounded. *)
Definition of_decimal (n : Z) (k : nat) : float :=
  div (of_int n) (of_int (10 ^ Z.of_nat k)).

(** The number that a finite float stands for. *)
Definition to_Q (x : float) : option Q :=
  match x with
  | SpecFloat.S754_zero _ => Some 0%Q
  | SpecFloat.S754_finite s m e =>
      Some ((if s then -1 else 1) * inject_Z (Z.pos m) * 2 ^ e)%Q
  | _ => None
  end.

End Float64.

(** ** Profile dicts

    Both workflows read candidate and job dicts of the same shape. A field
    is [None] when the key is absent. *)

(** The candidate profile dict ([state.candidate_profile]). *)
Module Candidate.
Record t := mk {
  skills : option (list string);
  experience_years : option Q;
  location : option string;
  remote_preference : option bool;
  salary_expectation : option string;
  preferred_roles : option (list string);
  portfolio_links : option (list string);
  (** keys of the dict that the embedded code never reads *)
  other_keys : list string
}.
(** The empty dict [{}]. *)
Definition empty : t := mk None None None None None None None [].
(** [not profile]: a dict is falsy exactly when it has no key. *)
Definition falsy (p : t) : bool :=
  match p with
  | mk None None None None None None None [] => true
  | _ => false
  end.
End Candidate.

(** The job dict ([job_data["metadata"]], [state.job_requirements]). *)
Module Job.
Record t := mk {
  title : option string;
  company : option string;
  skills : option (list string);
  experience_level : option string;
  location : option string;
  remote_friendly : option bool;
  salary_range : option string;
  job_type : option string
}.
Definition empty : t := mk None None None None None None None None.
End Job.

(** What a call to an external capability does: it returns, or it raises
    an exception [e], of which the callers only use [str(e)]. *)
Inductive outcome (A : Type) : Type :=
  | Returned (a : A)
  | Raised (str_e : string).
Arguments Returned {A} a.
Arguments Raised {A} str_e.

(** ** job_finder_agent/workflows/match_jobs.py *)

Module MatchJobs.

(** [set(l)]. *)
Definition set_of (l : list string) : gset string := list_to_set l.

(** [_extract_min_experience]. *)
Definition min_mappings : gmap string Z :=
  <["entry" := 0%Z]> (<["junior" := 0%Z]> (<["mid" := 3%Z]>
  (<["senior" := 5%Z]> (<["lead" := 8%Z]> (<["principal" := 12%Z]> ∅))))).

Definition _extract_min_experience (experience_level : string) : Z :=
  default 0%Z (min_mappings !! Py.lower experience_level).

(** [_extract_max_experience]. *)
Definition max_mappings : gmap string Z :=
  <["entry" := 2%Z]> (<["junior" := 2%Z]> (<["mid" := 5%Z]>
  (<["senior" := 8%Z]> (<["lead" := 12%Z]> (<["principal" := 20%Z]> ∅))))).

Definition _extract_max_experience (experience_level : string) : Z :=
  default 5%Z (max_mappings !! Py.lower experience_level).

(** [_calculate_salary_match]. *)
Definition _calculate_salary_match (candidate_salary job_salary : string) : Q :=
  if Py.str_falsy candidate_salary || Py.str_falsy job_salary then 0.5%Q
  else
    let candidate_numbers := Py.findall_ints candidate_salary in
    let job_numbers := Py.findall_ints job_salary in
    match candidate_numbers, job_numbers with
    | [], _ => 0.5%Q
    | _, [] => 0.5%Q
    | _, _ =>
        let candidate_avg := Py.mean_int candidate_numbers in
        let job_avg := Py.mean_int job_numbers in
        if Py.Qltb 0 job_avg then
          let ratio := (candidate_avg / job_avg)%Q in
          if Qle_bool 0.8 ratio && Qle_bool ratio 1.2 then 1%Q
          else if Qle_bool 0.6 ratio && Qle_bool ratio 1.4 then 0.7%Q
          else 0.3%Q
        else 0.5%Q
    end.

(** The four factors computed in the body of [_calculate_match_score],
    before they are weighted. *)
Record Factors := {
  skills_score : Q;
  exp_score : Q;
  location_score : Q;
  salary_score : Q
}.

(** Skills block of [_calculate_match_score] (lines 208-215). *)
Definition skills_factor (job_data : Job.t) (skills_match : list string) : Q :=
  let job_skills := set_of (default [] (Job.skills job_data)) in
  if (size job_skills =? 0)%nat then 0%Q
  else (inject_Z (Z.of_nat (length skills_match))
        / inject_Z (Z.of_nat (size job_skills)))%Q.

(** Experience block (lines 217-227), as a function of the three numbers it
    compares, in exact arithmetic; [MatchJobsFloat.experience_fit] below is
    the same block in the binary floating point of the program. *)
Definition experience_fit (candidate_exp : Q) (job_exp_min job_exp_max : Z) : Q :=
  if Qle_bool (inject_Z job_exp_min) candidate_exp
     && Qle_bool candidate_exp (inject_Z job_exp_max)
  then 1%Q
  else if Py.Qltb candidate_exp (inject_Z job_exp_min)
  then Qmax 0 (1 - (inject_Z job_exp_min - candidate_exp) / 5)
  else Qmax 0 (1 - (candidate_exp - inject_Z job_exp_max) / 5).

Definition experience_factor (candidate_profile : Candidate.t) (job_data : Job.t) : Q :=
  let candidate_exp := default 0%Q (Candidate.experience_years candidate_profile) in
  let level := default "" (Job.experience_level job_data) in
  experience_fit candidate_exp
    (_extract_min_experience level) (_extract_max_experience level).

(** Location block (lines 229-238). *)
Definition location_factor (candidate_profile : Candidate.t) (job_data : Job.t) : Q :=
  let candidate_location := Py.lower (default "" (Candidate.location candidate_profile)) in
  let job_location := Py.lower (default "" (Job.location job_data)) in
  if Py.contains candidate_location job_location
     || Py.contains job_location candidate_location
  then 1%Q
  else if default false (Candidate.remote_preference candidate_profile)
          && default false (Job.remote_friendly job_data)
  then 0.8%Q
  else 0%Q.

(** Salary block (lines 240-244). *)
Definition salary_factor (candidate_profile : Candidate.t) (job_data : Job.t) : Q :=
  _calculate_salary_match
    (default "" (Candidate.salary_expectation candidate_profile))
    (default "" (Job.salary_range job_data)).

Definition factors (candidate_profile : Candidate.t) (job_data : Job.t)
    (skills_match : list string) : Factors :=
  {| skills_score := skills_factor job_data skills_match;
     exp_score := experience_factor candidate_profile job_data;
     location_score := location_factor candidate_profile job_data;
     salary_score := salary_factor candidate_profile job_data |}.

(** The weighted sum of lines 247-252; the weights are literals of the
    source. *)
Definition total_score (f : Factors) : Q :=
  (skills_score f * 0.4 + exp_score f * 0.3
   + location_score f * 0.2 + salary_score f * 0.1)%Q.

(** [_calculate_match_score]. The parameter [missing_skills] is not read by
    the body. *)
Definition _calculate_match_score (candidate_profile : Candidate.t)
    (job_data : Job.t) (skills_match missing_skills : list string) : Q :=
  Qmin 1 (Qmax 0 (total_score (factors candidate_profile job_data skills_match))).

(** One entry of [state.available_jobs]: the dict
    [{"id": ..., "metadata": ..., "score": ...}] built by
    [search_available_jobs]. *)
Record JobResult := {
  id : string;
  metadata : Job.t;
  score : Q
}.

(** The dataclass [JobMatch]. *)
Record JobMatch := {
  job_id : string;
  job_title : string;
  company : string;
  location : string;
  match_score : Q;
  reasoning : string;
  skills_match : list string;
  missing_skills : list string;
  salary_range : option string;
  job_type : string;
  remote_friendly : bool
}.

(** The pydantic model [MatchingState]. *)
Record MatchingState := {
  candidate_id : string;
  candidate_profile : Candidate.t;
  available_jobs : list JobResult;
  matches : list JobMatch;
  current_job_index : Z;
  is_complete : bool;
  error_message : string;
  min_match_score : Q;
  max_matches : Z;
  required_skills_weight : Q;
  experience_weight : Q;
  location_weight : Q;
  salary_weight : Q
}.

(** [MatchingState(candidate_id=candidate_id)], with the defaults of the
    class. *)
Definition initial_state (candidate_id : string) : MatchingState :=
  {| candidate_id := candidate_id;
     candidate_profile := Candidate.empty;
     available_jobs := [];
     matches := [];
     current_job_index := 0;
     is_complete := false;
     error_message := "";
     min_match_score := 0.7%Q;
     max_matches := 10;
     required_skills_weight := 0.4%Q;
     experience_weight := 0.3%Q;
     location_weight := 0.2%Q;
     salary_weight := 0.1%Q |}.

(** Attribute assignments [state.x = v]. *)
Definition set_candidate_profile (v : Candidate.t) (s : MatchingState) : MatchingState :=
  {| candidate_id := candidate_id s; candidate_profile := v;
     available_jobs := available_jobs s; matches := matches s;
     current_job_index := current_job_index s; is_complete := is_complete s;
     error_message := error_message s; min_match_score := min_match_score s;
     max_matches := max_matches s;
     required_skills_weight := required_skills_weight s;
     experience_weight := experience_weight s;
     location_weight := location_weight s; salary_weight := salary_weight s |}.

Definition set_available_jobs (v : list JobResult) (s : MatchingState) : MatchingState :=
  {| candidate_id := candidate_id s; candidate_profile := candidate_profile s;
     available_jobs := v; matches := matches s;
     current_job_index := current_job_index s; is_complete := is_complete s;
     error_message := error_message s; min_match_score := min_match_score s;
     max_matches := max_matches s;
     required_skills_weight := required_skills_weight s;
     experience_weight := experience_weight s;
     location_weight := location_weight s; salary_weight := salary_weight s |}.

Definition set_matches (v : list JobMatch) (s : MatchingState) : MatchingState :=
  {| candidate_id := candidate_id s; candidate_profile := candidate_profile s;
     available_jobs := available_jobs s; matches := v;
     current_job_index := current_job_index s; is_complete := is_complete s;
     error_message := error_message s; min_match_score := min_match_score s;
     max_matches := max_matches s;
     required_skills_weight := required_skills_weight s;
     experience_weight := experience_weight s;
     location_weight := location_weight s; salary_weight := salary_weight s |}.

Definition set_error_message (v : string) (s : MatchingState) : MatchingState :=
  {| candidate_id := candidate_id s; candidate_profile := candidate_profile s;
     available_jobs := available_jobs s; matches := matches s;
     current_job_index := current_job_index s; is_complete := is_complete s;
     error_message := v; min_match_score := min_match_score s;
     max_matches := max_matches s;
     required_skills_weight := required_skills_weight s;
     experience_weight := experience_weight s;
     location_weight := location_weight s; salary_weight := salary_weight s |}.

(** The [Document] returned by [vector_db.get_document]; only its
    [metadata] is read. *)
Record Document := { doc_metadata : Candidate.t }.

(** The [SearchResult] objects returned by [vector_db.search]. *)
Record SearchResult := {
  document_id : string;
  result_metadata : Job.t;
  result_score : Q
}.

(** [load_candidate_profile]; [r] is what
    [vector_db.get_document(...)] does. A [Document] object is truthy. *)
Definition load_candidate_profile (r : outcome (option Document))
    (state : MatchingState) : MatchingState :=
  match r with
  | Returned (Some profile) => set_candidate_profile (doc_metadata profile) state
  | Returned None => set_error_message "Candidate profile not found" state
  | Raised str_e => set_error_message str_e state
  end.

(** [search_available_jobs]; [r] is what [vector_db.search(...)] does when
    it is called. *)
Definition search_available_jobs (r : outcome (list SearchResult))
    (state : MatchingState) : MatchingState :=
  if Candidate.falsy (candidate_profile state) then state
  else
    match r with
    | Returned search_results =>
        set_available_jobs
          (map (fun result => {| id := document_id result;
                                 metadata := result_metadata result;
                                 score := result_score result |})
               search_results)
          state
    | Raised str_e => set_error_message str_e state
    end.

(** [str(n)] for a natural number. *)
Definition str_nat (n : nat) : string :=
  DecimalString.NilEmpty.string_of_uint (Nat.to_uint n).

(** [', '.join(l)]. *)
Fixpoint join_comma (l : list string) : string :=
  match l with
  | [] => ""
  | [x] => x
  | x :: l' => x ++ ", " ++ join_comma l'
  end.

(** [_generate_match_reasoning]; the prompt that the body builds is not
    used by it. [job_data.get('skills', [])] is the list, not the set. *)
Definition _generate_match_reasoning (candidate_profile : Candidate.t)
    (job_data : Job.t) (skills_match missing_skills : list string)
    (match_score : Q) : string :=
  if Qle_bool 0.8 match_score then
    "Excellent match! The candidate has " ++ str_nat (length skills_match)
      ++ " out of " ++ str_nat (length (default [] (Job.skills job_data)))
      ++ " required skills. "
      ++ (match skills_match with
          | [] => ""
          | _ => "Strong alignment in: " ++ join_comma (firstn 3 skills_match) ++ ". "
          end)
      ++ (match missing_skills with
          | [] => ""
          | _ => "Could learn: " ++ join_comma (firstn 2 missing_skills) ++ ". "
          end)
      ++ "Experience level and role preferences align well."
  else if Qle_bool 0.6 match_score then
    "Good match with " ++ str_nat (length skills_match) ++ " matching skills. "
      ++ (match missing_skills with
          | [] => ""
          | _ => "Would need to develop: " ++ join_comma (firstn 3 missing_skills) ++ ". "
          end)
      ++ "Experience level is appropriate for the role."
  else
    "Limited match with only " ++ str_nat (length skills_match) ++ " matching skills. "
      ++ (match missing_skills with
          | [] => ""
          | _ => "Significant skill gaps: " ++ join_comma (firstn 3 missing_skills) ++ ". "
          end)
      ++ "May not be the best fit for this position.".

(** [analyze_job_match]. [list(s)] of a set [s] is [elements s]: Python
    fixes no order for it, and no statement below depends on one. *)
Definition analyze_job_match (state : MatchingState) (job_data : JobResult) : JobMatch :=
  let candidate_skills := set_of (default [] (Candidate.skills (candidate_profile state))) in
  let job_skills := set_of (default [] (Job.skills (metadata job_data))) in
  let skills_match := elements (candidate_skills ∩ job_skills) in
  let missing_skills := elements (job_skills ∖ candidate_skills) in
  let match_score :=
    _calculate_match_score (candidate_profile state) (metadata job_data)
      skills_match missing_skills in
  let reasoning :=
    _generate_match_reasoning (candidate_profile state) (metadata job_data)
      skills_match missing_skills match_score in
  {| job_id := id job_data;
     job_title := default "" (Job.title (metadata job_data));
     company := default "" (Job.company (metadata job_data));
     location := default "" (Job.location (metadata job_data));
     match_score := match_score;
     reasoning := reasoning;
     skills_match := skills_match;
     missing_skills := missing_skills;
     salary_range := Job.salary_range (metadata job_data);
     job_type := default "full-time" (Job.job_type (metadata job_data));
     remote_friendly := default false (Job.remote_friendly (metadata job_data)) |}.

(** The [for] loop of [process_job_matches] (lines 377-385); [matches] is
    the list built so far. *)
Fixpoint collect_matches (state : MatchingState) (jobs : list JobResult)
    (matches : list JobMatch) : list JobMatch :=
  match jobs with
  | [] => matches
  | job_data :: rest =>
      if (max_matches state <=? Z.of_nat (length matches))%Z then matches
      else
        let match_ := analyze_job_match state job_data in
        if Qle_bool (min_match_score state) (match_score match_)
        then collect_matches state rest (matches ++ [match_])
        else collect_matches state rest matches
  end.

(** [matches.sort(key=lambda x: x.match_score, reverse=True)].

    [list.sort] is stable, and with [reverse=True] elements of equal key
    keep their original order. The result of a stable sort being determined
    by its input, it is embedded as an insertion sort: the elements are
    inserted from the last to the first, each one in front of the first
    element whose score is not strictly greater. *)
Fixpoint insert_desc (x : JobMatch) (l : list JobMatch) : list JobMatch :=
  match l with
  | [] => [x]
  | y :: l' =>
      if Py.Qltb (match_score x) (match_score y)
      then y :: insert_desc x l'
      else x :: y :: l'
  end.

Definition sort_by_score_desc (l : list JobMatch) : list JobMatch :=
  fold_right insert_desc [] l.

(** [process_job_matches]. *)
Definition process_job_matches (state : MatchingState) : MatchingState :=
  let matches := collect_matches state (available_jobs state) [] in
  set_matches (sort_by_score_desc matches) state.

(** The [MatchRequest] that [notify_candidate_finder] hands to
    [a2a_protocol.send_match_request]. *)
Record MatchRequest := {
  request_id : string;
  request_job_id : option string;
  request_candidate_id : option string;
  criteria_min_match_score : Q;
  criteria_max_matches : Z;
  criteria_candidate_profile : Candidate.t;
  priority : string
}.

(** [notify_candidate_finder]: the state it returns and the request it
    sends, if any. [send_match_request] catches the failures of the
    transport itself and returns a flag that this stage ignores. *)
Definition notify_candidate_finder (state : MatchingState)
    : MatchingState * option MatchRequest :=
  match matches state with
  | [] => (state, None)
  | _ =>
      (state,
       Some {| request_id :=
                 "match_" ++ candidate_id state ++ "_" ++ str_nat (length (matches state));
               request_job_id := None;
               request_candidate_id := Some (candidate_id state);
               criteria_min_match_score := min_match_score state;
               criteria_max_matches := max_matches state;
               criteria_candidate_profile := candidate_profile state;
               priority := "normal" |})
  end.

(** What the external services do during one run. *)
Record Environment := {
  get_document : outcome (option Document);
  search : outcome (list SearchResult)
}.

(** The compiled graph of [create_job_matching_graph]:
    [load_profile -> search_jobs -> process_matches -> notify_finder]. *)
Definition run_graph (env : Environment) (initial : MatchingState) : MatchingState :=
  let s1 := load_candidate_profile (get_document env) initial in
  let s2 := search_available_jobs (search env) s1 in
  let s3 := process_job_matches s2 in
  fst (notify_candidate_finder s3).

End MatchJobs.

(** ** The experience block of [match_jobs.py] in binary64 *)

Module MatchJobsFloat.
Import Float64.

(** Experience block of [_calculate_match_score] (lines 217-227), with
    the arithmetic of the program. [candidate_exp] is the number of the
    profile as a float; an [int] of the profile enters the comparisons and
    the subtraction with the same value. The bounds of the band are
    integers. *)
Definition experience_fit (candidate_exp : float) (job_exp_min job_exp_max : Z) : float :=
  let lo := of_int job_exp_min in
  let hi := of_int job_exp_max in
  if leb lo candidate_exp && leb candidate_exp hi
  then of_int 1
  else if ltb candidate_exp lo
  then max0 (sub (of_int 1) (div (sub lo candidate_exp) (of_int 5)))
  else max0 (sub (of_int 1) (div (sub candidate_exp hi) (of_int 5))).

Definition experience_factor (candidate_exp : float) (job_data : Job.t) : float :=
  let level := default "" (Job.experience_level job_data) in
  experience_fit candidate_exp
    (MatchJobs._extract_min_experience level) (MatchJobs._extract_max_experience level).

End MatchJobsFloat.

(** ** candidate_finder_agent/workflows/analyze_candidates.py *)

Module AnalyzeCandidates.

(** [state.skills_analysis], as [analyze_skills] writes it (the per-skill
    [skill_levels], constant for every matching skill, are left out). *)
Record SkillsAnalysis := {
  matching_skills : list string;
  missing_skills : list string;
  additional_skills : list string;
  skill_coverage : Q;
  overall_skill_score : Q
}.

Inductive Assessment := excellent | below_required | overqualified.

(** [state.experience_analysis] (the list of relevant work-history entries
    is left out). *)
Record ExperienceAnalysis := {
  candidate_experience_years : Q;
  required_experience_min : Z;
  required_experience_max : Z;
  experience_fit_score : Q;
  experience_assessment : Assessment
}.

(** [state.portfolio_analysis]; [detailed_analysis] keeps, for each
    platform key, the ["score"] of its entry. *)
Record PortfolioAnalysis := {
  analysed_links : list string;
  detailed_analysis : gmap string Q;
  overall_portfolio_score : Q
}.

(** [state.cultural_fit_analysis]. *)
Record CulturalFit := {
  cultural_fit_score : Q;
  experience_alignment : bool;
  remote_preference_match : bool;
  location_compatibility : bool
}.

(** [state.analysis_results]. *)
Record AnalysisResults := {
  overall_score : Q;
  skill_score : Q;
  experience_score : Q;
  portfolio_score : Q;
  cultural_score : Q;
  assessment_summary : string
}.

(** The pydantic model [AnalysisState]. A component that is still the
    empty dict [{}] is [None]. *)
Record AnalysisState := {
  candidate_id : string;
  job_requirements : Job.t;
  candidate_profile : Candidate.t;
  analysis_results : option AnalysisResults;
  is_complete : bool;
  error_message : string;
  skills_analysis : option SkillsAnalysis;
  experience_analysis : option ExperienceAnalysis;
  portfolio_analysis : option PortfolioAnalysis;
  cultural_fit_analysis : option CulturalFit
}.

(** [AnalysisState(candidate_id=..., job_requirements=...)]. *)
Definition initial_state (candidate_id : string) (job_requirements : Job.t)
    : AnalysisState :=
  {| candidate_id := candidate_id;
     job_requirements := job_requirements;
     candidate_profile := Candidate.empty;
     analysis_results := None;
     is_complete := false;
     error_message := "";
     skills_analysis := None;
     experience_analysis := None;
     portfolio_analysis := None;
     cultural_fit_analysis := None |}.

(** [analyze_skills]. *)
Definition analyze_skills (state : AnalysisState) : AnalysisState :=
  let candidate_skills : gset string :=
    list_to_set (default [] (Candidate.skills (candidate_profile state))) in
  let required_skills : gset string :=
    list_to_set (default [] (Job.skills (job_requirements state))) in
  let matching := elements (candidate_skills ∩ required_skills) in
  let missing := elements (required_skills ∖ candidate_skills) in
  let additional := elements (candidate_skills ∖ required_skills) in
  let coverage :=
    if (size required_skills =? 0)%nat then 0%Q
    else (inject_Z (Z.of_nat (length matching))
          / inject_Z (Z.of_nat (size required_skills)))%Q in
  {| candidate_id := candidate_id state;
     job_requirements := job_requirements state;
     candidate_profile := candidate_profile state;
     analysis_results := analysis_results state;
     is_complete := is_complete state;
     error_message := error_message state;
     skills_analysis :=
       Some {| matching_skills := matching;
               missing_skills := missing;
               additional_skills := additional;
               skill_coverage := coverage;
               overall_skill_score := Qmin 1 (coverage * 1.2) |};
     experience_analysis := experience_analysis state;
     portfolio_analysis := portfolio_analysis state;
     cultural_fit_analysis := cultural_fit_analysis state |}.

(** [_extract_min_experience] and [_extract_max_experience] of this class
    are the same text as in [match_jobs.py]. *)
Definition _extract_min_experience := MatchJobs._extract_min_experience.
Definition _extract_max_experience := MatchJobs._extract_max_experience.

(** [analyze_experience]. *)
Definition analyze_experience (state : AnalysisState) : AnalysisState :=
  let candidate_exp := default 0%Q (Candidate.experience_years (candidate_profile state)) in
  let level := default "" (Job.experience_level (job_requirements state)) in
  let required_exp_min := _extract_min_experience level in
  let required_exp_max := _extract_max_experience level in
  let fit :=
    if Qle_bool (inject_Z required_exp_min) candidate_exp
       && Qle_bool candidate_exp (inject_Z required_exp_max)
    then (1%Q, excellent)
    else if Py.Qltb candidate_exp (inject_Z required_exp_min)
    then (Qmax 0 (1 - (inject_Z required_exp_min - candidate_exp) / 5), below_required)
    else (Qmax 0 (1 - (candidate_exp - inject_Z required_exp_max) / 5), overqualified) in
  {| candidate_id := candidate_id state;
     job_requirements := job_requirements state;
     candidate_profile := candidate_profile state;
     analysis_results := analysis_results state;
     is_complete := is_complete state;
     error_message := error_message state;
     skills_analysis := skills_analysis state;
     experience_analysis :=
       Some {| candidate_experience_years := candidate_exp;
               required_experience_min := required_exp_min;
               required_experience_max := required_exp_max;
               experience_fit_score := fst fit;
               experience_assessment := snd fit |};
     portfolio_analysis := portfolio_analysis state;
     cultural_fit_analysis := cultural_fit_analysis state |}.

(** The result dict of the code-hosting capability. *)
Record GithubAnalysis := {
  repository_count : option Z;
  total_stars : option Z;
  recent_commits : option Z;
  languages : option (list string)
}.

(** [_calculate_github_score]. *)
Definition _calculate_github_score (github_analysis : GithubAnalysis) : Q :=
  let repo_count := default 0%Z (repository_count github_analysis) in
  let s1 := if (10 <=? repo_count)%Z then 0.3%Q
            else if (5 <=? repo_count)%Z then 0.2%Q
            else if (2 <=? repo_count)%Z then 0.1%Q else 0%Q in
  let stars := default 0%Z (total_stars github_analysis) in
  let s2 := if (100 <=? stars)%Z then 0.3%Q
            else if (20 <=? stars)%Z then 0.2%Q
            else if (5 <=? stars)%Z then 0.1%Q else 0%Q in
  let commits := default 0%Z (recent_commits github_analysis) in
  let s3 := if (50 <=? commits)%Z then 0.2%Q
            else if (20 <=? commits)%Z then 0.15%Q
            else if (5 <=? commits)%Z then 0.1%Q else 0%Q in
  let langs := length (default [] (languages github_analysis)) in
  let s4 := if (3 <=? langs)%nat then 0.2%Q
            else if (2 <=? langs)%nat then 0.1%Q else 0%Q in
  Qmin 1 (0 + s1 + s2 + s3 + s4).

(** The result dict of the resume parser; an education entry is kept as
    its ["degree"], if it has one. *)
Record ResumeAnalysis := {
  resume_experience_years : option Q;
  resume_skills : option (list string);
  education : option (list (option string));
  certifications : option (list string)
}.

(** [any(word in edu.get("degree", "").lower() for edu in education)]. *)
Definition any_degree (word : string) (education : list (option string)) : bool :=
  existsb (fun edu => Py.contains word (Py.lower (default "" edu))) education.

(** [_calculate_resume_score]. *)
Definition _calculate_resume_score (resume_analysis : ResumeAnalysis) : Q :=
  let years := default 0%Q (resume_experience_years resume_analysis) in
  let s1 := if Qle_bool 5 years then 0.3%Q
            else if Qle_bool 3 years then 0.2%Q
            else if Qle_bool 1 years then 0.1%Q else 0%Q in
  let skills_count := length (default [] (resume_skills resume_analysis)) in
  let s2 := if (10 <=? skills_count)%nat then 0.3%Q
            else if (5 <=? skills_count)%nat then 0.2%Q
            else if (2 <=? skills_count)%nat then 0.1%Q else 0%Q in
  let edu := default [] (education resume_analysis) in
  let s3 := if any_degree "phd" edu then 0.2%Q
            else if any_degree "master" edu then 0.15%Q
            else if any_degree "bachelor" edu then 0.1%Q else 0%Q in
  let certs := length (default [] (certifications resume_analysis)) in
  let s4 := if (3 <=? certs)%nat then 0.2%Q
            else if (1 <=? certs)%nat then 0.1%Q else 0%Q in
  Qmin 1 (0 + s1 + s2 + s3 + s4).

(** A [ToolResponse]: [success] and, when it holds, [result]. *)
Definition ToolResponse (A : Type) : Type := option A.

(** The external capabilities, as functions of the link that the call is
    made for (the arguments of both calls are computed from the link). *)
Record Tools := {
  analyze_github_profile : string -> ToolResponse GithubAnalysis;
  parse_resume : string -> ToolResponse ResumeAnalysis
}.

(** [s.endswith(p)]. *)
Definition endswith (p s : string) : bool :=
  let lp := String.length p in
  let ls := String.length s in
  (lp <=? ls)%nat && String.eqb (substring (ls - lp) lp s) p.

(** One turn of the [for link in portfolio_links] loop of
    [analyze_portfolio]. *)
Definition analyze_link (tools : Tools) (portfolio_analysis : gmap string Q)
    (link : string) : gmap string Q :=
  if Py.contains "github.com" link then
    match analyze_github_profile tools link with
    | Some result => <["github" := _calculate_github_score result]> portfolio_analysis
    | None => portfolio_analysis
    end
  else if Py.contains "linkedin.com" link then
    <["linkedin" := 0.7%Q]> portfolio_analysis
  else if Py.contains "resume" (Py.lower link)
          || endswith ".pdf" link || endswith ".doc" link || endswith ".docx" link then
    match parse_resume tools link with
    | Some result => <["resume" := _calculate_resume_score result]> portfolio_analysis
    | None => portfolio_analysis
    end
  else portfolio_analysis.

(** [sum(portfolio_scores)]. *)
Definition sum_scores (l : list Q) : Q := fold_right Qplus 0%Q l.

(** [analyze_portfolio]. *)
Definition analyze_portfolio (tools : Tools) (state : AnalysisState) : AnalysisState :=
  let portfolio_links := default [] (Candidate.portfolio_links (candidate_profile state)) in
  let portfolio_analysis := fold_left (analyze_link tools) portfolio_links ∅ in
  let portfolio_scores := (map_to_list portfolio_analysis).*2 in
  let overall :=
    match portfolio_scores with
    | [] => 0%Q
    | _ => (sum_scores portfolio_scores
            / inject_Z (Z.of_nat (length portfolio_scores)))%Q
    end in
  {| candidate_id := candidate_id state;
     job_requirements := job_requirements state;
     candidate_profile := candidate_profile state;
     analysis_results := analysis_results state;
     is_complete := is_complete state;
     error_message := error_message state;
     skills_analysis := skills_analysis state;
     experience_analysis := experience_analysis state;
     portfolio_analysis :=
       Some {| analysed_links := portfolio_links;
               detailed_analysis := portfolio_analysis;
               overall_portfolio_score := overall |};
     cultural_fit_analysis := cultural_fit_analysis state |}.

(** The three tests of [assess_cultural_fit]. *)
Definition experience_aligned (state : AnalysisState) : bool :=
  let candidate_exp := default 0%Q (Candidate.experience_years (candidate_profile state)) in
  let required_exp :=
    _extract_min_experience (default "" (Job.experience_level (job_requirements state))) in
  Qle_bool (inject_Z required_exp) candidate_exp.

Definition remote_matches (state : AnalysisState) : bool :=
  let candidate_remote := default false (Candidate.remote_preference (candidate_profile state)) in
  let job_remote := default false (Job.remote_friendly (job_requirements state)) in
  Bool.eqb candidate_remote job_remote.

Definition location_compatible (state : AnalysisState) : bool :=
  let candidate_location := Py.lower (default "" (Candidate.location (candidate_profile state))) in
  let job_location := Py.lower (default "" (Job.location (job_requirements state))) in
  Py.contains candidate_location job_location
  || Py.contains job_location candidate_location.

(** The value of the local variable [cultural_fit_score] after the three
    adjustments (lines 420-441). *)
Definition raw_cultural_fit_score (state : AnalysisState) : Q :=
  let s0 := 0.7%Q in
  let s1 := if experience_aligned state then (s0 + 0.1)%Q else s0 in
  let s2 := if remote_matches state then (s1 + 0.1)%Q else s1 in
  if location_compatible state then (s2 + 0.1)%Q else s2.

(** [assess_cultural_fit]. *)
Definition assess_cultural_fit (state : AnalysisState) : AnalysisState :=
  {| candidate_id := candidate_id state;
     job_requirements := job_requirements state;
     candidate_profile := candidate_profile state;
     analysis_results := analysis_results state;
     is_complete := is_complete state;
     error_message := error_message state;
     skills_analysis := skills_analysis state;
     experience_analysis := experience_analysis state;
     portfolio_analysis := portfolio_analysis state;
     cultural_fit_analysis :=
       Some {| cultural_fit_score := Qmin 1 (raw_cultural_fit_score state);
               experience_alignment := experience_aligned state;
               remote_preference_match := remote_matches state;
               location_compatibility := location_compatible state |} |}.

(** [_generate_assessment_summary]. *)
Definition _generate_assessment_summary (overall_score : Q) : string :=
  if Qle_bool 0.8 overall_score
  then "Excellent candidate with strong alignment to job requirements."
  else if Qle_bool 0.6 overall_score
  then "Good candidate with solid qualifications and some areas for growth."
  else if Qle_bool 0.4 overall_score
  then "Moderate candidate with potential but significant gaps to address."
  else "Candidate may not be the best fit for this position.".

(** The four reads [state.x.get("..._score", 0.0)] of
    [generate_final_assessment]. *)
Definition get_skill_score (state : AnalysisState) : Q :=
  default 0%Q (overall_skill_score <$> skills_analysis state).
Definition get_experience_score (state : AnalysisState) : Q :=
  default 0%Q (experience_fit_score <$> experience_analysis state).
Definition get_portfolio_score (state : AnalysisState) : Q :=
  default 0%Q (overall_portfolio_score <$> portfolio_analysis state).
Definition get_cultural_score (state : AnalysisState) : Q :=
  default 0%Q (cultural_fit_score <$> cultural_fit_analysis state).

(** The weighted sum of lines 487-492. *)
Definition weighted_overall_score (state : AnalysisState) : Q :=
  (get_skill_score state * 0.35 + get_experience_score state * 0.25
   + get_portfolio_score state * 0.25 + get_cultural_score state * 0.15)%Q.

(** [generate_final_assessment] (the lists of recommendations, risk factors
    and interview questions are left out). *)
Definition generate_final_assessment (state : AnalysisState) : AnalysisState :=
  let overall := weighted_overall_score state in
  {| candidate_id := candidate_id state;
     job_requirements := job_requirements state;
     candidate_profile := candidate_profile state;
     analysis_results :=
       Some {| overall_score := overall;
               skill_score := get_skill_score state;
               experience_score := get_experience_score state;
               portfolio_score := get_portfolio_score state;
               cultural_score := get_cultural_score state;
               assessment_summary := _generate_assessment_summary overall |};
     is_complete := true;
     error_message := error_message state;
     skills_analysis := skills_analysis state;
     experience_analysis := experience_analysis state;
     portfolio_analysis := portfolio_analysis state;
     cultural_fit_analysis := cultural_fit_analysis state |}.

(** The stages after [load_profile], in the order of the graph edges of
    [create_candidate_analysis_graph]. *)
Definition analysis_stages (tools : Tools) (state : AnalysisState) : AnalysisState :=
  generate_final_assessment
    (assess_cultural_fit
      (analyze_portfolio tools
        (analyze_experience (analyze_skills state)))).

End AnalyzeCandidates.

(** ** common/a2a_protocol.py *)

Module A2A.

(** The enum [MessageType]. *)
Inductive MessageType :=
  | JOB_CREATED | JOB_UPDATED | JOB_DELETED
  | CANDIDATE_CREATED | CANDIDATE_UPDATED | CANDIDATE_DELETED
  | APPLICATION_CREATED | APPLICATION_UPDATED | APPLICATION_DELETED
  | MATCH_REQUEST | MATCH_RESPONSE | MATCH_FOUND
  | AGENT_HEARTBEAT | AGENT_STATUS | AGENT_ERROR.

Definition all_message_types : list MessageType :=
  [ JOB_CREATED; JOB_UPDATED; JOB_DELETED;
    CANDIDATE_CREATED; CANDIDATE_UPDATED; CANDIDATE_DELETED;
    APPLICATION_CREATED; APPLICATION_UPDATED; APPLICATION_DELETED;
    MATCH_REQUEST; MATCH_RESPONSE; MATCH_FOUND;
    AGENT_HEARTBEAT; AGENT_STATUS; AGENT_ERROR ].

(** [t.value]. *)
Definition value_of (t : MessageType) : string :=
  match t with
  | JOB_CREATED => "job_created"
  | JOB_UPDATED => "job_updated"
  | JOB_DELETED => "job_deleted"
  | CANDIDATE_CREATED => "candidate_created"
  | CANDIDATE_UPDATED => "candidate_updated"
  | CANDIDATE_DELETED => "candidate_deleted"
  | APPLICATION_CREATED => "application_created"
  | APPLICATION_UPDATED => "application_updated"
  | APPLICATION_DELETED => "application_deleted"
  | MATCH_REQUEST => "match_request"
  | MATCH_RESPONSE => "match_response"
  | MATCH_FOUND => "match_found"
  | AGENT_HEARTBEAT => "agent_heartbeat"
  | AGENT_STATUS => "agent_status"
  | AGENT_ERROR => "agent_error"
  end.

(** [MessageType(s)]: the member whose value is [s]; [None] when the call
    raises [ValueError]. *)
Definition MessageType_of (s : string) : option MessageType :=
  find (fun t => String.eqb (value_of t) s) all_message_types.

(** [a == b] on members of the enum (identity of the member). *)
Definition MessageType_eqb (a b : MessageType) : bool :=
  String.eqb (value_of a) (value_of b).

(** The values that a payload, a metadata map or a wire envelope holds:
    what [json] produces. *)
#[local] Unset Elimination Schemes.
Inductive value :=
  | VNone
  | VBool (b : bool)
  | VInt (n : Z)
  | VFloat (q : Q)
  | VStr (s : string)
  | VList (l : list value)
  | VDict (d : list (string * value)).
#[local] Set Elimination Schemes.

(** Truth value of [v] in a condition. *)
Definition truthy (v : value) : bool :=
  match v with
  | VNone => false
  | VBool b => b
  | VInt n => negb (n =? 0)%Z
  | VFloat q => negb (Qeq_bool q 0)
  | VStr s => negb (Py.str_falsy s)
  | VList l => match l with [] => false | _ => true end
  | VDict d => match d with [] => false | _ => true end
  end.

(** [v != s] for a string [s]. *)
Definition ne_str (v : value) (s : string) : bool :=
  match v with
  | VStr s' => negb (String.eqb s' s)
  | _ => true
  end.

(** A naive [datetime] (no [tzinfo]), as [datetime.utcnow()] makes them. *)
Record datetime := {
  year : N;
  month : N;
  day : N;
  hour : N;
  minute : N;
  second : N;
  microsecond : N
}.

Definition is_leap (y : N) : bool :=
  ((y mod 4 =? 0) && (negb (y mod 100 =? 0) || (y mod 400 =? 0)))%N.

Definition days_in_month (y m : N) : N :=
  if (m =? 2)%N then (if is_leap y then 29 else 28)%N
  else if ((m =? 4) || (m =? 6) || (m =? 9) || (m =? 11))%N then 30%N
  else 31%N.

(** The ranges that the constructor of [datetime] enforces. *)
Definition valid_datetime (d : datetime) : bool :=
  ((1 <=? year d) && (year d <=? 9999)
   && (1 <=? month d) && (month d <=? 12)
   && (1 <=? day d) && (day d <=? days_in_month (year d) (month d))
   && (hour d <? 24) && (minute d <? 60) && (second d <? 60)
   && (microsecond d <? 1000000))%N.

Definition digit_char (d : N) : ascii := ascii_of_N (48 + d).

(** ["%0<width>d" % n], for [n < 10 ^ width]. *)
Fixpoint zfill (width : nat) (n : N) : string :=
  match width with
  | O => ""
  | S w => zfill w (n / 10)%N ++ String (digit_char (n mod 10)%N) ""
  end.

(** [d.isoformat()] of a naive datetime:
    [YYYY-MM-DDTHH:MM:SS], followed by [.ffffff] when the microsecond is
    not zero. *)
Definition isoformat (d : datetime) : string :=
  zfill 4 (year d) ++ "-" ++ zfill 2 (month d) ++ "-" ++ zfill 2 (day d)
  ++ "T" ++ zfill 2 (hour d) ++ ":" ++ zfill 2 (minute d) ++ ":"
  ++ zfill 2 (second d)
  ++ (if (microsecond d =? 0)%N then "" else "." ++ zfill 6 (microsecond d)).

Definition digit_of (c : ascii) : option N :=
  if Py.is_digit c then Some (N_of_ascii c - 48)%N else None.

(** The decimal number written by [s], all of whose characters must be
    digits. *)
Fixpoint parse_digits (acc : N) (s : string) : option N :=
  match s with
  | EmptyString => Some acc
  | String c s' =>
      match digit_of c with
      | Some d => parse_digits (10 * acc + d)%N s'
      | None => None
      end
  end.

Definition char_at_is (s : string) (i : nat) (c : ascii) : bool :=
  match String.get i s with
  | Some c' => Ascii.eqb c' c
  | None => false
  end.

(** [datetime.fromisoformat(s)] on the two layouts that [isoformat] writes
    for a naive datetime (19 or 26 characters; the character between date
    and time is not inspected). [None] is [ValueError]. Python accepts
    further layouts, depending on its version; they are rejected here. *)
Definition fromisoformat (s : string) : option datetime :=
  let len := String.length s in
  if negb ((len =? 19) || (len =? 26))%nat then None
  else if negb (char_at_is s 4 "-" && char_at_is s 7 "-"
                && char_at_is s 13 ":" && char_at_is s 16 ":") then None
  else if (len =? 26)%nat && negb (char_at_is s 19 ".") then None
  else
    y ← parse_digits 0 (substring 0 4 s);
    mo ← parse_digits 0 (substring 5 2 s);
    d ← parse_digits 0 (substring 8 2 s);
    h ← parse_digits 0 (substring 11 2 s);
    mi ← parse_digits 0 (substring 14 2 s);
    sec ← parse_digits 0 (substring 17 2 s);
    us ← (if (len =? 26)%nat then parse_digits 0 (substring 20 6 s) else Some 0%N);
    let dt := {| year := y; month := mo; day := d; hour := h;
                 minute := mi; second := sec; microsecond := us |} in
    if valid_datetime dt then Some dt else None.

(** The dataclass [Message], after [__post_init__]. Python does not check
    the annotations of the fields, so the identifiers, the payload and the
    metadata are whatever values the envelope carried. *)
Record Message := {
  message_id : value;
  message_type : MessageType;
  sender_id : value;
  receiver_id : value;
  timestamp : datetime;
  payload : value;
  metadata : value
}.

(** [__post_init__] on [payload] and [metadata]: [None] becomes [{}]. *)
Definition or_empty_dict (v : value) : value :=
  match v with VNone => VDict [] | _ => v end.

(** What [__post_init__] establishes. *)
Definition post_init_ok (m : Message) : Prop :=
  payload m ≠ VNone ∧ metadata m ≠ VNone.

(** [Message.to_dict]. [asdict] copies the field values; the two
    assignments replace the type by its tag and the timestamp by its ISO
    text. *)
Definition to_dict (m : Message) : gmap string value :=
  <["timestamp" := VStr (isoformat (timestamp m))]>
  (<["message_type" := VStr (value_of (message_type m))]>
  (<["message_id" := message_id m]>
  (<["sender_id" := sender_id m]>
  (<["receiver_id" := receiver_id m]>
  (<["payload" := payload m]>
  (<["metadata" := metadata m]> ∅)))))).

(** The parameters of the generated [__init__]. *)
Definition field_names : list string :=
  ["message_id"; "message_type"; "sender_id"; "receiver_id"; "timestamp";
   "payload"; "metadata"].

(** [Message.from_dict]; [None] when it raises ([KeyError] for a missing
    type or timestamp, [ValueError] for an unknown tag or a malformed
    timestamp, [TypeError] for a timestamp that is not a string, for an
    unexpected key or for a missing [message_id] or [sender_id]). *)
Definition from_dict (data : gmap string value) : option Message :=
  tag ← data !! "message_type";
  mt ← (match tag with VStr s => MessageType_of s | _ => None end);
  ts ← data !! "timestamp";
  t ← (match ts with VStr s => fromisoformat s | _ => None end);
  if negb (forallb (fun k => existsb (String.eqb k) field_names)
             (map_to_list data).*1) then None
  else
    mid ← data !! "message_id";
    sid ← data !! "sender_id";
    Some {| message_id := mid;
            message_type := mt;
            sender_id := sid;
            receiver_id := default VNone (data !! "receiver_id");
            timestamp := t;
            payload := or_empty_dict (default VNone (data !! "payload"));
            metadata := or_empty_dict (default VNone (data !! "metadata")) |}.

Section Dispatch.

(** The state that handlers act on (what an agent keeps between
    messages). *)
Context {W : Type}.

(** What a call [await handler(message)] does: it returns, or it raises
    an exception, in a new state either way. *)
Inductive handler_result :=
  | HReturn (w : W)
  | HRaise (w : W).

Definition Handler := Message -> W -> handler_result.

(** [AgentToAgentProtocol]: [self.agent_id] and the dict
    [self.message_handlers], keyed by the members of [MessageType]. *)
Record AgentToAgentProtocol := {
  agent_id : string;
  message_handlers : MessageType -> option Handler
}.

(** [register_handler]: [self.message_handlers[message_type] = handler]. *)
Definition register_handler (message_type : MessageType) (handler : Handler)
    (self : AgentToAgentProtocol) : AgentToAgentProtocol :=
  {| agent_id := agent_id self;
     message_handlers := fun t =>
       if MessageType_eqb t message_type then Some handler
       else message_handlers self t |}.

(** [_handle_heartbeat], [_handle_status], [_handle_error]: they write to
    the log only. *)
Definition _handle_heartbeat : Handler := fun _ w => HReturn w.
Definition _handle_status : Handler := fun _ w => HReturn w.
Definition _handle_error : Handler := fun _ w => HReturn w.

(** [__init__], which ends with [_register_default_handlers]. *)
Definition new_protocol (agent_id : string) : AgentToAgentProtocol :=
  register_handler AGENT_ERROR _handle_error
    (register_handler AGENT_STATUS _handle_status
      (register_handler AGENT_HEARTBEAT _handle_heartbeat
        {| agent_id := agent_id; message_handlers := fun _ => None |})).

(** What one call of [process_message] did. *)
Record Processed := {
  handled : bool;              (** the value returned *)
  invoked : list Message;      (** the handler calls made, with their argument *)
  final : W                    (** the state afterwards *)
}.

(** [process_message]. *)
Definition process_message (self : AgentToAgentProtocol)
    (message_data : gmap string value) (w : W) : Processed :=
  match from_dict message_data with
  | None => {| handled := false; invoked := []; final := w |}
  | Some message =>
      if truthy (receiver_id message) && ne_str (receiver_id message) (agent_id self)
      then {| handled := false; invoked := []; final := w |}
      else
        match message_handlers self (message_type message) with
        | Some handler =>
            match handler message w with
            | HReturn w' => {| handled := true; invoked := [message]; final := w' |}
            | HRaise w' => {| handled := false; invoked := [message]; final := w' |}
            end
        | None => {| handled := false; invoked := []; final := w |}
        end
  end.

End Dispatch.

Arguments handler_result : clear implicits.
Arguments Handler : clear implicits.
Arguments AgentToAgentProtocol : clear implicits.
Arguments Processed : clear implicits.

End A2A.

(** ** common/langgraph_utils.py *)

Module LanggraphUtils.

Section WorkflowState.

(** The type of the values that a workflow keeps ([Any]). *)
Context {Any : Type}.

(** An entry of [metadata['steps_completed']]. *)
Record StepEntry := {
  step : string;
  result : option Any;
  step_timestamp : string
}.

(** An entry of [metadata['errors']]. *)
Record ErrorEntry := {
  error_step : string;
  error : string;
  error_timestamp : string
}.

(** The class [WorkflowState]: [self.data] and the four keys of
    [self.metadata]. *)
Record WorkflowState := {
  data : gmap string Any;
  created_at : string;
  updated_at : string;
  steps_completed : list StepEntry;
  errors : list ErrorEntry
}.

(** [__init__]; [now1] and [now2] are what the two calls of
    [_get_current_timestamp()] return. *)
Definition new_state (initial_data : option (gmap string Any)) (now1 now2 : string)
    : WorkflowState :=
  {| data := default ∅ initial_data;
     created_at := now1;
     updated_at := now2;
     steps_completed := [];
     errors := [] |}.

(** [update]; [now] is the time of the call, and likewise below. *)
Definition update (key : string) (value : Any) (now : string)
    (self : WorkflowState) : WorkflowState :=
  {| data := <[key := value]> (data self);
     created_at := created_at self;
     updated_at := now;
     steps_completed := steps_completed self;
     errors := errors self |}.

(** [add_step]. *)
Definition add_step (step_name : string) (result : option Any) (now : string)
    (self : WorkflowState) : WorkflowState :=
  {| data := data self;
     created_at := created_at self;
     updated_at := updated_at self;
     steps_completed :=
       (steps_completed self
        ++ [{| step := step_name; result := result; step_timestamp := now |}])%list;
     errors := errors self |}.

(** [add_error]. *)
Definition add_error (step_name : string) (error : string) (now : string)
    (self : WorkflowState) : WorkflowState :=
  {| data := data self;
     created_at := created_at self;
     updated_at := updated_at self;
     steps_completed := steps_completed self;
     errors :=
       (errors self
        ++ [{| error_step := step_name; error := error; error_timestamp := now |}])%list |}.

End WorkflowState.

Arguments StepEntry : clear implicits.
Arguments WorkflowState : clear implicits.

End LanggraphUtils.

(** * Statements of the specification and scenarios *)

Module MatchJobsSpec.
Import Py MatchJobs.

(** ** Matching workflow *)

(** *** Experience bands *)

(** The table of bands as the specification words it: the inclusive range
    of years of each named band, [[0,5]] for any other name. *)
Definition band_range (band : string) : Z * Z :=
  if String.eqb band "entry" || String.eqb band "junior" then (0, 2)%Z
  else if String.eqb band "mid" then (3, 5)%Z
  else if String.eqb band "senior" then (5, 8)%Z
  else if String.eqb band "lead" then (8, 12)%Z
  else if String.eqb band "principal" then (12, 20)%Z
  else (0, 5)%Z.

(** One year, six years and eleven years of experience against the band
    "senior". *)
Definition candidate_years (years : Q) : Candidate.t :=
  Candidate.mk None (Some years) None None None None None [].

Definition job_senior : Job.t :=
  Job.mk None None None (Some "senior") None None None None.

(** Scenario C as the specification words it: one year against the band
    "senior" yields the factor 0.2, in the arithmetic of the program. *)
Definition scenario_C_spec : Prop :=
  Float64.eqb (MatchJobsFloat.experience_factor (Float64.of_int 1) job_senior)
    (Float64.of_decimal 2 1) = true.

(** The job that asks for the band [level]. *)
Definition job_of_band (level : string) : Job.t :=
  Job.mk None None None (Some level) None None None None.

(** The names of the bands, and one name that the tables do not have. *)
Definition band_names : list string :=
  ["entry"; "junior"; "mid"; "senior"; "lead"; "principal"; "expert"].

(** The float [x] stands for a number within [2^-53] of [q]. *)
Definition close_to (x : Float64.float) (q : Q) : bool :=
  match Float64.to_Q x with
  | Some v => Qle_bool (Qabs (v - q)) (1 # 2 ^ 53)
  | None => false
  end.

(** For [years] whole years against the band [level], the factor computed
    in binary64 is within [2^-53] of the factor in exact arithmetic. *)
Definition experience_agrees (years : nat) (level : string) : bool :=
  close_to
    (MatchJobsFloat.experience_factor (Float64.of_int (Z.of_nat years))
       (job_of_band level))
    (experience_factor (candidate_years (inject_Z (Z.of_nat years)))
       (job_of_band level)).

(** *** Scenario A *)

(** The input of Scenario A: the two skill lists, the band "mid", four
    years, the same location text on both sides, and salary texts without
    any number. *)
Definition scenario_A (candidate_profile : Candidate.t) (job_data : Job.t) : Prop :=
  Candidate.skills candidate_profile = Some ["python"; "django"]
  /\ Job.skills job_data = Some ["python"; "django"; "aws"]
  /\ Job.experience_level job_data = Some "mid"
  /\ Candidate.experience_years candidate_profile = Some 4%Q
  /\ default "" (Candidate.location candidate_profile)
     = default "" (Job.location job_data)
  /\ findall_ints (default "" (Candidate.salary_expectation candidate_profile)) = []
  /\ findall_ints (default "" (Job.salary_range job_data)) = [].

Definition candidate_A : Candidate.t :=
  Candidate.mk (Some ["python"; "django"]) (Some 4%Q) (Some "Berlin")
    None None None None [].

Definition job_A : JobResult :=
  {| id := "job-1";
     metadata := Job.mk None None (Some ["python"; "django"; "aws"])
                   (Some "mid") (Some "Berlin") None None None;
     score := 1 |}.

Definition state_A : MatchingState :=
  set_candidate_profile candidate_A (initial_state "cand-1").

(** *** Weights *)

(** The aggregate as the specification words it: the weighted sum of the
    four factors with the weights carried by the state. *)
Definition caller_weighted_sum (state : MatchingState) (f : Factors) : Q :=
  (skills_score f * required_skills_weight state
   + exp_score f * experience_weight state
   + location_score f * location_weight state
   + salary_score f * salary_weight state)%Q.

(** A state whose four weights were set by the caller. *)
Definition with_weights (w_skills w_exp w_loc w_salary : Q) (s : MatchingState)
    : MatchingState :=
  {| candidate_id := candidate_id s; candidate_profile := candidate_profile s;
     available_jobs := available_jobs s; matches := matches s;
     current_job_index := current_job_index s; is_complete := is_complete s;
     error_message := error_message s; min_match_score := min_match_score s;
     max_matches := max_matches s;
     required_skills_weight := w_skills;
     experience_weight := w_exp;
     location_weight := w_loc; salary_weight := w_salary |}.

Definition candidate_W : Candidate.t :=
  Candidate.mk (Some ["python"]) (Some 0%Q) (Some "Paris") None None None None [].

Definition job_W : JobResult :=
  {| id := "job-1";
     metadata := Job.mk None None (Some ["python"]) (Some "senior")
                   (Some "Berlin") None None None;
     score := 1 |}.

(** The caller asks for the skill factor alone: weights 1, 0, 0, 0. *)
Definition state_W : MatchingState :=
  with_weights 1 0 0 0 (set_candidate_profile candidate_W (initial_state "cand-1")).

(** *** Ranking *)

(** [match.match_score >= state.min_match_score]. *)
Definition passes (state : MatchingState) (m : JobMatch) : bool :=
  Qle_bool (min_match_score state) (match_score m).

(** The results of the search, analysed, in search order. *)
Definition scored (state : MatchingState) : list JobMatch :=
  map (analyze_job_match state) (available_jobs state).

(** What the loop keeps: the first [max_matches] results, in search order,
    among those that reach the threshold. *)
Definition selected (state : MatchingState) : list JobMatch :=
  firstn (Z.to_nat (max_matches state)) (List.filter (passes state) (scored state)).

(** The ranking as the specification words it: drop the results below the
    threshold, sort by descending score (stable), then truncate to the
    maximum count. *)
Definition rank_spec (state : MatchingState) : list JobMatch :=
  firstn (Z.to_nat (max_matches state))
    (sort_by_score_desc (List.filter (passes state) (scored state))).

(** [a] may come before [b] in a list sorted by descending score. *)
Definition score_ge (a b : JobMatch) : Prop := (match_score b <= match_score a)%Q.

(** The results whose score is exactly [q]. *)
Definition same_score (q : Q) (m : JobMatch) : bool := Qeq_bool (match_score m) q.

(** Two jobs for the same candidate: the first found scores 0.75, the
    second 0.95; the caller asks for one match at most. *)
Definition candidate_R : Candidate.t :=
  Candidate.mk (Some ["python"]) (Some 4%Q) (Some "Berlin") None None None None [].

Definition job_R1 : SearchResult :=
  {| document_id := "J1";
     result_metadata := Job.mk None None (Some ["python"; "aws"]) (Some "mid")
                          (Some "Berlin") None None None;
     result_score := 1 |}.

Definition job_R2 : SearchResult :=
  {| document_id := "J2";
     result_metadata := Job.mk None None (Some ["python"]) (Some "mid")
                          (Some "Berlin") None None None;
     result_score := 1 |}.

Definition with_max_matches (n : Z) (s : MatchingState) : MatchingState :=
  {| candidate_id := candidate_id s; candidate_profile := candidate_profile s;
     available_jobs := available_jobs s; matches := matches s;
     current_job_index := current_job_index s; is_complete := is_complete s;
     error_message := error_message s; min_match_score := min_match_score s;
     max_matches := n;
     required_skills_weight := required_skills_weight s;
     experience_weight := experience_weight s;
     location_weight := location_weight s; salary_weight := salary_weight s |}.

Definition state_R : MatchingState :=
  search_available_jobs (Returned [job_R1; job_R2])
    (load_candidate_profile (Returned (Some {| doc_metadata := candidate_R |}))
      (with_max_matches 1 (initial_state "cand-1"))).

(** Scenario D: three jobs found in the order C3, C1, C2, scoring 0.9, 0.9
    and 0.7 for the candidate, with the default threshold and maximum. *)
Definition candidate_D : Candidate.t :=
  Candidate.mk (Some ["python"; "django"; "sql"]) (Some 4%Q) (Some "Berlin")
    None (Some "100k") None None [].

Definition job_D (job_id : string) (job_skills : list string) : SearchResult :=
  {| document_id := job_id;
     result_metadata := Job.mk None None (Some job_skills) (Some "mid")
                          (Some "Berlin") None (Some "100k") None;
     result_score := 1 |}.

Definition state_D : MatchingState :=
  search_available_jobs
    (Returned [job_D "C3" ["python"; "django"; "sql"; "aws"];
               job_D "C1" ["python"; "django"; "sql"; "aws"];
               job_D "C2" ["python"; "aws"; "gcp"; "k8s"]])
    (load_candidate_profile (Returned (Some {| doc_metadata := candidate_D |}))
      (initial_state "cand-1")).

(** *** The error record of the state *)



(** A run in which the document store fails. *)
Definition env_E : Environment :=
  {| get_document := Raised "connection refused"; search := Returned [] |}.

End MatchJobsSpec.

Module AnalyzeCandidatesSpec.
Import Py AnalyzeCandidates.

(** ** Candidate analysis *)

(** [q] lies in [[0,1]]. *)
Definition in_unit (q : Q) : Prop := (0 <= q /\ q <= 1)%Q.

(** The four sub-scores that [generate_final_assessment] reads from the
    state all lie in [[0,1]]. *)
Definition sub_scores_in_unit (state : AnalysisState) : Prop :=
  in_unit (get_skill_score state) /\ in_unit (get_experience_score state)
  /\ in_unit (get_portfolio_score state) /\ in_unit (get_cultural_score state).

(** Every score kept for a platform lies in [[0,1]]. *)
Definition scores_in_unit (m : gmap string Q) : Prop :=
  map_Forall (fun _ q => in_unit q) m.

(** A candidate with three of the four required skills, a code-hosting
    link and a professional-network link. *)
Definition candidate_P : Candidate.t :=
  Candidate.mk (Some ["python"; "django"; "sql"]) (Some 4%Q) (Some "Berlin")
    (Some true) None None
    (Some ["https://github.com/octo"; "https://linkedin.com/in/octo"]) [].

Definition job_P : Job.t :=
  Job.mk (Some "Backend Engineer") None (Some ["python"; "django"; "sql"; "aws"])
    (Some "mid") (Some "Berlin") (Some true) None None.

Definition tools_P : Tools :=
  {| analyze_github_profile := fun _ =>
       Some {| repository_count := Some 12%Z; total_stars := Some 30%Z;
               recent_commits := Some 25%Z;
               languages := Some ["Python"; "Go"; "Rust"] |};
     parse_resume := fun _ => None |}.

Definition state_P : AnalysisState :=
  {| candidate_id := "cand-1";
     job_requirements := job_P;
     candidate_profile := candidate_P;
     analysis_results := None;
     is_complete := false;
     error_message := "";
     skills_analysis := None;
     experience_analysis := None;
     portfolio_analysis := None;
     cultural_fit_analysis := None |}.

Definition analysed_P : AnalysisState :=
  assess_cultural_fit
    (analyze_portfolio tools_P (analyze_experience (analyze_skills state_P))).

(** The value of [cultural_fit_score] before the location test (line 436). *)
Definition score_before_location (state : AnalysisState) : Q :=
  let s0 := 0.7%Q in
  let s1 := if experience_aligned state then (s0 + 0.1)%Q else s0 in
  if remote_matches state then (s1 + 0.1)%Q else s1.

(** Both uses of the location test succeed for this pair of dicts: the
    location factor of the scoring engine is 1, and the cultural-fit
    assessment records the compatibility and adds its 0.1. *)
Definition location_always_matches (candidate : Candidate.t) (job : Job.t) : Prop :=
  MatchJobs.location_factor candidate job = 1%Q
  /\ forall state : AnalysisState,
       candidate_profile state = candidate ->
       job_requirements state = job ->
       exists c : CulturalFit,
         cultural_fit_analysis (assess_cultural_fit state) = Some c
         /\ location_compatibility c = true
         /\ cultural_fit_score c = Qmin 1 (score_before_location state + 0.1).

(** A candidate without any location against a job in Berlin. *)
Definition candidate_L : Candidate.t :=
  Candidate.mk (Some ["python"]) (Some 4%Q) None None None None None [].

End AnalyzeCandidatesSpec.

Module A2ASpec.
Import Py A2A.

(** ** Message protocol *)

(** A match request sent on 29 February 2024. *)
Definition message_M : Message :=
  {| message_id := VStr "match_cand-1_3";
     message_type := MATCH_REQUEST;
     sender_id := VStr "job_finder_agent";
     receiver_id := VStr "candidate_finder_agent";
     timestamp := {| year := 2024; month := 2; day := 29; hour := 7;
                     minute := 5; second := 9; microsecond := 1234 |};
     payload := VDict [("request_id", VStr "match_cand-1_3");
                       ("candidate_id", VStr "cand-1");
                       ("priority", VStr "normal")];
     metadata := VDict [] |}.

(** The three cases in which no handler is to be called: (3) the envelope
    does not decode; (1) it decodes to a message that carries a receiver
    (a truthy [receiver_id]) other than this agent; (2) no handler is
    registered for its type. *)
Definition not_dispatched {W : Type} (self : AgentToAgentProtocol W)
    (message_data : gmap string value) : Prop :=
  from_dict message_data = None
  \/ exists m : Message,
       from_dict message_data = Some m
       /\ ((truthy (receiver_id m) = true
            /\ ne_str (receiver_id m) (agent_id self) = true)
           \/ message_handlers self (message_type m) = None).

(** The dispatch contract as the specification words it: in the three
    cases the result is false and no handler is called; in every other
    case the handler is called and the result is true. *)
Definition dispatch_contract (W : Type) : Prop :=
  forall (self : AgentToAgentProtocol W) (message_data : gmap string value) (w : W),
    let r := process_message self message_data w in
    (not_dispatched self message_data -> handled r = false /\ invoked r = [])
    /\ (~ not_dispatched self message_data ->
        handled r = true /\ exists m, from_dict message_data = Some m /\ invoked r = [m]).

(** An agent whose handler for match requests raises. *)
Definition protocol_X : AgentToAgentProtocol unit :=
  register_handler MATCH_REQUEST (fun _ w => HRaise w)
    (new_protocol "candidate_finder_agent").

(** A heartbeat addressed to agent B. *)
Definition message_B : Message :=
  {| message_id := VStr "hb-1";
     message_type := AGENT_HEARTBEAT;
     sender_id := VStr "C";
     receiver_id := VStr "B";
     timestamp := {| year := 2024; month := 1; day := 1; hour := 0;
                     minute := 0; second := 0; microsecond := 0 |};
     payload := VDict [];
     metadata := VDict [] |}.

End A2ASpec.

(** * Further code of the cited files *)

(** ** Text primitives *)

Module PyText.

(** [c.isspace()] for an ASCII character. *)
Definition is_space (c : ascii) : bool :=
  let n := nat_of_ascii c in
  ((9 <=? n) && (n <=? 13) || (28 <=? n) && (n <=? 32))%nat.

(** [s.split()]: the maximal runs of characters that are not white space,
    left to right. [cur] is the run being read. *)
Fixpoint split_from (cur : string) (s : string) : list string :=
  match s with
  | EmptyString => if Py.str_falsy cur then [] else [cur]
  | String c s' =>
      if is_space c
      then (if Py.str_falsy cur then split_from "" s' else cur :: split_from "" s')
      else split_from (cur ++ String c "") s'
  end.

Definition split (s : string) : list string := split_from "" s.

End PyText.

(** ** The rest of [analyze_candidates.py] *)

Module AnalyzeCandidatesReport.
Import AnalyzeCandidates.

(** An entry of the candidate's ["work_experience"] list. *)
Record WorkExperience := {
  title : option string;
  company : option string;
  description : option string
}.

(** [sum(1 for skill in required_skills if skill in job_description)]. *)
Definition count_in (required_skills : list string) (job_description : string) : nat :=
  length (List.filter (fun skill => Py.contains skill job_description) required_skills).

(** The test [required_role and any(word in job_title for word in
    required_role.split())]. *)
Definition title_relevant (required_role job_title : string) : bool :=
  negb (Py.str_falsy required_role)
  && existsb (fun word => Py.contains word job_title) (PyText.split required_role).

(** [_calculate_experience_relevance]. *)
Definition _calculate_experience_relevance (experience : WorkExperience)
    (job_requirements : Job.t) : Q :=
  let job_title := Py.lower (default "" (title experience)) in
  let job_description := Py.lower (default "" (description experience)) in
  let required_skills := map Py.lower (default [] (Job.skills job_requirements)) in
  let required_role := Py.lower (default "" (Job.title job_requirements)) in
  let s0 := 0%Q in
  let s1 := if title_relevant required_role job_title then (s0 + 0.3)%Q else s0 in
  let skill_matches := count_in required_skills job_description in
  let s2 :=
    match required_skills with
    | [] => s1
    | _ => (s1 + (inject_Z (Z.of_nat skill_matches)
                  / inject_Z (Z.of_nat (length required_skills))) * 0.7)%Q
    end in
  Qmin 1 s2.

(** The list [relevant_experience] that [analyze_experience] builds from
    the ["work_experience"] of the candidate (lines 149-159). *)
Definition relevant_experience (work_experience : list WorkExperience)
    (job_requirements : Job.t) : list (WorkExperience * Q) :=
  List.filter (fun e => Py.Qltb 0.5 (snd e))
    (map (fun exp => (exp, _calculate_experience_relevance exp job_requirements))
         work_experience).

(** [d[k] = v] on a dict kept in insertion order: the value of an
    existing key is replaced where it stands, a new key goes last. *)
Fixpoint dict_set (k : string) (v : Q) (items : list (string * Q))
    : list (string * Q) :=
  match items with
  | [] => [(k, v)]
  | (k', v') :: rest =>
      if String.eqb k' k then (k', v) :: rest else (k', v') :: dict_set k v rest
  end.

(** One turn of the loop of [analyze_portfolio], on the dict in insertion
    order. *)
Definition analyze_link_items (tools : Tools) (portfolio_analysis : list (string * Q))
    (link : string) : list (string * Q) :=
  if Py.contains "github.com" link then
    match analyze_github_profile tools link with
    | Some result => dict_set "github" (_calculate_github_score result) portfolio_analysis
    | None => portfolio_analysis
    end
  else if Py.contains "linkedin.com" link then
    dict_set "linkedin" 0.7%Q portfolio_analysis
  else if Py.contains "resume" (Py.lower link)
          || endswith ".pdf" link || endswith ".doc" link || endswith ".docx" link then
    match parse_resume tools link with
    | Some result => dict_set "resume" (_calculate_resume_score result) portfolio_analysis
    | None => portfolio_analysis
    end
  else portfolio_analysis.

(** The dict [portfolio_analysis] at the end of the loop, in insertion
    order. *)
Definition portfolio_items (tools : Tools) (portfolio_links : list string)
    : list (string * Q) :=
  fold_left (analyze_link_items tools) portfolio_links [].

(** [_identify_portfolio_strengths]. *)
Definition strength_of (entry : string * Q) : list string :=
  let (platform, score) := entry in
  if String.eqb platform "github" && Qle_bool 0.7 score
  then ["Strong GitHub presence with active repositories"]
  else if String.eqb platform "resume" && Qle_bool 0.7 score
  then ["Well-structured resume with relevant experience"]
  else if String.eqb platform "linkedin" && Qle_bool 0.7 score
  then ["Professional LinkedIn profile"]
  else [].

Definition _identify_portfolio_strengths (portfolio_analysis : list (string * Q))
    : list string :=
  flat_map strength_of portfolio_analysis.

(** [_identify_portfolio_weaknesses]. *)
Definition weakness_of (entry : string * Q) : list string :=
  let (platform, score) := entry in
  if String.eqb platform "github" && Py.Qltb score 0.5
  then ["Limited GitHub activity or repositories"]
  else if String.eqb platform "resume" && Py.Qltb score 0.5
  then ["Resume could be more comprehensive"]
  else if String.eqb platform "linkedin" && Py.Qltb score 0.5
  then ["LinkedIn profile needs improvement"]
  else [].

Definition _identify_portfolio_weaknesses (portfolio_analysis : list (string * Q))
    : list string :=
  match portfolio_analysis with
  | [] => ["No portfolio links provided"]
  | _ => flat_map weakness_of portfolio_analysis
  end.

(** [_generate_cultural_fit_recommendations]. *)
Definition _generate_cultural_fit_recommendations (state : AnalysisState)
    : list string :=
  let candidate_exp := default 0%Q (Candidate.experience_years (candidate_profile state)) in
  let required_exp :=
    _extract_min_experience (default "" (Job.experience_level (job_requirements state))) in
  let candidate_remote := default false (Candidate.remote_preference (candidate_profile state)) in
  let job_remote := default false (Job.remote_friendly (job_requirements state)) in
  ((if Py.Qltb candidate_exp (inject_Z required_exp)
    then ["Consider gaining more experience in the field"] else [])
   ++ (if negb (Bool.eqb candidate_remote job_remote)
       then ["Consider flexibility in remote work preferences"] else []))%list.

(** The recommendations and risk factors of [generate_final_assessment]
    (lines 494-512); [portfolio_weaknesses] is the list that
    [analyze_portfolio] stored under that key, [[]] when there is none. *)
Definition final_recommendations (state : AnalysisState)
    (portfolio_weaknesses : list string) : list string * list string :=
  let missing := default [] (missing_skills <$> skills_analysis state) in
  let r1 :=
    match missing with
    | [] => ([], [])
    | _ => (["Consider developing skills in: " ++ MatchJobs.join_comma (firstn 3 missing)],
            ["Missing key skills: " ++ MatchJobs.join_comma (firstn 3 missing)])
    end in
  let r2 :=
    match experience_assessment <$> experience_analysis state with
    | Some below_required =>
        (["Consider gaining more relevant experience"], ["Below required experience level"])
    | _ => ([], [])
    end in
  ((fst r1 ++ fst r2 ++ firstn 2 portfolio_weaknesses)%list,
   (snd r1 ++ snd r2)%list).

(** [_generate_interview_questions]; [relevant] is the list kept under
    ["relevant_experience"] by [analyze_experience]. *)
Definition _generate_interview_questions (state : AnalysisState)
    (relevant : list (WorkExperience * Q)) : list string :=
  let matching := default [] (matching_skills <$> skills_analysis state) in
  let q1 :=
    match matching with
    | [] => []
    | skill :: _ =>
        ["Can you walk us through a project where you used " ++ skill ++ "?"]
    end in
  let q2 :=
    match relevant with
    | [] => []
    | (exp, _) :: _ =>
        ["Tell us about your role as " ++ default "" (title exp)
         ++ " at " ++ default "" (company exp)]
    end in
  let q3 :=
    match portfolio_analysis state with
    | Some p =>
        match detailed_analysis p !! "github" with
        | Some _ =>
            ["Can you explain the architecture of your most complex GitHub project?"]
        | None => []
        end
    | None => []
    end in
  firstn 5
    (q1 ++ q2 ++ q3
     ++ ["How do you prefer to work in a team environment?";
         "What are your career goals for the next 2-3 years?"])%list.

End AnalyzeCandidatesReport.

(** ** Statements about the further code *)

Module AnalyzeCandidatesReportSpec.
Import AnalyzeCandidates AnalyzeCandidatesReport.

(** What every portfolio dict built by the loop satisfies: its keys are
    distinct platform names, and the LinkedIn entry, if any, has the
    placeholder score. *)
Definition portfolio_dict_ok (items : list (string * Q)) : Prop :=
  NoDup items.*1
  /\ Forall (fun k => k = "github" \/ k = "linkedin" \/ k = "resume") items.*1
  /\ Forall (fun e => e.1 = "linkedin" -> e.2 = 0.7%Q) items.

End AnalyzeCandidatesReportSpec.

(** ** The sending side of [a2a_protocol.py] *)

Module A2ASend.
Import A2A.

(** The generated [__init__] of [Message] followed by [__post_init__]:
    [timestamp] is [None] when the caller gives none, and [now] is what
    [datetime.utcnow()] then returns. *)
Definition new_message (message_id : value) (message_type : MessageType)
    (sender_id receiver_id : value) (timestamp : option datetime)
    (payload metadata : value) (now : datetime) : Message :=
  {| message_id := message_id;
     message_type := message_type;
     sender_id := sender_id;
     receiver_id := receiver_id;
     timestamp := default now timestamp;
     payload := or_empty_dict payload;
     metadata := or_empty_dict metadata |}.

(** The dataclass [MatchRequest] of the protocol. *)
Record MatchRequest := {
  request_id : value;
  job_id : value;
  candidate_id : value;
  criteria : value;
  priority : value
}.

(** [match_request.__dict__]. *)
Definition MatchRequest_dict (r : MatchRequest) : value :=
  VDict [("request_id", request_id r); ("job_id", job_id r);
         ("candidate_id", candidate_id r); ("criteria", criteria r);
         ("priority", priority r)].

(** The dataclass [MatchResponse]; its [request_id] is a string, which the
    message identifier is built from. *)
Record MatchResponse := {
  response_request_id : string;
  matches : value;
  confidence_scores : value;
  reasoning : value
}.

(** [match_response.__dict__]. *)
Definition MatchResponse_dict (r : MatchResponse) : value :=
  VDict [("request_id", VStr (response_request_id r)); ("matches", matches r);
         ("confidence_scores", confidence_scores r); ("reasoning", reasoning r)].

Section Transport.

(** The state of the transport (what the Kafka client has published). *)
Context {T : Type}.

(** What [await self.kafka_client.publish_message(message_data)] does: it
    returns, or it raises, in a new state of the transport either way. *)
Inductive publish_result :=
  | PReturn (t : T)
  | PRaise (t : T).

(** [self.kafka_client]: [None] (as [run_job_matching] constructs the
    protocol), or a client. *)
Record KafkaClient := {
  publish_message : gmap string value -> T -> publish_result
}.

(** [send_message]. With no client the attribute access raises, and the
    exception is caught like any other. *)
Definition send_message (kafka_client : option KafkaClient) (message : Message)
    (t : T) : bool * T :=
  let message_data := to_dict message in
  match kafka_client with
  | None => (false, t)
  | Some client =>
      match publish_message client message_data t with
      | PReturn t' => (true, t')
      | PRaise t' => (false, t')
      end
  end.

(** The message that [broadcast_message] builds; [stamp] is the text of
    [datetime.utcnow().timestamp()] in the f-string, [now] the time read
    by [__post_init__]. *)
Definition broadcast_envelope (agent_id : string) (message_type : MessageType)
    (payload : value) (stamp : string) (now : datetime) : Message :=
  new_message (VStr (agent_id ++ "_" ++ stamp)) message_type (VStr agent_id)
    VNone None payload VNone now.

(** [broadcast_message]. *)
Definition broadcast_message (kafka_client : option KafkaClient) (agent_id : string)
    (message_type : MessageType) (payload : value) (stamp : string) (now : datetime)
    (t : T) : bool * T :=
  send_message kafka_client (broadcast_envelope agent_id message_type payload stamp now) t.

(** The message that [send_match_request] builds. *)
Definition match_request_envelope (agent_id : string) (receiver_id : value)
    (match_request : MatchRequest) (now : datetime) : Message :=
  new_message (request_id match_request) MATCH_REQUEST (VStr agent_id) receiver_id
    None (MatchRequest_dict match_request) VNone now.

(** [send_match_request]. *)
Definition send_match_request (kafka_client : option KafkaClient) (agent_id : string)
    (receiver_id : value) (match_request : MatchRequest) (now : datetime)
    (t : T) : bool * T :=
  send_message kafka_client (match_request_envelope agent_id receiver_id match_request now) t.

(** The message that [send_match_response] builds. *)
Definition match_response_envelope (agent_id : string) (receiver_id : value)
    (match_response : MatchResponse) (now : datetime) : Message :=
  new_message (VStr ("response_" ++ response_request_id match_response))
    MATCH_RESPONSE (VStr agent_id) receiver_id
    None (MatchResponse_dict match_response) VNone now.

(** [send_match_response]. *)
Definition send_match_response (kafka_client : option KafkaClient) (agent_id : string)
    (receiver_id : value) (match_response : MatchResponse) (now : datetime)
    (t : T) : bool * T :=
  send_message kafka_client
    (match_response_envelope agent_id receiver_id match_response now) t.

(** [details or {}]. *)
Definition or_dict (details : value) : value :=
  if truthy details then details else VDict [].

(** [send_heartbeat], [send_status] and [send_error]: the result of the
    broadcast is dropped. [now0] is the time written into the payload of
    the heartbeat. *)
Definition send_heartbeat (kafka_client : option KafkaClient) (agent_id : string)
    (now0 : datetime) (stamp : string) (now : datetime) (t : T) : T :=
  snd (broadcast_message kafka_client agent_id AGENT_HEARTBEAT
         (VDict [("status", VStr "alive"); ("timestamp", VStr (isoformat now0))])
         stamp now t).

Definition send_status (kafka_client : option KafkaClient) (agent_id : string)
    (status details : value) (stamp : string) (now : datetime) (t : T) : T :=
  snd (broadcast_message kafka_client agent_id AGENT_STATUS
         (VDict [("status", status); ("details", or_dict details)]) stamp now t).

Definition send_error (kafka_client : option KafkaClient) (agent_id : string)
    (error details : value) (stamp : string) (now : datetime) (t : T) : T :=
  snd (broadcast_message kafka_client agent_id AGENT_ERROR
         (VDict [("error", error); ("details", or_dict details)]) stamp now t).

End Transport.

Arguments publish_result : clear implicits.
Arguments KafkaClient : clear implicits.

End A2ASend.

(** ** The executor of [langgraph_utils.py] *)

Module LanggraphExec.
Import LanggraphUtils.

Section Executor.

Context {Any : Type}.

(** [WorkflowState.get]. *)
Definition get (key : string) (default_ : Any) (self : WorkflowState Any) : Any :=
  default default_ (data self !! key).

(** A compiled workflow: what [invoke] (or [ainvoke]) does on the dict of
    the state, which it does not modify: it returns a dict or raises. *)
Definition Workflow := WorkflowState Any -> outcome (gmap string Any).

(** [WorkflowExecutor.execute] and [execute_sync], which have the same
    body; the state stands for the dict that [to_dict] makes of it.
    [now1] to [now5] are the times read by the constructors and by
    [add_error]. [state.data.update(result)] lets the entries of [result]
    replace those of [data]. *)
Definition execute (workflow : Workflow) (initial_state : option (gmap string Any))
    (now1 now2 now3 now4 now5 : string) : WorkflowState Any :=
  let state := new_state initial_state now1 now2 in
  match workflow state with
  | Returned result =>
      {| data := result ∪ data state;
         created_at := created_at state;
         updated_at := updated_at state;
         steps_completed := steps_completed state;
         errors := errors state |}
  | Raised str_e =>
      add_error "workflow_execution" str_e now5 (new_state initial_state now3 now4)
  end.

End Executor.

End LanggraphExec.

(** ** common/vector_db.py *)

Module VectorDb.
Import Py PyText.

(** [_calculate_text_similarity]. *)
Definition _calculate_text_similarity (query text : string) : Q :=
  let query_words : gset string := list_to_set (split (lower query)) in
  let text_words : gset string := list_to_set (split (lower text)) in
  if bool_decide (query_words = ∅) || bool_decide (text_words = ∅) then 0%Q
  else
    let intersection := size (query_words ∩ text_words) in
    let union := size (query_words ∪ text_words) in
    if (0 <? union)%nat
    then (inject_Z (Z.of_nat intersection) / inject_Z (Z.of_nat union))%Q
    else 0%Q.

(** [l[:limit]] for an integer [limit]; a negative one counts from the
    end. *)
Definition slice_to {A : Type} (limit : Z) (l : list A) : list A :=
  if (0 <=? limit)%Z then firstn (Z.to_nat limit) l
  else firstn (length l - Z.to_nat (- limit)) l.

Section Store.

(** The payload dict of a point, whose ["text"] and ["timestamp"] entries
    are the ones that this module reads. *)
Context {Payload : Type}.

Record Point := {
  point_id : string;
  point_vector : option (list Q);
  payload_text : option string;
  payload_timestamp : option string;
  point_payload : Payload
}.

(** The two calls made on the Qdrant client by the functions embedded
    here, as what they return or raise for a collection name (and an
    identifier): [retrieve(collection_name, ids=[document_id])] and
    [scroll(collection_name, limit=1000)[0]]. *)
Record QdrantClient := {
  retrieve : string -> string -> outcome (list Point);
  scroll : string -> outcome (list Point)
}.

(** The class [VectorDatabase]; [client] is [None] when the connection
    could not be made. *)
Record VectorDatabase := {
  collection_prefix : string;
  client : option QdrantClient
}.

Record SearchResult := {
  document_id : string;
  text : string;
  metadata : Payload;
  score : Q
}.

Record Document := {
  doc_document_id : string;
  doc_text : string;
  doc_metadata : Payload;
  embedding : option (list Q);
  timestamp : A2A.datetime
}.

(** [_get_collection_name]. *)
Definition _get_collection_name (self : VectorDatabase) (base_name : string) : string :=
  collection_prefix self ++ "_" ++ base_name.

(** [get_document]; [None] is also what it returns when anything raises.
    [now] is what [datetime.utcnow()] returns. The timestamps that
    [add_document] stores are written by [isoformat]. *)
Definition get_document (self : VectorDatabase) (collection_name document_id : string)
    (now : A2A.datetime) : option Document :=
  match client self with
  | None => None
  | Some c =>
      match retrieve c (_get_collection_name self collection_name) document_id with
      | Raised _ => None
      | Returned [] => None
      | Returned (point :: _) =>
          match A2A.fromisoformat
                  (default (A2A.isoformat now) (payload_timestamp point)) with
          | None => None
          | Some ts =>
              Some {| doc_document_id := point_id point;
                      doc_text := default "" (payload_text point);
                      doc_metadata := point_payload point;
                      embedding := point_vector point;
                      timestamp := ts |}
          end
      end
  end.

(** The loop of [search] (lines 244-254). *)
Definition scored_points (query : string) (all_points : list Point) : list SearchResult :=
  flat_map
    (fun point =>
       let text := default "" (payload_text point) in
       let score := _calculate_text_similarity query text in
       if Qltb 0.1 score
       then [{| document_id := point_id point; text := text;
                metadata := point_payload point; score := score |}]
       else [])
    all_points.

(** [search_results.sort(key=lambda x: x.score, reverse=True)], a stable
    sort: the elements are inserted from the last to the first, each one
    in front of the first element whose score is not strictly greater. *)
Fixpoint insert_by_score (x : SearchResult) (l : list SearchResult) : list SearchResult :=
  match l with
  | [] => [x]
  | y :: l' =>
      if Qltb (score x) (score y) then y :: insert_by_score x l' else x :: y :: l'
  end.

Definition sort_results (l : list SearchResult) : list SearchResult :=
  fold_right insert_by_score [] l.

(** [search]. The filter that the body builds from [filter_criteria] is
    passed to no call, so that argument is left out; [[]] is also what is
    returned when anything raises. *)
Definition search (self : VectorDatabase) (collection_name query : string)
    (limit : Z) : list SearchResult :=
  match client self with
  | None => []
  | Some c =>
      match scroll c (_get_collection_name self collection_name) with
      | Raised _ => []
      | Returned all_points => slice_to limit (sort_results (scored_points query all_points))
      end
  end.

End Store.

Arguments Point : clear implicits.
Arguments QdrantClient : clear implicits.
Arguments VectorDatabase : clear implicits.
Arguments SearchResult : clear implicits.
Arguments Document : clear implicits.

End VectorDb.

(** ** The job search of [match_jobs.py] on the vector database *)

Module MatchJobsSearch.
Import MatchJobs.

(** [' '.join(l)]. *)
Fixpoint join_space (l : list string) : string :=
  match l with
  | [] => ""
  | [x] => x
  | x :: l' => x ++ " " ++ join_space l'
  end.

Section Query.

(** The text that an f-string gives for a number. *)
Variable str_number : Q -> string.

(** [_create_search_query]. *)
Definition _create_search_query (profile : Candidate.t) : string :=
  let skills := default [] (Candidate.skills profile) in
  let preferred_roles := default [] (Candidate.preferred_roles profile) in
  let experience_years := default 0%Q (Candidate.experience_years profile) in
  let skills_part :=
    match skills with
    | [] => []
    | _ => ["Skills: " ++ join_comma skills]
    end in
  let roles_part :=
    match preferred_roles with
    | [] => []
    | _ => ["Roles: " ++ join_comma preferred_roles]
    end in
  let experience_part :=
    if Qeq_bool experience_years 0 then []
    else ["Experience: " ++ str_number experience_years ++ " years"] in
  let query_parts := (skills_part ++ roles_part ++ experience_part)%list in
  join_space query_parts.

(** The value of [vector_db.get_document(collection_name="candidates",
    document_id=state.candidate_id)] as [load_candidate_profile] uses
    it. *)
Definition get_profile (vector_db : VectorDb.VectorDatabase Candidate.t)
    (state : MatchingState) (now : A2A.datetime) : outcome (option Document) :=
  Returned
    ((fun d => {| doc_metadata := VectorDb.doc_metadata d |})
       <$> VectorDb.get_document vector_db "candidates" (candidate_id state) now).

(** The value of [vector_db.search(collection_name="jobs",
    query=search_query, limit=50, ...)] as [search_available_jobs] uses
    it. *)
Definition search_jobs (vector_db : VectorDb.VectorDatabase Job.t)
    (state : MatchingState) : outcome (list SearchResult) :=
  Returned
    (map (fun r => {| document_id := VectorDb.document_id r;
                      result_metadata := VectorDb.metadata r;
                      result_score := VectorDb.score r |})
       (VectorDb.search vector_db "jobs"
          (_create_search_query (candidate_profile state)) 50)).

(** The graph of [create_job_matching_graph] on a [VectorDatabase]: the
    profiles are the payloads of the collection of candidates, the jobs
    those of the collection of jobs. *)
Definition run_on_vector_db (candidates : VectorDb.VectorDatabase Candidate.t)
    (jobs : VectorDb.VectorDatabase Job.t) (now : A2A.datetime)
    (initial : MatchingState) : MatchingState :=
  let s1 := load_candidate_profile (get_profile candidates initial now) initial in
  let s2 := search_available_jobs (search_jobs jobs s1) s1 in
  let s3 := process_job_matches s2 in
  fst (notify_candidate_finder s3).

End Query.

End MatchJobsSearch.

(** ** Statements about the protocol and the workflow state *)

Module LanggraphSpec.
Import LanggraphUtils LanggraphExec.

Section Calls.

Context {Any : Type}.

(** A call of one of the three methods that change a [WorkflowState],
    with the time at which it is made. *)
Inductive Call :=
  | CallUpdate (key : string) (value : Any) (now : string)
  | CallAddStep (step_name : string) (result : option Any) (now : string)
  | CallAddError (step_name : string) (error : string) (now : string).

Definition call (c : Call) (self : WorkflowState Any) : WorkflowState Any :=
  match c with
  | CallUpdate key value now => update key value now self
  | CallAddStep step_name result now => add_step step_name result now self
  | CallAddError step_name error now => add_error step_name error now self
  end.

(** The calls [cs], made one after the other. *)
Definition calls (cs : list Call) (self : WorkflowState Any) : WorkflowState Any :=
  fold_left (fun s c => call c s) cs self.

(** The entries that the calls of [add_step] and [add_error] among [cs]
    write, in the order of the calls. *)
Definition steps_of (cs : list Call) : list (StepEntry Any) :=
  flat_map (fun c => match c with
                     | CallAddStep n r t =>
                         [{| step := n; result := r; step_timestamp := t |}]
                     | _ => []
                     end) cs.

Definition errors_of (cs : list Call) : list ErrorEntry :=
  flat_map (fun c => match c with
                     | CallAddError n e t =>
                         [{| error_step := n; error := e; error_timestamp := t |}]
                     | _ => []
                     end) cs.

(** The last value that the calls of [update] among [cs] give to [key],
    and the time of the last call of [update]. *)
Definition last_update (key : string) (cs : list Call) : option Any :=
  fold_left (fun acc c => match c with
                          | CallUpdate k v _ => if String.eqb k key then Some v else acc
                          | _ => acc
                          end) cs None.

Definition last_update_time (cs : list Call) : option string :=
  fold_left (fun acc c => match c with
                          | CallUpdate _ _ t => Some t
                          | _ => acc
                          end) cs None.

End Calls.

End LanggraphSpec.

Module A2ASendSpec.
Import A2A A2ASend.

(** A client that publishes every envelope and keeps what it
    published. *)
Definition recording_client : KafkaClient (list (gmap string value)) :=
  {| publish_message := fun message_data t => PReturn (t ++ [message_data])%list |}.

(** The request that the job matcher sends for three matches of
    candidate [cand-1]. *)
Definition request_Q : MatchRequest :=
  {| request_id := VStr "match_cand-1_3";
     job_id := VNone;
     candidate_id := VStr "cand-1";
     criteria := VDict [("min_match_score", VFloat 0.7); ("max_matches", VInt 10)];
     priority := VStr "normal" |}.

(** An agent that counts the match requests it handles. *)
Definition counting_agent : AgentToAgentProtocol nat :=
  register_handler MATCH_REQUEST (fun _ n => HReturn (S n))
    (new_protocol "candidate_finder_agent").

Definition now_Q : datetime :=
  {| year := 2024; month := 2; day := 29; hour := 7;
     minute := 5; second := 9; microsecond := 1234 |}.

End A2ASendSpec.

Module VectorDbSpec.
Import Py PyText VectorDb.

(** The set of words of a text, as the similarity reads it. *)
Definition words (s : string) : gset string := list_to_set (split (lower s)).

(** Descending order of the scores. *)
Definition by_score {Payload : Type} (a b : SearchResult Payload) : Prop :=
  (score b <= score a)%Q.

(** A store of two jobs, and a store that cannot be reached. *)
Definition job_python : Job.t :=
  Job.mk (Some "Python Developer") (Some "Acme") (Some ["python"]) (Some "mid")
    (Some "Berlin") (Some true) None None.

Definition points_J : list (Point Job.t) :=
  [ {| point_id := "job-1"; point_vector := None;
       payload_text := Some "Skills: python sql";
       payload_timestamp := None; point_payload := job_python |};
    {| point_id := "job-2"; point_vector := None;
       payload_text := Some "Gardening and landscaping";
       payload_timestamp := None; point_payload := Job.empty |} ].

Definition db_J : VectorDatabase Job.t :=
  {| collection_prefix := "jobzee";
     client := Some {| retrieve := fun _ _ => Returned [];
                       scroll := fun _ => Returned points_J |} |}.

End VectorDbSpec.

(** * Properties *)

(** ** Facts about the Python primitives *)

Module PyFacts.
Import Py.

Lemma startswith_app (p s : string) : startswith p (p ++ s) = true.
Proof.
  induction p as [|a p IH]; simpl; [reflexivity|].
  rewrite Ascii.eqb_refl. exact IH.
Qed.

Lemma startswith_split (p s : string) :
  startswith p s = true -> exists r, s = p ++ r.
Proof.
  revert s. induction p as [|a p IH]; intros s H; simpl in *.
  - exists s. reflexivity.
  - destruct s as [|b s]; [discriminate|].
    apply andb_prop in H. destruct H as [Hab Hps].
    apply Ascii.eqb_eq in Hab. subst b.
    destruct (IH _ Hps) as [r ->]. exists r. reflexivity.
Qed.

Lemma contains_startswith (p s : string) :
  startswith p s = true -> contains p s = true.
Proof. destruct s; simpl; intros ->; reflexivity. Qed.

(** [needle in hay] holds exactly when [hay] is [needle] with something in
    front and something behind. *)
Lemma contains_spec (needle hay : string) :
  contains needle hay = true <-> exists l r, hay = l ++ needle ++ r.
Proof.
  split.
  - induction hay as [|c hay IH]; simpl; intros H.
    + rewrite orb_false_r in H. apply startswith_split in H.
      destruct H as [r Hr]. exists "", r. exact Hr.
    + apply orb_prop in H. destruct H as [H|H].
      * apply startswith_split in H. destruct H as [r Hr].
        exists "", r. exact Hr.
      * destruct (IH H) as (l & r & ->). exists (String c l), r. reflexivity.
  - intros (l & r & ->). induction l as [|c l IH]; simpl.
    + apply contains_startswith. exact (startswith_app needle r).
    + rewrite IH. apply orb_true_r.
Qed.

(** The empty string occurs in every string. *)
Lemma contains_empty (hay : string) : contains "" hay = true.
Proof. destruct hay; reflexivity. Qed.

Lemma lower_empty : lower "" = "".
Proof. reflexivity. Qed.

Lemma Qltb_lt (x y : Q) : Qltb x y = true <-> (x < y)%Q.
Proof.
  unfold Qltb. rewrite negb_true_iff. split; intros H.
  - apply Qnot_le_lt. intros Hle. apply Qle_bool_iff in Hle. congruence.
  - destruct (Qle_bool y x) eqn:E; [|reflexivity].
    apply Qle_bool_iff in E. exfalso. exact (Qlt_not_le _ _ H E).
Qed.

Lemma Qltb_ge (x y : Q) : Qltb x y = false <-> (y <= x)%Q.
Proof.
  unfold Qltb. rewrite negb_false_iff. apply Qle_bool_iff.
Qed.

Lemma Qle_bool_false (x y : Q) : Qle_bool x y = false <-> (y < x)%Q.
Proof.
  rewrite <- Qltb_lt. unfold Qltb. rewrite negb_true_iff. reflexivity.
Qed.

End PyFacts.

(** ** The scoring engine of [match_jobs.py] *)

Module MatchJobsProofs.
Import Py PyFacts MatchJobs MatchJobsSpec.

(** *** Experience bands *)

Ltac known_band k name :=
  destruct (String.eqb_spec k name) as [->|?]; [vm_compute; reflexivity|].

Lemma extract_band (level : string) :
  (_extract_min_experience level, _extract_max_experience level)
  = band_range (lower level).
Proof.
  unfold _extract_min_experience, _extract_max_experience.
  generalize (lower level) as k. intros k.
  known_band k "entry". known_band k "junior". known_band k "mid".
  known_band k "senior". known_band k "lead". known_band k "principal".
  unfold band_range, min_mappings, max_mappings.
  rewrite !lookup_insert_ne, !lookup_empty by congruence.
  repeat match goal with
         | H : ?a <> ?b |- context [String.eqb ?a ?b] =>
             rewrite (proj2 (String.eqb_neq a b) H)
         end.
  reflexivity.
Qed.

Lemma band_range_ordered (band : string) :
  (fst (band_range band) <= snd (band_range band))%Z.
Proof.
  unfold band_range.
  repeat match goal with
         | |- context [if ?c then _ else _] => destruct c
         end; simpl; lia.
Qed.

Lemma extract_min_le_max (level : string) :
  (_extract_min_experience level <= _extract_max_experience level)%Z.
Proof.
  pose proof (extract_band level) as E.
  pose proof (band_range_ordered (lower level)) as O.
  rewrite <- E in O. exact O.
Qed.

Lemma experience_fit_cases (y : Q) (lo hi : Z) :
  (lo <= hi)%Z ->
  ((inject_Z lo <= y /\ y <= inject_Z hi)%Q -> experience_fit y lo hi = 1%Q)
  /\ ((y < inject_Z lo)%Q ->
      experience_fit y lo hi = Qmax 0 (1 - (inject_Z lo - y) / 5))
  /\ ((inject_Z hi < y)%Q ->
      experience_fit y lo hi = Qmax 0 (1 - (y - inject_Z hi) / 5)).
Proof.
  intros Hlohi. unfold experience_fit.
  assert (Hq : (inject_Z lo <= inject_Z hi)%Q) by (rewrite <- Zle_Qle; exact Hlohi).
  repeat split.
  - intros [H1 H2].
    apply Qle_bool_iff in H1. apply Qle_bool_iff in H2.
    rewrite H1, H2. reflexivity.
  - intros H.
    assert (E : Qle_bool (inject_Z lo) y = false) by (apply Qle_bool_false; exact H).
    rewrite E. simpl.
    apply Qltb_lt in H. rewrite H. reflexivity.
  - intros H.
    assert (E : Qle_bool y (inject_Z hi) = false) by (apply Qle_bool_false; exact H).
    rewrite E, andb_false_r.
    assert (E2 : Qltb y (inject_Z lo) = false).
    { apply Qltb_ge. apply Qlt_le_weak. eapply Qle_lt_trans; eassumption. }
    rewrite E2. reflexivity.
Qed.

(** The factor of Scenario C and the float of the literal [0.2], in
    binary64. *)
Lemma scenario_C_float :
  MatchJobsFloat.experience_factor (Float64.of_int 1) job_senior
  = SpecFloat.S754_finite false 7205759403792792 (-55)
  /\ Float64.of_decimal 2 1 = SpecFloat.S754_finite false 7205759403792794 (-55).
Proof. split; vm_compute; reflexivity. Qed.

(** On whole years up to 40 and every band, the factor computed in
    binary64 is within [2^-53] of the factor in exact arithmetic. *)
Lemma experience_agrees_grid :
  forallb (fun years => forallb (experience_agrees years) band_names) (seq 0 41) = true.
Proof. vm_compute. reflexivity. Qed.

(** C8, as stated, fails in its last sentence. For one year against the
    band "senior" the program evaluates [1.0 - (5 - 1) / 5.0] in binary
    floating point: the quotient is the float nearest to 0.8, and the
    difference is 0.19999999999999996 (mantissa 7205759403792792 at
    exponent -55), which is not the float 0.2 (mantissa 7205759403792794):
    the comparison [== 0.2] is false. *)
Lemma C8_counterexample :
  MatchJobsFloat.experience_factor (Float64.of_int 1) job_senior
  = SpecFloat.S754_finite false 7205759403792792 (-55)
  /\ Float64.of_decimal 2 1 = SpecFloat.S754_finite false 7205759403792794 (-55)
  /\ Float64.eqb (MatchJobsFloat.experience_factor (Float64.of_int 1) job_senior)
       (Float64.of_decimal 2 1) = false
  /\ ~ scenario_C_spec.
Proof.
  destruct scenario_C_float as [E1 E2].
  assert (N : Float64.eqb
                (MatchJobsFloat.experience_factor (Float64.of_int 1) job_senior)
                (Float64.of_decimal 2 1) = false)
    by (rewrite E1, E2; reflexivity).
  split; [exact E1|]. split; [exact E2|]. split; [exact N|].
  unfold scenario_C_spec. rewrite N. discriminate.
Qed.

(** C8, amended. The band of the counterpart fixes the inclusive range of
    years (entry/junior [0,2], mid [3,5], senior [5,8], lead [8,12],
    principal [12,20], any other name [0,5]); the experience factor is 1
    inside the range, [max(0, 1 - (min - years)/5)] below it and
    [max(0, 1 - (years - max)/5)] above it. The program evaluates these
    formulas in binary floating point: for whole years up to 40 and every
    band its result is within [2^-53] of their exact value; and one year
    against the band "senior" gives 0.19999999999999996, which is below
    0.2 by less than [10^-16], not 0.2 itself. *)
Theorem C8_experience_factor :
  (forall level : string,
      (_extract_min_experience level, _extract_max_experience level)
      = band_range (lower level))
  /\ (forall (candidate_profile : Candidate.t) (job_data : Job.t),
        let years := default 0%Q (Candidate.experience_years candidate_profile) in
        let level := default "" (Job.experience_level job_data) in
        let lo := inject_Z (_extract_min_experience level) in
        let hi := inject_Z (_extract_max_experience level) in
        ((lo <= years /\ years <= hi)%Q ->
           experience_factor candidate_profile job_data = 1%Q)
        /\ ((years < lo)%Q ->
           experience_factor candidate_profile job_data
           = Qmax 0 (1 - (lo - years) / 5))
        /\ ((hi < years)%Q ->
           experience_factor candidate_profile job_data
           = Qmax 0 (1 - (years - hi) / 5)))
  /\ (forall (years : nat) (level : string),
        (years <= 40)%nat -> In level band_names ->
        experience_agrees years level = true)
  /\ (exists q : Q,
        Float64.to_Q (MatchJobsFloat.experience_factor (Float64.of_int 1) job_senior)
        = Some q
        /\ (q < 0.2)%Q /\ (0.2 - q < 1 # 10 ^ 16)%Q).
Proof.
  split; [exact extract_band|]. split; [|split].
  - intros c j years level lo hi. unfold experience_factor.
    apply experience_fit_cases. apply extract_min_le_max.
  - intros years level Hy Hl.
    pose proof experience_agrees_grid as G.
    rewrite forallb_forall in G.
    assert (Hin : In years (seq 0 41)) by (apply in_seq; lia).
    specialize (G years Hin). rewrite forallb_forall in G.
    exact (G level Hl).
  - rewrite (proj1 scenario_C_float).
    eexists. split; [reflexivity|]. split; vm_compute; reflexivity.
Qed.

Lemma C8_experience_factor_witness :
  experience_factor (candidate_years 6) job_senior = 1%Q
  /\ (experience_factor (candidate_years 11) job_senior == 0.4)%Q
  /\ experience_agrees 1 "senior" = true.
Proof.
  destruct C8_experience_factor as (_ & Hcases & Hgrid & _).
  destruct (Hcases (candidate_years 6) job_senior) as (Hin & _ & _).
  split; [apply Hin; vm_compute; split; discriminate|].
  destruct (Hcases (candidate_years 11) job_senior) as (_ & _ & Habove).
  split; [rewrite Habove; [vm_compute; reflexivity|vm_compute; reflexivity]|].
  apply Hgrid; [repeat constructor|].
  right. right. right. left. reflexivity.
Defined.

(** *** Skill factor *)


(** *** Location and salary factors *)

Lemma startswith_refl (s : string) : startswith s s = true.
Proof.
  induction s as [|a s IH]; simpl; [reflexivity|].
  rewrite Ascii.eqb_refl. exact IH.
Qed.

Lemma contains_refl (s : string) : contains s s = true.
Proof. apply contains_startswith, startswith_refl. Qed.

Lemma location_factor_same (candidate_profile : Candidate.t) (job_data : Job.t) :
  default "" (Candidate.location candidate_profile)
  = default "" (Job.location job_data) ->
  location_factor candidate_profile job_data = 1%Q.
Proof.
  intros E. unfold location_factor. rewrite E, contains_refl. reflexivity.
Qed.

Lemma location_factor_empty (candidate_profile : Candidate.t) (job_data : Job.t) :
  default "" (Candidate.location candidate_profile) = ""
  \/ default "" (Job.location job_data) = "" ->
  location_factor candidate_profile job_data = 1%Q.
Proof.
  unfold location_factor. intros [E|E]; rewrite E; simpl.
  - rewrite contains_empty. reflexivity.
  - rewrite contains_empty, orb_true_r. reflexivity.
Qed.

Lemma salary_match_no_numbers (candidate_salary job_salary : string) :
  findall_ints candidate_salary = [] \/ findall_ints job_salary = [] ->
  _calculate_salary_match candidate_salary job_salary = 0.5%Q.
Proof.
  unfold _calculate_salary_match. intros H.
  destruct (str_falsy candidate_salary || str_falsy job_salary); [reflexivity|].
  destruct H as [-> | ->]; [reflexivity|].
  destruct (findall_ints candidate_salary); reflexivity.
Qed.

(** *** Scenario A *)

(** C2, as stated, fails: on the input of Scenario A the aggregate is not
    within 0.05 of 0.7167. *)
Lemma C2_counterexample :
  scenario_A (candidate_profile state_A) (metadata job_A)
  /\ ~ (Qabs (match_score (analyze_job_match state_A job_A) - 0.7167) <= 0.05)%Q.
Proof.
  split.
  - repeat split.
  - intros H. vm_compute in H. apply H. reflexivity.
Qed.

(** C2, amended. On the input of Scenario A the factors are 2/3, 1, 1 and
    0.5, and the aggregate is 0.4*(2/3) + 0.3*1 + 0.2*1 + 0.1*0.5 = 49/60,
    that is 0.8167 to four places. *)
Theorem C2_scenario_A (state : MatchingState) (job_data : JobResult) :
  scenario_A (candidate_profile state) (metadata job_data) ->
  let m := analyze_job_match state job_data in
  factors (candidate_profile state) (metadata job_data) (skills_match m)
  = {| skills_score := 2 # 3; exp_score := 1; location_score := 1;
       salary_score := 0.5 |}
  /\ (match_score m == 0.4 * (2 # 3) + 0.3 * 1 + 0.2 * 1 + 0.1 * 0.5)%Q
  /\ (match_score m == 49 # 60)%Q
  /\ (Qabs (match_score m - 0.8167) <= 0.00005)%Q.
Proof.
  intros (Hcs & Hjs & Hlvl & Hy & Hloc & Hsal1 & Hsal2) m.
  assert (F : factors (candidate_profile state) (metadata job_data) (skills_match m)
              = {| skills_score := 2 # 3; exp_score := 1; location_score := 1;
                   salary_score := 0.5 |}).
  { unfold factors. f_equal.
    - unfold m, analyze_job_match, skills_factor. simpl.
      rewrite Hcs, Hjs. vm_compute. reflexivity.
    - unfold experience_factor. rewrite Hy, Hlvl. vm_compute. reflexivity.
    - apply location_factor_same. exact Hloc.
    - unfold salary_factor. apply salary_match_no_numbers. left. exact Hsal1. }
  assert (S : match_score m
              = Qmin 1 (Qmax 0 (total_score
                  {| skills_score := 2 # 3; exp_score := 1; location_score := 1;
                     salary_score := 0.5 |}))).
  { rewrite <- F. reflexivity. }
  split; [exact F|]. rewrite S.
  split; [|split]; vm_compute; try reflexivity.
  intros H. discriminate H.
Qed.

(** At the input of the counterexample the amended statement applies. *)
Lemma C2_scenario_A_witness :
  scenario_A (candidate_profile state_A) (metadata job_A)
  /\ (match_score (analyze_job_match state_A job_A) == 49 # 60)%Q.
Proof.
  assert (H : scenario_A (candidate_profile state_A) (metadata job_A))
    by (repeat split).
  split; [exact H|].
  exact (proj1 (proj2 (proj2 (C2_scenario_A state_A job_A H)))).
Defined.

(** *** Weights *)

(** The score does not depend on the weights of the state. *)
Lemma weights_not_read (w1 w2 w3 w4 : Q) (state : MatchingState) (job_data : JobResult) :
  analyze_job_match (with_weights w1 w2 w3 w4 state) job_data
  = analyze_job_match state job_data.
Proof. reflexivity. Qed.

(** C7 (the code departs from it). With caller weights 1, 0, 0, 0 and
    factors 1, 0, 0, 0.5, the weighted sum with the caller's weights is 1,
    and the score that the code returns is 0.4*1 + 0.1*0.5 = 0.45: the
    literals 0.4, 0.3, 0.2, 0.1 are used whatever the state carries. *)
Theorem C7_state_weights_ignored :
  let m := analyze_job_match state_W job_W in
  let f := factors (candidate_profile state_W) (metadata job_W) (skills_match m) in
  f = {| skills_score := 1; exp_score := 0; location_score := 0; salary_score := 0.5 |}
  /\ (required_skills_weight state_W + experience_weight state_W
      + location_weight state_W + salary_weight state_W == 1)%Q
  /\ (caller_weighted_sum state_W f == 1)%Q
  /\ (match_score m == 0.45)%Q
  /\ ~ (match_score m == caller_weighted_sum state_W f)%Q.
Proof.
  cbv zeta. repeat split; try (vm_compute; reflexivity).
  intros H. vm_compute in H. discriminate H.
Qed.

(** *** The aggregate is a number of [[0,1]] *)

Lemma clamp_unit (q : Q) : (0 <= Qmin 1 (Qmax 0 q) /\ Qmin 1 (Qmax 0 q) <= 1)%Q.
Proof.
  split.
  - apply Q.min_glb; [discriminate|apply Q.le_max_l].
  - apply Q.le_min_l.
Qed.

Lemma match_score_unit (candidate_profile : Candidate.t) (job_data : Job.t)
    (skills_match missing_skills : list string) :
  (0 <= _calculate_match_score candidate_profile job_data skills_match missing_skills
   /\ _calculate_match_score candidate_profile job_data skills_match missing_skills <= 1)%Q.
Proof. apply clamp_unit. Qed.

(** *** Ranking *)

Lemma collect_matches_eq (state : MatchingState) (jobs : list JobResult) :
  forall acc : list JobMatch,
    collect_matches state jobs acc
    = (acc ++ firstn (Z.to_nat (max_matches state) - length acc)
                (List.filter (passes state) (map (analyze_job_match state) jobs)))%list.
Proof.
  induction jobs as [|j jobs IH]; intros acc;
    cbn [collect_matches map List.filter].
  - rewrite firstn_nil, app_nil_r. reflexivity.
  - destruct (Z.leb_spec (max_matches state) (Z.of_nat (length acc))) as [Hfull|Hroom].
    + replace (Z.to_nat (max_matches state) - length acc)%nat with 0%nat by lia.
      cbn [firstn]. rewrite app_nil_r. reflexivity.
    + unfold passes at 1.
      destruct (Qle_bool (min_match_score state)
                  (match_score (analyze_job_match state j))).
      * rewrite IH, length_app. cbn [length].
        replace (Z.to_nat (max_matches state) - length acc)%nat
          with (S (Z.to_nat (max_matches state) - (length acc + 1)))%nat by lia.
        cbn [firstn]. rewrite <- app_assoc. reflexivity.
      * apply IH.
Qed.

Lemma insert_desc_perm (x : JobMatch) (l : list JobMatch) :
  Permutation (insert_desc x l) (x :: l).
Proof.
  induction l as [|y l IH]; simpl; [reflexivity|].
  destruct (Qltb (match_score x) (match_score y)); [|reflexivity].
  rewrite IH. apply perm_swap.
Qed.

Lemma sort_perm (l : list JobMatch) : Permutation (sort_by_score_desc l) l.
Proof.
  induction l as [|x l IH]; simpl; [reflexivity|].
  rewrite insert_desc_perm, IH. reflexivity.
Qed.

Lemma insert_desc_sorted (x : JobMatch) (l : list JobMatch) :
  StronglySorted score_ge l -> StronglySorted score_ge (insert_desc x l).
Proof.
  induction 1 as [|y l Hs IH Hy]; simpl.
  - repeat constructor.
  - destruct (Qltb (match_score x) (match_score y)) eqn:E.
    + constructor; [exact IH|].
      rewrite insert_desc_perm. constructor; [|exact Hy].
      apply Qltb_lt in E. unfold score_ge. apply Qlt_le_weak. exact E.
    + apply Qltb_ge in E. constructor; [constructor; assumption|].
      constructor; [exact E|].
      eapply Forall_impl; [exact Hy|].
      intros z Hz. unfold score_ge in *. eapply Qle_trans; eassumption.
Qed.

Lemma sort_sorted (l : list JobMatch) : StronglySorted score_ge (sort_by_score_desc l).
Proof.
  induction l as [|x l IH]; simpl; [constructor|].
  apply insert_desc_sorted. exact IH.
Qed.

(** Stability: among the results of one score, the sort keeps the order
    of its input. *)
Lemma insert_desc_stable (q : Q) (x : JobMatch) (l : list JobMatch) :
  List.filter (same_score q) (insert_desc x l)
  = List.filter (same_score q) (x :: l).
Proof.
  induction l as [|y l IH]; [reflexivity|].
  simpl insert_desc.
  destruct (Qltb (match_score x) (match_score y)) eqn:E; [|reflexivity].
  simpl. simpl in IH. rewrite IH.
  destruct (same_score q x) eqn:Ex, (same_score q y) eqn:Ey; try reflexivity.
  exfalso. apply Qltb_lt in E.
  unfold same_score in Ex, Ey.
  apply Qeq_bool_iff in Ex. apply Qeq_bool_iff in Ey.
  rewrite Ex, Ey in E. exact (Qlt_irrefl _ E).
Qed.

Lemma sort_stable (q : Q) (l : list JobMatch) :
  List.filter (same_score q) (sort_by_score_desc l) = List.filter (same_score q) l.
Proof.
  induction l as [|x l IH]; [reflexivity|].
  simpl sort_by_score_desc. rewrite insert_desc_stable.
  simpl. rewrite IH. reflexivity.
Qed.

Lemma process_job_matches_eq (state : MatchingState) :
  matches (process_job_matches state) = sort_by_score_desc (selected state).
Proof.
  unfold process_job_matches, selected, scored. simpl.
  rewrite collect_matches_eq. simpl. rewrite Nat.sub_0_r. reflexivity.
Qed.

(** C6, as stated, fails: with a maximum of one match, the ranking of the
    specification returns the best job (J2, 0.95); the code returns the
    first job found that reaches the threshold (J1, 0.75). *)
Lemma C6_counterexample :
  map job_id (scored state_R) = ["J1"; "J2"]
  /\ Forall2 Qeq (map match_score (scored state_R)) [0.75; 0.95]%Q
  /\ map job_id (rank_spec state_R) = ["J2"]
  /\ map job_id (matches (process_job_matches state_R)) = ["J1"]
  /\ matches (process_job_matches state_R) <> rank_spec state_R.
Proof.
  split; [vm_compute; reflexivity|].
  split; [vm_compute; repeat constructor|].
  split; [vm_compute; reflexivity|].
  split; [vm_compute; reflexivity|].
  intros H. apply (f_equal (map job_id)) in H.
  vm_compute in H. discriminate H.
Qed.

Lemma selected_passes (state : MatchingState) :
  Forall (fun m => (min_match_score state <= match_score m)%Q) (selected state).
Proof.
  apply List.Forall_forall. intros m Hm.
  unfold selected in Hm.
  assert (Hin : In m (List.filter (passes state) (scored state))).
  { rewrite <- (firstn_skipn (Z.to_nat (max_matches state))).
    apply in_or_app. left. exact Hm. }
  clear Hm. rename Hin into Hm.
  apply filter_In in Hm. destruct Hm as [_ Hm].
  apply Qle_bool_iff. exact Hm.
Qed.

Lemma selected_length (state : MatchingState) :
  (Z.of_nat (length (selected state)) <= Z.max 0 (max_matches state))%Z.
Proof.
  unfold selected.
  pose proof (firstn_le_length (Z.to_nat (max_matches state))
                (List.filter (passes state) (scored state))) as H1.
  rewrite length_firstn. lia.
Qed.

(** Sorting three results whose scores are 0.9, 0.9 and 0.7 leaves them in
    place. *)
Lemma sort_scenario_D (a b c : JobMatch) :
  (match_score a == 0.9)%Q -> (match_score b == 0.9)%Q ->
  (match_score c == 0.7)%Q ->
  sort_by_score_desc [a; b; c] = [a; b; c].
Proof.
  intros Ha Hb Hc. unfold sort_by_score_desc. cbn [fold_right insert_desc].
  assert (E1 : Qltb (match_score b) (match_score c) = false).
  { apply Qltb_ge. rewrite Hb, Hc. discriminate. }
  rewrite E1. cbn [insert_desc].
  assert (E2 : Qltb (match_score a) (match_score b) = false).
  { apply Qltb_ge. rewrite Ha, Hb. discriminate. }
  rewrite E2. reflexivity.
Qed.

(** C6, amended. The loop keeps the first [max_matches] results, in search
    order, among those that reach the threshold (so the results below it
    take no place), and only then sorts what it kept: the returned list is
    the stable sort by descending score of that selection. It is sorted,
    results of equal score are in search order, every score reaches the
    threshold and the length is at most [max_matches]; it need not hold the
    best-scoring results. Three results scoring 0.9, 0.9 and 0.7, with a
    threshold of at most 0.7 and a maximum of at least 3, are returned in
    search order. *)
Theorem C6_ranking (state : MatchingState) :
  let result := matches (process_job_matches state) in
  result = sort_by_score_desc (selected state)
  /\ StronglySorted score_ge result
  /\ Permutation result (selected state)
  /\ (forall q : Q,
        List.filter (same_score q) result
        = List.filter (same_score q) (selected state))
  /\ Forall (fun m => (min_match_score state <= match_score m)%Q) result
  /\ (Z.of_nat (length result) <= Z.max 0 (max_matches state))%Z
  /\ (forall j3 j1 j2 : JobResult,
        available_jobs state = [j3; j1; j2] ->
        (match_score (analyze_job_match state j3) == 0.9)%Q ->
        (match_score (analyze_job_match state j1) == 0.9)%Q ->
        (match_score (analyze_job_match state j2) == 0.7)%Q ->
        (min_match_score state <= 0.7)%Q ->
        (3 <= max_matches state)%Z ->
        result = [analyze_job_match state j3; analyze_job_match state j1;
                  analyze_job_match state j2]).
Proof.
  intros result. unfold result. rewrite process_job_matches_eq.
  split; [reflexivity|].
  split; [apply sort_sorted|].
  split; [apply sort_perm|].
  split; [intros q; apply sort_stable|].
  split.
  { rewrite sort_perm. apply selected_passes. }
  split.
  { rewrite sort_perm. apply selected_length. }
  intros j3 j1 j2 Hjobs H3 H1 H2 Hmin Hmax.
  assert (P3 : passes state (analyze_job_match state j3) = true).
  { apply Qle_bool_iff. rewrite H3. eapply Qle_trans; [exact Hmin|discriminate]. }
  assert (P1 : passes state (analyze_job_match state j1) = true).
  { apply Qle_bool_iff. rewrite H1. eapply Qle_trans; [exact Hmin|discriminate]. }
  assert (P2 : passes state (analyze_job_match state j2) = true).
  { apply Qle_bool_iff. rewrite H2. exact Hmin. }
  unfold selected, scored. rewrite Hjobs.
  cbn [map List.filter]. rewrite P3, P1, P2.
  replace (Z.to_nat (max_matches state)) with (S (S (S (Z.to_nat (max_matches state) - 3))))
    by lia.
  cbn [firstn]. rewrite firstn_nil.
  apply sort_scenario_D; assumption.
Qed.

Lemma C6_ranking_witness :
  map job_id (matches (process_job_matches state_D)) = ["C3"; "C1"; "C2"].
Proof.
  pose proof (C6_ranking state_D) as H. cbv zeta in H.
  destruct H as (_ & _ & _ & _ & _ & _ & H).
  rewrite (H _ _ _ eq_refl);
    [reflexivity | vm_compute; reflexivity | vm_compute; reflexivity
     | vm_compute; reflexivity | vm_compute; discriminate | vm_compute; discriminate].
Defined.

(** *** The error record of the state *)




End MatchJobsProofs.

(** ** The profile analyzer of [analyze_candidates.py] *)

Module AnalyzeCandidatesProofs.
Import Py PyFacts AnalyzeCandidates AnalyzeCandidatesSpec.

Lemma in_unit_min_1 (q : Q) : (0 <= q)%Q -> in_unit (Qmin 1 q).
Proof.
  intros H. split.
  - apply Q.min_glb; [discriminate|exact H].
  - apply Q.le_min_l.
Qed.

Lemma in_unit_max_0 (q : Q) : (q <= 1)%Q -> in_unit (Qmax 0 q).
Proof.
  intros H. split.
  - apply Q.le_max_l.
  - apply Q.max_lub; [discriminate|exact H].
Qed.

Lemma ratio_nonneg (n d : nat) :
  (0 <= inject_Z (Z.of_nat n) / inject_Z (Z.of_nat d))%Q.
Proof.
  unfold Qdiv. apply Qmult_le_0_compat.
  - change 0%Q with (inject_Z 0). rewrite <- Zle_Qle. lia.
  - apply Qinv_le_0_compat. change 0%Q with (inject_Z 0).
    rewrite <- Zle_Qle. lia.
Qed.

Lemma decay_le_1 (gap : Q) : (0 <= gap)%Q -> (1 - gap / 5 <= 1)%Q.
Proof.
  intros H.
  assert (0 <= gap / 5)%Q by (apply Qle_shift_div_l; [reflexivity|lra]).
  lra.
Qed.

Lemma experience_fit_unit (y : Q) (lo hi : Z) :
  in_unit (MatchJobs.experience_fit y lo hi).
Proof.
  unfold MatchJobs.experience_fit.
  destruct (Qle_bool (inject_Z lo) y) eqn:E1; simpl.
  - destruct (Qle_bool y (inject_Z hi)) eqn:E2.
    + split; discriminate.
    + apply Qle_bool_iff in E1. apply Qle_bool_false in E2.
      assert (E3 : Qltb y (inject_Z lo) = false) by (apply Qltb_ge; exact E1).
      rewrite E3. apply in_unit_max_0, decay_le_1. lra.
  - apply Qle_bool_false in E1.
    assert (E3 : Qltb y (inject_Z lo) = true) by (apply Qltb_lt; exact E1).
    rewrite E3. apply in_unit_max_0, decay_le_1. lra.
Qed.

Lemma skill_score_unit (state : AnalysisState) :
  in_unit (get_skill_score (analyze_skills state)).
Proof.
  unfold get_skill_score, analyze_skills. simpl.
  apply in_unit_min_1.
  destruct (_ =? _)%nat; [discriminate|].
  apply Qmult_le_0_compat; [apply ratio_nonneg|discriminate].
Qed.

Lemma experience_score_unit (state : AnalysisState) :
  in_unit (get_experience_score (analyze_experience state)).
Proof.
  unfold get_experience_score, analyze_experience. simpl.
  pose proof (experience_fit_unit
                (default 0%Q (Candidate.experience_years (candidate_profile state)))
                (_extract_min_experience
                   (default "" (Job.experience_level (job_requirements state))))
                (_extract_max_experience
                   (default "" (Job.experience_level (job_requirements state)))))
    as H.
  unfold MatchJobs.experience_fit in H.
  destruct (Qle_bool _ _ && Qle_bool _ _); [exact H|].
  destruct (Qltb _ _); exact H.
Qed.

Lemma raw_cultural_fit_nonneg (state : AnalysisState) :
  (0 <= raw_cultural_fit_score state)%Q.
Proof.
  unfold raw_cultural_fit_score.
  destruct (experience_aligned state), (remote_matches state),
    (location_compatible state); discriminate.
Qed.

Lemma cultural_score_unit (state : AnalysisState) :
  in_unit (get_cultural_score (assess_cultural_fit state)).
Proof.
  unfold get_cultural_score, assess_cultural_fit. simpl.
  apply in_unit_min_1, raw_cultural_fit_nonneg.
Qed.

Lemma github_score_unit (r : GithubAnalysis) : in_unit (_calculate_github_score r).
Proof.
  unfold _calculate_github_score. apply in_unit_min_1.
  repeat match goal with
         | |- context [if ?c then _ else _] => destruct c
         end; discriminate.
Qed.

Lemma resume_score_unit (r : ResumeAnalysis) : in_unit (_calculate_resume_score r).
Proof.
  unfold _calculate_resume_score. apply in_unit_min_1.
  repeat match goal with
         | |- context [if ?c then _ else _] => destruct c
         end; discriminate.
Qed.

Lemma analyze_link_unit (tools : Tools) (m : gmap string Q) (link : string) :
  scores_in_unit m -> scores_in_unit (analyze_link tools m link).
Proof.
  intros H. unfold analyze_link.
  destruct (contains "github.com" link).
  { destruct (analyze_github_profile tools link); [|exact H].
    apply map_Forall_insert_2; [apply github_score_unit|exact H]. }
  destruct (contains "linkedin.com" link).
  { apply map_Forall_insert_2; [split; discriminate|exact H]. }
  destruct (_ || _); [|exact H].
  destruct (parse_resume tools link); [|exact H].
  apply map_Forall_insert_2; [apply resume_score_unit|exact H].
Qed.

Lemma analyze_links_unit (tools : Tools) (links : list string) :
  forall m : gmap string Q,
    scores_in_unit m -> scores_in_unit (fold_left (analyze_link tools) links m).
Proof.
  induction links as [|link links IH]; intros m H; simpl; [exact H|].
  apply IH, analyze_link_unit, H.
Qed.

Lemma sum_scores_bounds (l : list Q) :
  Forall in_unit l ->
  (0 <= sum_scores l /\ sum_scores l <= inject_Z (Z.of_nat (length l)))%Q.
Proof.
  induction 1 as [|q l [Hq0 Hq1] _ [IH0 IH1]]; simpl sum_scores.
  - split; discriminate.
  - cbn [length]. rewrite Nat2Z.inj_succ, <- Z.add_1_r, inject_Z_plus.
    change (inject_Z 1) with 1%Q. split; lra.
Qed.

Lemma mean_unit (l : list Q) :
  Forall in_unit l ->
  in_unit (match l with
           | [] => 0%Q
           | _ => (sum_scores l / inject_Z (Z.of_nat (length l)))%Q
           end).
Proof.
  intros H. destruct l as [|q l]; [split; discriminate|].
  destruct (sum_scores_bounds _ H) as [H0 H1].
  assert (Hpos : (0 < inject_Z (Z.of_nat (length (q :: l))))%Q).
  { change 0%Q with (inject_Z 0). rewrite <- Zlt_Qlt. cbn [length]. lia. }
  split.
  - apply Qle_shift_div_l; [exact Hpos|]. lra.
  - apply Qle_shift_div_r; [exact Hpos|]. lra.
Qed.

Lemma portfolio_score_unit (tools : Tools) (state : AnalysisState) :
  in_unit (get_portfolio_score (analyze_portfolio tools state)).
Proof.
  unfold get_portfolio_score, analyze_portfolio. simpl.
  apply mean_unit.
  apply Forall_fmap.
  assert (H : scores_in_unit
                (fold_left (analyze_link tools)
                   (default [] (Candidate.portfolio_links (candidate_profile state))) ∅)).
  { apply analyze_links_unit. apply map_Forall_empty. }
  apply map_Forall_to_list in H.
  eapply Forall_impl; [exact H|]. intros [k q] Hq. exact Hq.
Qed.

(** After the four analysis stages, every sub-score lies in [[0,1]]. *)
Lemma stages_sub_scores_in_unit (tools : Tools) (state : AnalysisState) :
  sub_scores_in_unit
    (assess_cultural_fit
      (analyze_portfolio tools (analyze_experience (analyze_skills state)))).
Proof.
  split; [|split; [|split]].
  - exact (skill_score_unit state).
  - exact (experience_score_unit (analyze_skills state)).
  - exact (portfolio_score_unit tools (analyze_experience (analyze_skills state))).
  - apply cultural_score_unit.
Qed.

(** C1. The score of [_calculate_match_score] lies in [[0,1]] for all its
    arguments (the weighted sum is clamped); and when the four sub-scores
    held by an analysis state lie in [[0,1]], the overall score that
    [generate_final_assessment] stores,
    0.35*skill + 0.25*experience + 0.25*portfolio + 0.15*cultural,
    lies in [[0,1]]. *)
Theorem C1_scores_in_unit_interval :
  (forall (candidate_profile : Candidate.t) (job_data : Job.t)
          (skills_match missing_skills : list string),
      in_unit (MatchJobs._calculate_match_score candidate_profile job_data
                 skills_match missing_skills))
  /\ (forall state : AnalysisState,
        sub_scores_in_unit state ->
        exists r : AnalysisResults,
          analysis_results (generate_final_assessment state) = Some r
          /\ overall_score r
             = (get_skill_score state * 0.35 + get_experience_score state * 0.25
                + get_portfolio_score state * 0.25
                + get_cultural_score state * 0.15)%Q
          /\ in_unit (overall_score r)).
Proof.
  split.
  - intros c j sm ms. apply MatchJobsProofs.clamp_unit.
  - intros state ([Hs0 Hs1] & [He0 He1] & [Hp0 Hp1] & [Hc0 Hc1]).
    eexists. split; [reflexivity|]. split; [reflexivity|].
    unfold overall_score, weighted_overall_score, in_unit. lra.
Qed.

Lemma C1_scores_in_unit_interval_witness :
  sub_scores_in_unit analysed_P
  /\ exists r : AnalysisResults,
       analysis_results (generate_final_assessment analysed_P) = Some r
       /\ in_unit (overall_score r).
Proof.
  assert (H : sub_scores_in_unit analysed_P).
  { vm_compute. repeat split; discriminate. }
  split; [exact H|].
  destruct (proj2 C1_scores_in_unit_interval analysed_P H) as (r & Hr & _ & Hu).
  exists r. split; [exact Hr|exact Hu].
Defined.

(** *** Location compatibility *)

Lemma location_compatible_empty (state : AnalysisState) :
  default "" (Candidate.location (candidate_profile state)) = ""
  \/ default "" (Job.location (job_requirements state)) = "" ->
  location_compatible state = true.
Proof.
  unfold location_compatible. intros [E|E]; rewrite E; simpl.
  - rewrite contains_empty. reflexivity.
  - rewrite contains_empty. apply orb_true_r.
Qed.

(** C10. When the location text of either side is empty, the containment
    test [a in b or b in a] holds whatever the other side is: the location
    factor is 1 and the cultural-fit location bonus is granted. This is in
    particular so when neither dict has a location. *)
Theorem C10_empty_location :
  (forall (candidate : Candidate.t) (job : Job.t),
      default "" (Candidate.location candidate) = ""
      \/ default "" (Job.location job) = "" ->
      location_always_matches candidate job)
  /\ (forall (candidate : Candidate.t) (job : Job.t),
        Candidate.location candidate = None ->
        Job.location job = None ->
        location_always_matches candidate job).
Proof.
  assert (A : forall candidate job,
             default "" (Candidate.location candidate) = ""
             \/ default "" (Job.location job) = "" ->
             location_always_matches candidate job).
  { intros candidate job H. split.
    - apply MatchJobsProofs.location_factor_empty. exact H.
    - intros state Hc Hj. subst candidate job.
      eexists. split; [reflexivity|]. simpl.
      pose proof (location_compatible_empty state H) as L.
      split; [exact L|].
      unfold raw_cultural_fit_score, score_before_location.
      rewrite L. reflexivity. }
  split; [exact A|].
  intros candidate job Hc Hj. apply A. left. rewrite Hc. reflexivity.
Qed.

Lemma C10_empty_location_witness :
  default "" (Candidate.location candidate_L) = ""
  /\ location_always_matches candidate_L job_P.
Proof.
  split; [reflexivity|].
  exact (proj1 C10_empty_location candidate_L job_P (or_introl eq_refl)).
Defined.

End AnalyzeCandidatesProofs.

(** ** The message protocol of [a2a_protocol.py] *)

Module A2AProofs.
Import Py PyFacts A2A A2ASpec.

(** *** Round trip of the wire form *)

Lemma MessageType_of_value_of (t : MessageType) :
  MessageType_of (value_of t) = Some t.
Proof. destruct t; reflexivity. Qed.

Lemma digit_of_digit_char (k : N) : (k < 10)%N -> digit_of (digit_char k) = Some k.
Proof.
  intros H.
  assert (E : (k = 0 \/ k = 1 \/ k = 2 \/ k = 3 \/ k = 4 \/ k = 5 \/ k = 6
               \/ k = 7 \/ k = 8 \/ k = 9)%N) by lia.
  repeat (destruct E as [->|E]; [reflexivity|]). subst k. reflexivity.
Qed.

Lemma parse_digits_app (s1 s2 : string) :
  forall acc : N,
    parse_digits acc (s1 ++ s2)
    = match parse_digits acc s1 with
      | Some a => parse_digits a s2
      | None => None
      end.
Proof.
  induction s1 as [|c s1 IH]; intros acc; simpl; [reflexivity|].
  destruct (digit_of c); [apply IH|reflexivity].
Qed.

Lemma parse_zfill (width : nat) :
  forall n acc : N,
    parse_digits acc (zfill width n)
    = Some (acc * 10 ^ N.of_nat width + n mod 10 ^ N.of_nat width)%N.
Proof.
  induction width as [|w IH]; intros n acc.
  - simpl. rewrite N.mod_1_r. f_equal. lia.
  - cbn [zfill]. rewrite parse_digits_app, IH. cbn [parse_digits].
    rewrite digit_of_digit_char by (apply N.mod_lt; lia).
    f_equal. rewrite Nat2N.inj_succ, N.pow_succ_r'.
    rewrite (N.Div0.mod_mul_r n 10 (10 ^ N.of_nat w)). ring.
Qed.

Lemma parse_zfill_lt (width : nat) (n : N) :
  (n < 10 ^ N.of_nat width)%N -> parse_digits 0 (zfill width n) = Some n.
Proof.
  intros H. rewrite parse_zfill, N.mod_small by exact H. reflexivity.
Qed.

(** [fromisoformat] on the two layouts of [isoformat], field by field. *)
Lemma fromisoformat_seconds (y mo d h mi s : N) :
  fromisoformat
    (zfill 4 y ++ "-" ++ zfill 2 mo ++ "-" ++ zfill 2 d ++ "T" ++ zfill 2 h
     ++ ":" ++ zfill 2 mi ++ ":" ++ zfill 2 s ++ "")
  = (y' ← parse_digits 0 (zfill 4 y);
     mo' ← parse_digits 0 (zfill 2 mo);
     d' ← parse_digits 0 (zfill 2 d);
     h' ← parse_digits 0 (zfill 2 h);
     mi' ← parse_digits 0 (zfill 2 mi);
     s' ← parse_digits 0 (zfill 2 s);
     let dt := {| year := y'; month := mo'; day := d'; hour := h';
                  minute := mi'; second := s'; microsecond := 0 |} in
     if valid_datetime dt then Some dt else None).
Proof. reflexivity. Qed.

Lemma fromisoformat_microseconds (y mo d h mi s us : N) :
  fromisoformat
    (zfill 4 y ++ "-" ++ zfill 2 mo ++ "-" ++ zfill 2 d ++ "T" ++ zfill 2 h
     ++ ":" ++ zfill 2 mi ++ ":" ++ zfill 2 s ++ "." ++ zfill 6 us)
  = (y' ← parse_digits 0 (zfill 4 y);
     mo' ← parse_digits 0 (zfill 2 mo);
     d' ← parse_digits 0 (zfill 2 d);
     h' ← parse_digits 0 (zfill 2 h);
     mi' ← parse_digits 0 (zfill 2 mi);
     s' ← parse_digits 0 (zfill 2 s);
     us' ← parse_digits 0 (zfill 6 us);
     let dt := {| year := y'; month := mo'; day := d'; hour := h';
                  minute := mi'; second := s'; microsecond := us' |} in
     if valid_datetime dt then Some dt else None).
Proof. reflexivity. Qed.

Lemma valid_datetime_bounds (d : datetime) :
  valid_datetime d = true ->
  (year d < 10 ^ 4 /\ month d < 10 ^ 2 /\ day d < 10 ^ 2 /\ hour d < 10 ^ 2
   /\ minute d < 10 ^ 2 /\ second d < 10 ^ 2 /\ microsecond d < 10 ^ 6)%N.
Proof.
  unfold valid_datetime. rewrite !andb_true_iff.
  rewrite !N.leb_le, !N.ltb_lt.
  intros H. repeat match type of H with _ /\ _ => destruct H as [H ?] end.
  assert (days_in_month (year d) (month d) <= 31)%N.
  { unfold days_in_month.
    repeat match goal with
           | |- context [if ?c then _ else _] => destruct c
           end; lia. }
  change (10 ^ 4)%N with 10000%N. change (10 ^ 2)%N with 100%N.
  change (10 ^ 6)%N with 1000000%N. lia.
Qed.

(** Reading back the ISO text of a datetime gives the datetime. *)
Lemma fromisoformat_isoformat (d : datetime) :
  valid_datetime d = true -> fromisoformat (isoformat d) = Some d.
Proof.
  intros V.
  destruct (valid_datetime_bounds d V) as (Hy & Hmo & Hd & Hh & Hmi & Hs & Hus).
  destruct d as [y mo dd h mi s us]. cbn [year month day hour minute second microsecond] in *.
  unfold isoformat. cbn [year month day hour minute second microsecond].
  destruct (N.eqb_spec us 0) as [->|Hne].
  - rewrite fromisoformat_seconds.
    rewrite !parse_zfill_lt by assumption. cbn [mbind option_bind].
    rewrite V. reflexivity.
  - rewrite fromisoformat_microseconds.
    rewrite !parse_zfill_lt by assumption. cbn [mbind option_bind].
    rewrite V. reflexivity.
Qed.

Ltac lookup_field :=
  repeat (rewrite lookup_insert_eq || (rewrite lookup_insert_ne by discriminate)).

Lemma to_dict_keys (m : Message) :
  forallb (fun k => existsb (String.eqb k) field_names)
    (map_to_list (to_dict m)).*1 = true.
Proof.
  apply forallb_forall. intros k Hk.
  apply list_elem_of_In, list_elem_of_fmap in Hk.
  destruct Hk as ([k' v] & -> & Hin). simpl.
  apply elem_of_map_to_list in Hin. unfold to_dict in Hin.
  repeat (apply lookup_insert_Some in Hin;
          destruct Hin as [[<- _]|[_ Hin]]; [reflexivity|]).
  rewrite lookup_empty in Hin. discriminate Hin.
Qed.

Lemma from_dict_to_dict (m : Message) :
  valid_datetime (timestamp m) = true ->
  post_init_ok m ->
  from_dict (to_dict m) = Some m.
Proof.
  intros V [Hp Hm]. unfold from_dict.
  rewrite to_dict_keys.
  unfold to_dict. lookup_field. cbn [mbind option_bind].
  rewrite MessageType_of_value_of. cbn [mbind option_bind].
  rewrite (fromisoformat_isoformat _ V). cbn [mbind option_bind negb default].
  destruct m as [mid mt sid rid ts pl md]. simpl in *.
  f_equal. f_equal.
  - destruct pl; [contradiction|reflexivity..].
  - destruct md; [contradiction|reflexivity..].
Qed.

(** C3. For every message (as the constructor leaves it: a valid
    datetime, payload and metadata not [None]) and every message type,
    decoding the wire form gives the message back, field by field; in the
    wire form the type is its string tag and the timestamp its ISO-8601
    text. *)
Theorem C3_round_trip (m : Message) :
  valid_datetime (timestamp m) = true ->
  post_init_ok m ->
  from_dict (to_dict m) = Some m
  /\ to_dict m !! "message_type" = Some (VStr (value_of (message_type m)))
  /\ to_dict m !! "timestamp" = Some (VStr (isoformat (timestamp m)))
  /\ to_dict m !! "message_id" = Some (message_id m)
  /\ to_dict m !! "sender_id" = Some (sender_id m)
  /\ to_dict m !! "receiver_id" = Some (receiver_id m)
  /\ to_dict m !! "payload" = Some (payload m)
  /\ to_dict m !! "metadata" = Some (metadata m)
  /\ MessageType_of (value_of (message_type m)) = Some (message_type m).
Proof.
  intros V P.
  split; [exact (from_dict_to_dict m V P)|].
  unfold to_dict. repeat split; lookup_field; try reflexivity.
  apply MessageType_of_value_of.
Qed.

Lemma C3_round_trip_witness :
  valid_datetime (timestamp message_M) = true
  /\ post_init_ok message_M
  /\ from_dict (to_dict message_M) = Some message_M.
Proof.
  assert (V : valid_datetime (timestamp message_M) = true) by reflexivity.
  assert (P : post_init_ok message_M) by (split; discriminate).
  split; [exact V|]. split; [exact P|].
  exact (proj1 (C3_round_trip message_M V P)).
Defined.

(** *** Dispatch *)

(** C4, as stated, fails: a well-formed match request addressed to this
    agent, whose type has a registered handler, is in none of the three
    cases; the handler is called, it raises, the exception is caught and
    [process_message] returns false. *)
Lemma C4_counterexample :
  (~ not_dispatched protocol_X (to_dict message_M)
   /\ handled (process_message protocol_X (to_dict message_M) tt) = false
   /\ invoked (process_message protocol_X (to_dict message_M) tt) = [message_M])
  /\ ~ dispatch_contract unit.
Proof.
  assert (E : from_dict (to_dict message_M) = Some message_M)
    by (vm_compute; reflexivity).
  assert (N : ~ not_dispatched protocol_X (to_dict message_M)).
  { intros [H|(m & Hm & [[_ H]|H])].
    - rewrite E in H. discriminate H.
    - rewrite E in Hm. injection Hm as <-. vm_compute in H. discriminate H.
    - rewrite E in Hm. injection Hm as <-. vm_compute in H. discriminate H. }
  assert (R : handled (process_message protocol_X (to_dict message_M) tt) = false).
  { unfold process_message. rewrite E. vm_compute. reflexivity. }
  split.
  - split; [exact N|]. split; [exact R|].
    unfold process_message. rewrite E. vm_compute. reflexivity.
  - intros C. destruct (C protocol_X (to_dict message_M) tt) as [_ C2].
    destruct (C2 N) as [T _]. rewrite R in T. discriminate T.
Qed.

(** C4, amended. [process_message] returns false and calls no handler
    when the envelope does not decode, when the decoded message carries a
    receiver other than this agent, and when its type has no registered
    handler; it never raises. In every other case the registered handler
    is called once, with the decoded message; the result is true when the
    handler returns, and false when the handler raises (the exception is
    caught). *)
Theorem C4_dispatch {W : Type} (self : AgentToAgentProtocol W)
    (message_data : gmap string value) (w : W) :
  let r := process_message self message_data w in
  (not_dispatched self message_data ->
     handled r = false /\ invoked r = [] /\ final r = w)
  /\ (~ not_dispatched self message_data ->
      exists (m : Message) (handler : Handler W),
        from_dict message_data = Some m
        /\ message_handlers self (message_type m) = Some handler
        /\ invoked r = [m]
        /\ match handler m w with
           | HReturn w' => handled r = true /\ final r = w'
           | HRaise w' => handled r = false /\ final r = w'
           end).
Proof.
  intros r. unfold r, process_message. split.
  - intros [H|(m & Hm & [[H1 H2]|H])].
    + rewrite H. repeat split.
    + rewrite Hm, H1, H2. repeat split.
    + rewrite Hm, H.
      destruct (truthy (receiver_id m) && ne_str (receiver_id m) (agent_id self));
        repeat split.
  - intros N.
    destruct (from_dict message_data) as [m|] eqn:Em;
      [|exfalso; apply N; left; exact Em].
    destruct (truthy (receiver_id m)) eqn:Et, (ne_str (receiver_id m) (agent_id self)) eqn:En;
      cbn [andb];
      try (exfalso; apply N; right; exists m; split; [exact Em|left; split; assumption]).
    all: destruct (message_handlers self (message_type m)) as [handler|] eqn:Eh;
      [|exfalso; apply N; right; exists m; split; [exact Em|right; exact Eh]].
    all: exists m, handler; split; [reflexivity|]; split; [exact Eh|].
    all: destruct (handler m w); repeat split.
Qed.

(** Dispatched at agent A it is dropped; dispatched at agent B it reaches
    the default heartbeat handler. *)
Lemma C4_dispatch_witness :
  (not_dispatched (new_protocol (W:=unit) "A") (to_dict message_B)
   /\ handled (process_message (new_protocol "A") (to_dict message_B) tt) = false
   /\ invoked (process_message (new_protocol "A") (to_dict message_B) tt) = [])
  /\ (~ not_dispatched (new_protocol (W:=unit) "B") (to_dict message_B)
      /\ invoked (process_message (new_protocol "B") (to_dict message_B) tt)
         = [message_B]).
Proof.
  assert (E : from_dict (to_dict message_B) = Some message_B)
    by (vm_compute; reflexivity).
  assert (D : not_dispatched (new_protocol (W:=unit) "A") (to_dict message_B)).
  { right. exists message_B. split; [exact E|]. left. split; reflexivity. }
  assert (N : ~ not_dispatched (new_protocol (W:=unit) "B") (to_dict message_B)).
  { intros [H|(m & Hm & [[_ H]|H])].
    - rewrite E in H. discriminate H.
    - rewrite E in Hm. injection Hm as <-. vm_compute in H. discriminate H.
    - rewrite E in Hm. injection Hm as <-. vm_compute in H. discriminate H. }
  split.
  - split; [exact D|].
    destruct (proj1 (C4_dispatch (new_protocol "A") (to_dict message_B) tt) D)
      as (H1 & H2 & _).
    split; [exact H1|exact H2].
  - split; [exact N|].
    destruct (proj2 (C4_dispatch (new_protocol "B") (to_dict message_B) tt) N)
      as (m & handler & Hm & _ & Hi & _).
    rewrite E in Hm. injection Hm as <-. exact Hi.
Defined.

End A2AProofs.

(** * Further properties of the code *)

(** ** [match_jobs.py] *)

Module MatchJobsFacts.
Import Py PyFacts MatchJobs MatchJobsSpec.

(** *** Salary texts *)

Lemma digit_val_nonneg (c : ascii) : is_digit c = true -> (0 <= digit_val c)%Z.
Proof.
  unfold is_digit, digit_val. rewrite andb_true_iff, !Nat.leb_le. lia.
Qed.

Lemma findall_ints_from_nonneg (s : string) :
  forall cur : option Z,
    (forall n, cur = Some n -> (0 <= n)%Z) ->
    Forall (fun n => (0 <= n)%Z) (findall_ints_from cur s).
Proof.
  induction s as [|c s IH]; intros cur Hcur; simpl.
  - destruct cur as [n|]; [|constructor].
    constructor; [apply Hcur; reflexivity|constructor].
  - destruct (is_digit c) eqn:D.
    + apply IH. intros n [= <-].
      pose proof (digit_val_nonneg c D).
      destruct cur as [m|]; simpl; [specialize (Hcur m eq_refl)|]; lia.
    + destruct cur as [n|].
      * constructor; [apply Hcur; reflexivity|].
        apply IH. intros ? [=].
      * apply IH. intros ? [=].
Qed.

Lemma findall_ints_nonneg (s : string) :
  Forall (fun n => (0 <= n)%Z) (findall_ints s).
Proof. apply findall_ints_from_nonneg. intros ? [=]. Qed.

Lemma findall_ints_from_app (a : string) (c : ascii) (b : string) :
  is_digit c = false ->
  forall cur : option Z,
    findall_ints_from cur (a ++ String c b)
    = (findall_ints_from cur a ++ findall_ints b)%list.
Proof.
  intros D. induction a as [|x a IH]; intros cur; simpl.
  - rewrite D. destruct cur; reflexivity.
  - destruct (is_digit x).
    + apply IH.
    + destruct cur; rewrite IH; reflexivity.
Qed.

(** The numbers found in two texts joined by a character that is not
    a digit are the numbers of the first followed by the numbers of the
    second; the numbers found are never negative, and a text without digit
    has none. *)
Lemma findall_ints_compose :
  (forall (a b : string) (c : ascii),
      is_digit c = false ->
      findall_ints (a ++ String c b) = (findall_ints a ++ findall_ints b)%list)
  /\ (forall s : string, Forall (fun n => (0 <= n)%Z) (findall_ints s))
  /\ (forall s : string,
        (forall i c, String.get i s = Some c -> is_digit c = false) ->
        findall_ints s = []).
Proof.
  split; [|split].
  - intros a b c D. apply findall_ints_from_app. exact D.
  - exact findall_ints_nonneg.
  - unfold findall_ints. induction s as [|c s IH]; intros H; [reflexivity|].
    simpl. rewrite (H 0%nat c eq_refl). apply IH.
    intros i c' Hi. exact (H (S i) c' Hi).
Qed.

Lemma mean_int_pos (l : list Z) :
  (0 < sum l)%Z -> (0 < mean_int l)%Q.
Proof.
  intros H. unfold mean_int.
  assert (L : (0 < Z.of_nat (length l))%Z).
  { destruct l; [simpl in H; lia|simpl; lia]. }
  apply Qlt_shift_div_l.
  - change 0%Q with (inject_Z 0). rewrite <- Zlt_Qlt. exact L.
  - rewrite Qmult_0_l. change 0%Q with (inject_Z 0). rewrite <- Zlt_Qlt. exact H.
Qed.

Lemma mean_int_zero (l : list Z) : sum l = 0%Z -> (mean_int l == 0)%Q.
Proof.
  intros H. unfold mean_int. rewrite H. unfold Qdiv. apply Qmult_0_l.
Qed.

Lemma salary_match_values (candidate_salary job_salary : string) :
  let s := _calculate_salary_match candidate_salary job_salary in
  (s = 0.3 \/ s = 0.5 \/ s = 0.7 \/ s = 1)%Q.
Proof.
  intros s. unfold s, _calculate_salary_match.
  repeat match goal with
         | |- context [if ?c then _ else _] => destruct c
         | |- context [match ?l with [] => _ | _ :: _ => _ end] => destruct l
         end; auto.
Qed.

(** X1. The salary factor is one of 0.3, 0.5, 0.7 and 1.0. It is the
    neutral 0.5 when either text is empty, when either text holds no
    number, and when the numbers of the job add up to zero. *)
Theorem X1_salary_match_values (candidate_salary job_salary : string) :
  let s := _calculate_salary_match candidate_salary job_salary in
  (s = 0.3 \/ s = 0.5 \/ s = 0.7 \/ s = 1)%Q
  /\ (candidate_salary = "" \/ job_salary = ""
      \/ findall_ints candidate_salary = [] \/ findall_ints job_salary = []
      \/ sum (findall_ints job_salary) = 0%Z ->
      s = 0.5%Q).
Proof.
  intros s. unfold s. split; [apply salary_match_values|].
  unfold _calculate_salary_match.
  - intros H.
    destruct (str_falsy candidate_salary || str_falsy job_salary) eqn:F;
      [reflexivity|].
    apply orb_false_iff in F. destruct F as [F1 F2].
    destruct H as [->|[->|[H|[H|H]]]]; try discriminate.
    + rewrite H. reflexivity.
    + rewrite H. destruct (findall_ints candidate_salary); reflexivity.
    + destruct (findall_ints candidate_salary) as [|c cs]; [reflexivity|].
      destruct (findall_ints job_salary) as [|j js] eqn:E; [reflexivity|].
      assert (Z : Qltb 0 (mean_int (j :: js)) = false).
      { apply Qltb_ge. rewrite (mean_int_zero _ H). discriminate. }
      rewrite Z. reflexivity.
Qed.

Lemma X1_salary_match_values_witness :
  sum (findall_ints "0 to 0") = 0%Z
  /\ _calculate_salary_match "90000" "0 to 0" = 0.5%Q.
Proof.
  split; [reflexivity|].
  apply (proj2 (X1_salary_match_values "90000" "0 to 0")).
  right. right. right. right. reflexivity.
Defined.

(** X2. When the candidate's salary text and the job's salary text are
    the same text, and its numbers do not all vanish, the salary factor is
    1.0. *)
Theorem X2_salary_match_same_text (salary : string) :
  (0 < sum (findall_ints salary))%Z ->
  _calculate_salary_match salary salary = 1%Q.
Proof.
  intros H. unfold _calculate_salary_match.
  destruct salary as [|c0 rest] eqn:Es; [simpl in H; lia|].
  rewrite <- Es in *. replace (str_falsy salary) with false by (rewrite Es; reflexivity).
  simpl orb. cbv iota.
  destruct (findall_ints salary) as [|n l] eqn:E; [simpl in H; lia|].
  pose proof (mean_int_pos (n :: l) H) as P.
  assert (Q1 : Qltb 0 (mean_int (n :: l)) = true) by (apply Qltb_lt; exact P).
  rewrite Q1.
  assert (R : (mean_int (n :: l) / mean_int (n :: l) == 1)%Q).
  { apply Qmult_inv_r. intros Z. rewrite Z in P. discriminate P. }
  assert (A : Qle_bool 0.8 (mean_int (n :: l) / mean_int (n :: l)) = true).
  { apply Qle_bool_iff. rewrite R. discriminate. }
  assert (B : Qle_bool (mean_int (n :: l) / mean_int (n :: l)) 1.2 = true).
  { apply Qle_bool_iff. rewrite R. discriminate. }
  rewrite A, B. reflexivity.
Qed.

Lemma X2_salary_match_same_text_witness :
  (0 < sum (findall_ints "$90,000 - $110,000"))%Z
  /\ _calculate_salary_match "$90,000 - $110,000" "$90,000 - $110,000" = 1%Q.
Proof.
  assert (H : (0 < sum (findall_ints "$90,000 - $110,000"))%Z) by reflexivity.
  split; [exact H|]. exact (X2_salary_match_same_text _ H).
Defined.

(** *** The four factors *)

Lemma skills_factor_unit (state : MatchingState) (job_data : JobResult) :
  AnalyzeCandidatesSpec.in_unit
    (skills_factor (metadata job_data) (skills_match (analyze_job_match state job_data))).
Proof.
  unfold skills_factor, analyze_job_match. simpl.
  set (sub := set_of (default [] (Candidate.skills (candidate_profile state)))).
  set (cp := set_of (default [] (Job.skills (metadata job_data)))).
  destruct (Nat.eqb_spec (size cp) 0) as [Hz|Hn]; [split; discriminate|].
  assert (L : (size (sub ∩ cp) <= size cp)%nat).
  { apply subseteq_size. intros x. rewrite elem_of_intersection. intros [_ H]. exact H. }
  split.
  - apply AnalyzeCandidatesProofs.ratio_nonneg.
  - apply Qle_shift_div_r.
    + change 0%Q with (inject_Z 0). rewrite <- Zlt_Qlt. lia.
    + rewrite Qmult_1_l, <- Zle_Qle. apply inj_le. exact L.
Qed.

Lemma location_factor_values (candidate_profile : Candidate.t) (job_data : Job.t) :
  location_factor candidate_profile job_data = 1%Q
  \/ location_factor candidate_profile job_data = 0.8%Q
  \/ location_factor candidate_profile job_data = 0%Q.
Proof.
  unfold location_factor.
  destruct (_ || _); [auto|]. destruct (_ && _); auto.
Qed.

(** X3. In every match that [analyze_job_match] builds, each of the four
    factors lies in [[0,1]] and the salary factor is at least 0.3;
    consequently the clamp of [_calculate_match_score] changes nothing
    (the score is the weighted sum itself) and no match scores less than
    0.03. *)
Theorem X3_match_score_is_weighted_sum (state : MatchingState) (job_data : JobResult) :
  let m := analyze_job_match state job_data in
  let f := factors (candidate_profile state) (metadata job_data) (skills_match m) in
  (0 <= skills_score f <= 1)%Q /\ (0 <= exp_score f <= 1)%Q
  /\ (0 <= location_score f <= 1)%Q /\ (0.3 <= salary_score f <= 1)%Q
  /\ (match_score m == total_score f)%Q
  /\ (0.03 <= match_score m <= 1)%Q.
Proof.
  intros m f.
  assert (S : (0 <= skills_score f <= 1)%Q)
    by exact (skills_factor_unit state job_data).
  assert (E : (0 <= exp_score f <= 1)%Q)
    by exact (AnalyzeCandidatesProofs.experience_fit_unit _ _ _).
  assert (L : (0 <= location_score f <= 1)%Q).
  { unfold f, factors. simpl.
    destruct (location_factor_values (candidate_profile state) (metadata job_data))
      as [-> | [-> | ->]]; split; discriminate. }
  assert (Y : (0.3 <= salary_score f <= 1)%Q).
  { unfold f, factors, salary_factor. simpl.
    match goal with
    | |- context [_calculate_salary_match ?a ?b] =>
        destruct (salary_match_values a b) as [-> | [-> | [-> | ->]]]
    end; split; discriminate. }
  assert (T : (0.03 <= total_score f <= 1)%Q).
  { unfold total_score.
    set (a := skills_score f) in *. set (b := exp_score f) in *.
    set (c := location_score f) in *. set (d := salary_score f) in *.
    split; lra. }
  assert (M : (match_score m == total_score f)%Q).
  { change (match_score m) with (Qmin 1 (Qmax 0 (total_score f))).
    destruct T as [T0 T1].
    rewrite (Q.max_r 0 (total_score f)) by lra.
    apply Q.min_r. exact T1. }
  split; [exact S|]. split; [exact E|]. split; [exact L|]. split; [exact Y|].
  split; [exact M|]. rewrite M. exact T.
Qed.

(** X4. A candidate who has every skill of another candidate, and
    possibly more, never gets a lower skill factor for the same job; and
    a candidate who has all the skills of a job that asks for at least
    one gets the skill factor 1. *)
Theorem X4_skill_factor_monotone (state state' : MatchingState) (job_data : JobResult) :
  let candidate_skills :=
    set_of (default [] (Candidate.skills (candidate_profile state))) in
  let candidate_skills' :=
    set_of (default [] (Candidate.skills (candidate_profile state'))) in
  let job_skills := set_of (default [] (Job.skills (metadata job_data))) in
  (candidate_skills ⊆ candidate_skills' ->
   (skills_factor (metadata job_data) (skills_match (analyze_job_match state job_data))
    <= skills_factor (metadata job_data) (skills_match (analyze_job_match state' job_data)))%Q)
  /\ (job_skills ⊆ candidate_skills -> job_skills <> ∅ ->
      (skills_factor (metadata job_data) (skills_match (analyze_job_match state job_data))
       == 1)%Q).
Proof.
  intros sub sub' cp. unfold skills_factor, analyze_job_match. simpl.
  fold sub sub' cp. split.
  - intros Hsub.
    destruct (Nat.eqb_spec (size cp) 0) as [Hz|Hn]; [discriminate|].
    assert (L : (size (sub ∩ cp) <= size (sub' ∩ cp))%nat).
    { apply subseteq_size. intros x. rewrite !elem_of_intersection.
      intros [H1 H2]. split; [apply Hsub; exact H1|exact H2]. }
    unfold Qdiv. apply Qmult_le_compat_r.
    + rewrite <- Zle_Qle. apply inj_le. exact L.
    + apply Qinv_le_0_compat. change 0%Q with (inject_Z 0).
      rewrite <- Zle_Qle. lia.
  - intros Hsub Hne.
    destruct (Nat.eqb_spec (size cp) 0) as [Hz|Hn].
    + exfalso. apply Hne. apply leibniz_equiv, size_empty_iff. exact Hz.
    + assert (E : sub ∩ cp = cp).
      { apply leibniz_equiv. intros x. rewrite elem_of_intersection.
        split; [intros [_ H]; exact H|intros H; split; [apply Hsub; exact H|exact H]]. }
      change (length (elements (sub ∩ cp))) with (size (sub ∩ cp)). rewrite E.
      apply Qmult_inv_r. intros Hq.
      unfold Qeq in Hq. simpl in Hq. lia.
Qed.

Lemma X4_skill_factor_monotone_witness :
  (skills_factor (metadata job_A) (skills_match (analyze_job_match state_W job_A))
   <= skills_factor (metadata job_A) (skills_match (analyze_job_match state_A job_A)))%Q.
Proof.
  apply (proj1 (X4_skill_factor_monotone state_W state_A job_A)).
  refine (bool_decide_unpack _ _). vm_compute. exact I.
Defined.

(** *** Experience factor *)

Lemma decay_mult (gap : Q) : (1 - gap / 5 == 1 - gap * (1 # 5))%Q.
Proof. unfold Qdiv. change (/ 5)%Q with (1 # 5)%Q. reflexivity. Qed.

Lemma experience_fit_extremes (y : Q) (lo hi : Z) :
  (lo <= hi)%Z ->
  ((experience_fit y lo hi == 1)%Q <-> (inject_Z lo <= y /\ y <= inject_Z hi)%Q)
  /\ ((experience_fit y lo hi == 0)%Q
      <-> (y <= inject_Z lo - 5 \/ inject_Z hi + 5 <= y)%Q).
Proof.
  intros Hlohi.
  assert (Hq : (inject_Z lo <= inject_Z hi)%Q) by (rewrite <- Zle_Qle; exact Hlohi).
  unfold experience_fit.
  destruct (Qle_bool (inject_Z lo) y) eqn:E1; simpl.
  - apply Qle_bool_iff in E1.
    destruct (Qle_bool y (inject_Z hi)) eqn:E2.
    + apply Qle_bool_iff in E2. split; split; intros H.
      * split; assumption.
      * reflexivity.
      * discriminate H.
      * exfalso. destruct H; lra.
    + apply Qle_bool_false in E2.
      assert (E3 : Qltb y (inject_Z lo) = false) by (apply Qltb_ge; exact E1).
      rewrite E3.
      destruct (Q.max_spec 0 (1 - (y - inject_Z hi) / 5)) as [[M E]|[M E]];
        rewrite E; rewrite decay_mult in *; split; split; intros H; try lra;
        destruct H; lra.
  - apply Qle_bool_false in E1.
    assert (E3 : Qltb y (inject_Z lo) = true) by (apply Qltb_lt; exact E1).
    rewrite E3.
    destruct (Q.max_spec 0 (1 - (inject_Z lo - y) / 5)) as [[M E]|[M E]];
      rewrite E; rewrite decay_mult in *; split; split; intros H; try lra;
      destruct H; lra.
Qed.

(** X5. The experience factor is 1 exactly when the candidate's years
    lie in the range of the job's band, and 0 exactly when they are at
    least five years below its minimum or at least five years above its
    maximum. *)
Theorem X5_experience_factor_extremes (candidate_profile : Candidate.t) (job_data : Job.t) :
  let years := default 0%Q (Candidate.experience_years candidate_profile) in
  let level := default "" (Job.experience_level job_data) in
  let lo := inject_Z (_extract_min_experience level) in
  let hi := inject_Z (_extract_max_experience level) in
  ((experience_factor candidate_profile job_data == 1)%Q
   <-> (lo <= years /\ years <= hi)%Q)
  /\ ((experience_factor candidate_profile job_data == 0)%Q
      <-> (years <= lo - 5 \/ hi + 5 <= years)%Q).
Proof.
  intros years level lo hi. unfold experience_factor.
  apply experience_fit_extremes. apply MatchJobsProofs.extract_min_le_max.
Qed.

(** *** The matching stage and the run *)

Lemma collect_matches_frame (l : list JobMatch) (state : MatchingState)
    (jobs : list JobResult) :
  forall acc : list JobMatch,
    collect_matches (set_matches l state) jobs acc = collect_matches state jobs acc.
Proof.
  induction jobs as [|j jobs IH]; intros acc; [reflexivity|].
  cbn [collect_matches].
  change (max_matches (set_matches l state)) with (max_matches state).
  change (min_match_score (set_matches l state)) with (min_match_score state).
  change (analyze_job_match (set_matches l state) j) with (analyze_job_match state j).
  rewrite !IH. reflexivity.
Qed.

(** Running the matching stage a second time changes nothing, and
    the stage writes [matches] only: the candidate, the jobs found, the
    thresholds and the error message are as before. *)
Lemma process_job_matches_idempotent (state : MatchingState) :
  process_job_matches (process_job_matches state) = process_job_matches state
  /\ candidate_id (process_job_matches state) = candidate_id state
  /\ candidate_profile (process_job_matches state) = candidate_profile state
  /\ available_jobs (process_job_matches state) = available_jobs state
  /\ min_match_score (process_job_matches state) = min_match_score state
  /\ max_matches (process_job_matches state) = max_matches state
  /\ error_message (process_job_matches state) = error_message state.
Proof.
  split; [|repeat split].
  unfold process_job_matches at 1.
  change (available_jobs (process_job_matches state)) with (available_jobs state).
  unfold process_job_matches at 1 2.
  rewrite collect_matches_frame. reflexivity.
Qed.

(** X6. When the maximum number of matches is zero or negative, or the
    threshold is above 1, the matching stage returns no match; in every
    case it returns at most as many matches as jobs were found. *)
Theorem X6_no_match_edges (state : MatchingState) :
  ((max_matches state <= 0)%Z -> matches (process_job_matches state) = [])
  /\ ((1 < min_match_score state)%Q -> matches (process_job_matches state) = [])
  /\ (length (matches (process_job_matches state)) <= length (available_jobs state))%nat.
Proof.
  rewrite MatchJobsProofs.process_job_matches_eq. unfold selected.
  split; [|split].
  - intros H. replace (Z.to_nat (max_matches state)) with 0%nat by lia. reflexivity.
  - intros H.
    assert (E : List.filter (passes state) (scored state) = []).
    { unfold scored. induction (available_jobs state) as [|j l IH]; simpl.
      - reflexivity.
      - assert (P : passes state (analyze_job_match state j) = false).
        { apply Qle_bool_false. eapply Qle_lt_trans; [|exact H].
          apply MatchJobsProofs.clamp_unit. }
        rewrite P. exact IH. }
    rewrite E, firstn_nil. reflexivity.
  - rewrite (Permutation_length (MatchJobsProofs.sort_perm _)).
    rewrite length_firstn. unfold scored.
    pose proof (filter_length_le (passes state)
                  (map (analyze_job_match state) (available_jobs state))) as L.
    rewrite length_map in L. lia.
Qed.

Lemma X6_no_match_edges_witness :
  matches (process_job_matches (with_max_matches 0 state_D)) = [].
Proof.
  apply (proj1 (X6_no_match_edges (with_max_matches 0 state_D))).
  vm_compute. discriminate.
Defined.

(** X7. When the number of results that reach the threshold does not
    exceed the maximum, nothing is cut off, and the matches returned are
    those of the ranking that sorts first and truncates afterwards. *)
Theorem X7_ranking_agrees_without_truncation (state : MatchingState) :
  (Z.of_nat (length (List.filter (passes state) (scored state))) <= max_matches state)%Z ->
  matches (process_job_matches state) = rank_spec state
  /\ Permutation (matches (process_job_matches state))
       (List.filter (passes state) (scored state)).
Proof.
  intros H. rewrite MatchJobsProofs.process_job_matches_eq.
  unfold rank_spec, selected.
  rewrite !firstn_all2.
  - split; [reflexivity|apply MatchJobsProofs.sort_perm].
  - rewrite (Permutation_length (MatchJobsProofs.sort_perm _)). lia.
  - lia.
Qed.

Lemma X7_ranking_agrees_without_truncation_witness :
  matches (process_job_matches state_D) = rank_spec state_D.
Proof.
  apply (X7_ranking_agrees_without_truncation state_D).
  vm_compute. discriminate.
Defined.

(** X8. A run from the initial state in which the candidate's document
    is missing, cannot be read, or carries no data, ends with no job
    found, no match and no request sent to the other agent; in the first
    two cases the error message says why, in the third it stays empty. *)
Theorem X8_run_without_profile (env : Environment) (cid : string) :
  let s := run_graph env (initial_state cid) in
  let sent := snd (notify_candidate_finder
                     (process_job_matches
                       (search_available_jobs (search env)
                         (load_candidate_profile (get_document env) (initial_state cid))))) in
  (get_document env = Returned None ->
     available_jobs s = [] /\ matches s = [] /\ sent = None
     /\ error_message s = "Candidate profile not found")
  /\ (forall str_e, get_document env = Raised str_e ->
        available_jobs s = [] /\ matches s = [] /\ sent = None
        /\ error_message s = str_e)
  /\ (forall d, get_document env = Returned (Some d) ->
        Candidate.falsy (doc_metadata d) = true ->
        available_jobs s = [] /\ matches s = [] /\ sent = None
        /\ error_message s = "").
Proof.
  intros s sent. unfold s, sent, run_graph.
  split; [|split].
  - intros ->. repeat split.
  - intros e ->. repeat split.
  - intros d -> F. unfold load_candidate_profile, search_available_jobs.
    cbn [candidate_profile set_candidate_profile initial_state].
    rewrite F. repeat split.
Qed.

Lemma X8_run_without_profile_witness :
  matches (run_graph env_E (initial_state "cand-1")) = []
  /\ error_message (run_graph env_E (initial_state "cand-1")) = "connection refused".
Proof.
  destruct (proj1 (proj2 (X8_run_without_profile env_E "cand-1"))
              "connection refused" eq_refl) as (_ & H1 & _ & H2).
  split; [exact H1|exact H2].
Defined.

End MatchJobsFacts.

(** ** [analyze_candidates.py] *)

Module AnalyzeCandidatesFacts.
Import Py PyFacts AnalyzeCandidates AnalyzeCandidatesSpec AnalyzeCandidatesReport.
Import AnalyzeCandidatesReportSpec.

(** *** Skills *)

Lemma size_split (c r : gset string) : (size (c ∩ r) + size (r ∖ c) = size r)%nat.
Proof.
  rewrite <- size_union.
  - f_equal. apply leibniz_equiv. intros x.
    rewrite elem_of_union, elem_of_intersection, elem_of_difference.
    destruct (decide (x ∈ c)); tauto.
  - intros x. rewrite elem_of_intersection, elem_of_difference. tauto.
Qed.

Lemma ratio_ge_1 (a c : nat) :
  (0 < c)%nat ->
  (1 <= inject_Z (Z.of_nat a) / inject_Z (Z.of_nat c))%Q <-> (c <= a)%nat.
Proof.
  intros Hc.
  assert (Hpos : (0 < inject_Z (Z.of_nat c))%Q).
  { change 0%Q with (inject_Z 0). rewrite <- Zlt_Qlt. lia. }
  split.
  - intros H. destruct (le_lt_dec c a) as [L|L]; [exact L|exfalso].
    assert (F : (inject_Z (Z.of_nat a) / inject_Z (Z.of_nat c) < 1)%Q).
    { apply Qlt_shift_div_r; [exact Hpos|]. rewrite Qmult_1_l, <- Zlt_Qlt. lia. }
    exact (Qlt_not_le _ _ F H).
  - intros H. apply Qle_shift_div_l; [exact Hpos|].
    rewrite Qmult_1_l, <- Zle_Qle. lia.
Qed.

(** X9. [analyze_skills] splits the required skills into the matching
    ones (those the candidate has) and the missing ones, without overlap,
    and the additional skills are the candidate's skills that are not
    required. The overall skill score is 0 when nothing is required, and
    it is 1 exactly when at least five sixths of the required skills
    match. *)
Theorem X9_analyze_skills (state : AnalysisState) :
  let candidate : gset string :=
    list_to_set (default [] (Candidate.skills (candidate_profile state))) in
  let required : gset string :=
    list_to_set (default [] (Job.skills (job_requirements state))) in
  exists a : SkillsAnalysis,
    skills_analysis (analyze_skills state) = Some a
    /\ (forall x, x ∈ matching_skills a <-> x ∈ candidate /\ x ∈ required)
    /\ (forall x, x ∈ missing_skills a <-> x ∈ required /\ x ∉ candidate)
    /\ (forall x, x ∈ additional_skills a <-> x ∈ candidate /\ x ∉ required)
    /\ (length (matching_skills a) + length (missing_skills a) = size required)%nat
    /\ (required = ∅ -> overall_skill_score a == 0)%Q
    /\ (required <> ∅ ->
        (overall_skill_score a == 1)%Q
        <-> (5 * size required <= 6 * length (matching_skills a))%nat).
Proof.
  intros candidate required. eexists. split; [reflexivity|]. cbn.
  fold candidate required.
  split; [intros x; rewrite elem_of_elements, elem_of_intersection; reflexivity|].
  split; [intros x; rewrite elem_of_elements, elem_of_difference; reflexivity|].
  split; [intros x; rewrite elem_of_elements, elem_of_difference; reflexivity|].
  split; [apply size_split|].
  split.
  - intros ->. rewrite size_empty. reflexivity.
  - intros Hne.
    destruct (Nat.eqb_spec (size required) 0) as [Hz|Hn].
    { exfalso. apply Hne, leibniz_equiv, size_empty_iff. exact Hz. }
    change (length (elements (candidate ∩ required))) with (size (candidate ∩ required)).
    set (m := size (candidate ∩ required)). set (n := size required) in *.
    assert (Hpos : (0 < inject_Z (Z.of_nat n))%Q).
    { change 0%Q with (inject_Z 0). rewrite <- Zlt_Qlt. lia. }
    assert (R : (inject_Z (Z.of_nat m) / inject_Z (Z.of_nat n) * 1.2
                 == inject_Z (Z.of_nat (6 * m)) / inject_Z (Z.of_nat (5 * n)))%Q).
    { rewrite !Nat2Z.inj_mul, !inject_Z_mult. simpl inject_Z. field.
      intros Hq. rewrite Hq in Hpos. discriminate Hpos. }
    rewrite R. split.
    + intros H. apply (ratio_ge_1 (6 * m) (5 * n)); [lia|].
      rewrite <- H. apply Q.le_min_r.
    + intros H. apply Q.min_l. apply (ratio_ge_1 (6 * m) (5 * n)); [lia|exact H].
Qed.

(** *** Experience *)

(** X10. [analyze_experience] stores the same experience factor as the
    scoring engine of the matching workflow computes for the same
    candidate and job, and its label says where the years lie: excellent
    inside the range of the band, below_required under its minimum,
    overqualified over its maximum. *)
Theorem X10_analyze_experience (state : AnalysisState) :
  let years := default 0%Q (Candidate.experience_years (candidate_profile state)) in
  let level := default "" (Job.experience_level (job_requirements state)) in
  let lo := inject_Z (_extract_min_experience level) in
  let hi := inject_Z (_extract_max_experience level) in
  exists e : ExperienceAnalysis,
    experience_analysis (analyze_experience state) = Some e
    /\ experience_fit_score e
       = MatchJobs.experience_factor (candidate_profile state) (job_requirements state)
    /\ (experience_assessment e = excellent <-> (lo <= years /\ years <= hi)%Q)
    /\ (experience_assessment e = below_required <-> (years < lo)%Q)
    /\ (experience_assessment e = overqualified <-> (hi < years)%Q).
Proof.
  intros years level lo hi. eexists. split; [reflexivity|]. cbn.
  fold years level. unfold MatchJobs.experience_factor, MatchJobs.experience_fit.
  fold years level.
  change _extract_min_experience with MatchJobs._extract_min_experience.
  change _extract_max_experience with MatchJobs._extract_max_experience.
  assert (Hle : (lo <= hi)%Q).
  { unfold lo, hi. rewrite <- Zle_Qle. apply MatchJobsProofs.extract_min_le_max. }
  change (inject_Z (MatchJobs._extract_min_experience level)) with lo.
  change (inject_Z (MatchJobs._extract_max_experience level)) with hi.
  destruct (Qle_bool lo years) eqn:E1; simpl.
  - apply Qle_bool_iff in E1.
    destruct (Qle_bool years hi) eqn:E2; simpl.
    + apply Qle_bool_iff in E2.
      split; [reflexivity|]. split; [|split]; split; intros H;
        try discriminate H; try reflexivity; try (split; assumption);
        exfalso; lra.
    + apply Qle_bool_false in E2.
      assert (E3 : Qltb years lo = false) by (apply Qltb_ge; exact E1).
      rewrite E3. simpl.
      split; [reflexivity|]. split; [|split]; split; intros H;
        try discriminate H; try reflexivity; try assumption;
        exfalso; try lra; destruct H; lra.
  - apply Qle_bool_false in E1.
    assert (E3 : Qltb years lo = true) by (apply Qltb_lt; exact E1).
    rewrite E3. simpl.
    split; [reflexivity|]. split; [|split]; split; intros H;
      try discriminate H; try reflexivity; try assumption;
      exfalso; try lra; destruct H; lra.
Qed.

(** *** Portfolio rubrics *)

Ltac tier_cases :=
  repeat match goal with
         | |- context [(?a <=? ?b)%Z] => destruct (Z.leb_spec a b)
         | |- context [(?a <=? ?b)%nat] => destruct (Nat.leb_spec a b)
         end.

(** X11. The code-hosting score never decreases when the number of
    repositories, the number of stars, the number of recent commits and
    the number of languages do not decrease; it is 1 exactly when all four
    are in their top tier (10 repositories, 100 stars, 50 commits, 3
    languages). *)
Theorem X11_github_score (r r' : GithubAnalysis) :
  let repos x := default 0%Z (repository_count x) in
  let stars x := default 0%Z (total_stars x) in
  let commits x := default 0%Z (recent_commits x) in
  let langs x := length (default [] (languages x)) in
  ((repos r <= repos r')%Z -> (stars r <= stars r')%Z ->
   (commits r <= commits r')%Z -> (langs r <= langs r')%nat ->
   (_calculate_github_score r <= _calculate_github_score r')%Q)
  /\ ((_calculate_github_score r == 1)%Q
      <-> (10 <= repos r)%Z /\ (100 <= stars r)%Z /\ (50 <= commits r)%Z
          /\ (3 <= langs r)%nat).
Proof.
  intros repos stars commits langs. unfold _calculate_github_score.
  fold (repos r) (repos r') (stars r) (stars r') (commits r) (commits r')
       (langs r) (langs r').
  generalize (repos r) (repos r') (stars r) (stars r') (commits r) (commits r')
             (langs r) (langs r').
  clear. intros a a' b b' c c' d d'. split.
  - intros Ha Hb Hc Hd. apply Q.min_le_compat_l.
    repeat apply Qplus_le_compat; try apply Qle_refl;
      tier_cases; try discriminate; exfalso; lia.
  - tier_cases; split; intros Hx;
      try (vm_compute in Hx; discriminate Hx);
      try (vm_compute; reflexivity);
      try (repeat split; lia); exfalso; lia.
Qed.

Lemma X11_github_score_witness :
  (_calculate_github_score
     {| repository_count := Some 4%Z; total_stars := None;
        recent_commits := Some 7%Z; languages := Some ["Go"] |}
   <= _calculate_github_score
        {| repository_count := Some 12%Z; total_stars := Some 30%Z;
           recent_commits := Some 25%Z; languages := Some ["Python"; "Go"; "Rust"] |})%Q.
Proof.
  apply (proj1 (X11_github_score _ _)); simpl; lia.
Defined.

(** *** Cultural fit *)

(** X12. The cultural-fit score is 0.7 plus 0.1 for each of the three
    tests that holds (experience, remote preference, location): it lies
    between 0.7 and 1, so the cap at 1 never cuts anything; it is above
    0.95 exactly when the three tests hold, and below 0.75 exactly when
    none does. *)
Theorem X12_cultural_fit_score (state : AnalysisState) :
  exists c : CulturalFit,
    cultural_fit_analysis (assess_cultural_fit state) = Some c
    /\ (cultural_fit_score c
        == 0.7 + (if experience_alignment c then 0.1 else 0)
           + (if remote_preference_match c then 0.1 else 0)
           + (if location_compatibility c then 0.1 else 0))%Q
    /\ (0.7 <= cultural_fit_score c <= 1)%Q
    /\ (cultural_fit_score c == raw_cultural_fit_score state)%Q
    /\ ((0.95 < cultural_fit_score c)%Q
        <-> experience_alignment c = true /\ remote_preference_match c = true
            /\ location_compatibility c = true)
    /\ ((cultural_fit_score c < 0.75)%Q
        <-> experience_alignment c = false /\ remote_preference_match c = false
            /\ location_compatibility c = false).
Proof.
  eexists. split; [reflexivity|]. cbn. unfold raw_cultural_fit_score.
  destruct (experience_aligned state), (remote_matches state),
    (location_compatible state);
    (split; [vm_compute; reflexivity|]);
    (split; [split; vm_compute; discriminate|]);
    (split; [vm_compute; reflexivity|]);
    split; split; intros H; try (vm_compute in H; discriminate H);
    try (vm_compute; reflexivity); try (repeat split; reflexivity);
    destruct H as (H1 & H2 & H3); discriminate.
Qed.

(** X13. The cultural-fit recommendations mirror the tests of the
    assessment: the advice to gain experience is given exactly when the
    experience test fails, the advice on remote work exactly when the
    remote test fails, in this order; there is none when both hold. *)
Theorem X13_cultural_fit_recommendations (state : AnalysisState) :
  exists c : CulturalFit,
    cultural_fit_analysis (assess_cultural_fit state) = Some c
    /\ _generate_cultural_fit_recommendations state
       = ((if experience_alignment c then []
           else ["Consider gaining more experience in the field"])
          ++ (if remote_preference_match c then []
              else ["Consider flexibility in remote work preferences"]))%list
    /\ (_generate_cultural_fit_recommendations state = []
        <-> experience_alignment c = true /\ remote_preference_match c = true)
    /\ (length (_generate_cultural_fit_recommendations state) <= 2)%nat.
Proof.
  eexists. split; [reflexivity|]. cbn.
  unfold _generate_cultural_fit_recommendations, experience_aligned, remote_matches.
  unfold Qltb.
  destruct (Qle_bool _ _), (Bool.eqb _ _); simpl;
    (split; [reflexivity|]); (split; [|lia]);
    split; intros H; try discriminate H; try reflexivity;
    try (split; reflexivity); destruct H; discriminate.
Qed.

(** *** The portfolio dict *)

Lemma dict_set_to_map (k : string) (v : Q) (items : list (string * Q)) :
  (list_to_map (dict_set k v items) : gmap string Q) = <[k := v]> (list_to_map items).
Proof.
  induction items as [|[k' v'] items IH]; [reflexivity|].
  cbn [dict_set]. destruct (String.eqb_spec k' k) as [->|Hne].
  - cbn [list_to_map foldr curry]. rewrite insert_insert_eq. reflexivity.
  - cbn [list_to_map foldr curry]. cbn [list_to_map] in IH. rewrite IH.
    apply insert_insert_ne. exact Hne.
Qed.

Lemma dict_set_keys (k : string) (v : Q) (items : list (string * Q)) :
  (dict_set k v items).*1
  = if bool_decide (k ∈ items.*1) then items.*1 else (items.*1 ++ [k])%list.
Proof.
  induction items as [|[k' v'] items IH]; [reflexivity|].
  cbn [dict_set]. destruct (String.eqb_spec k' k) as [->|Hne].
  - cbn. rewrite bool_decide_eq_true_2 by left. reflexivity.
  - cbn. rewrite IH. destruct (decide (k ∈ items.*1)) as [Hin|Hnin].
    + rewrite !bool_decide_eq_true_2; [reflexivity|right; exact Hin|exact Hin].
    + rewrite !bool_decide_eq_false_2; [reflexivity| |exact Hnin].
      intros Hc. apply elem_of_cons in Hc. destruct Hc as [->|Hc]; contradiction.
Qed.

Lemma dict_set_ok (k : string) (v : Q) (items : list (string * Q)) :
  (k = "github" \/ k = "linkedin" \/ k = "resume") ->
  (k = "linkedin" -> v = 0.7%Q) ->
  portfolio_dict_ok items -> portfolio_dict_ok (dict_set k v items).
Proof.
  intros Hk Hv (Hnd & Hkeys & Hli). split; [|split].
  - rewrite dict_set_keys. case_bool_decide as Hin; [exact Hnd|].
    apply NoDup_app. split; [exact Hnd|]. split; [|apply NoDup_singleton].
    intros x Hx Hx'. apply list_elem_of_singleton in Hx'. subst x. contradiction.
  - rewrite dict_set_keys. case_bool_decide; [exact Hkeys|].
    apply Forall_app. split; [exact Hkeys|]. constructor; [exact Hk|constructor].
  - clear Hnd Hkeys. induction items as [|[k' v'] items IH]; cbn [dict_set].
    + constructor; [exact Hv|constructor].
    + apply Forall_cons in Hli. destruct Hli as [H1 H2].
      destruct (String.eqb_spec k' k) as [->|Hne].
      * constructor; [exact Hv|exact H2].
      * constructor; [exact H1|apply IH; exact H2].
Qed.

Lemma analyze_link_items_ok (tools : Tools) (items : list (string * Q)) (link : string) :
  portfolio_dict_ok items -> portfolio_dict_ok (analyze_link_items tools items link).
Proof.
  intros H. unfold analyze_link_items.
  destruct (contains "github.com" link).
  { destruct (analyze_github_profile tools link); [|exact H].
    apply dict_set_ok; [auto|discriminate|exact H]. }
  destruct (contains "linkedin.com" link).
  { apply dict_set_ok; [auto|reflexivity|exact H]. }
  destruct (_ || _); [|exact H].
  destruct (parse_resume tools link); [|exact H].
  apply dict_set_ok; [auto|discriminate|exact H].
Qed.

Lemma analyze_link_items_to_map (tools : Tools) (items : list (string * Q)) (link : string) :
  (list_to_map (analyze_link_items tools items link) : gmap string Q)
  = analyze_link tools (list_to_map items) link.
Proof.
  unfold analyze_link_items, analyze_link.
  destruct (contains "github.com" link).
  { destruct (analyze_github_profile tools link); [apply dict_set_to_map|reflexivity]. }
  destruct (contains "linkedin.com" link); [apply dict_set_to_map|].
  destruct (_ || _); [|reflexivity].
  destruct (parse_resume tools link); [apply dict_set_to_map|reflexivity].
Qed.

Lemma portfolio_fold (tools : Tools) (links : list string) :
  forall items : list (string * Q),
    portfolio_dict_ok items ->
    portfolio_dict_ok (fold_left (analyze_link_items tools) links items)
    /\ (list_to_map (fold_left (analyze_link_items tools) links items) : gmap string Q)
       = fold_left (analyze_link tools) links (list_to_map items).
Proof.
  induction links as [|link links IH]; intros items H; cbn [fold_left].
  - split; [exact H|reflexivity].
  - destruct (IH _ (analyze_link_items_ok tools items link H)) as [H1 H2].
    split; [exact H1|]. rewrite H2, analyze_link_items_to_map. reflexivity.
Qed.

Lemma portfolio_items_ok (tools : Tools) (links : list string) :
  portfolio_dict_ok (portfolio_items tools links)
  /\ (list_to_map (portfolio_items tools links) : gmap string Q)
     = fold_left (analyze_link tools) links ∅.
Proof.
  apply (portfolio_fold tools links []).
  split; [constructor|]. split; constructor.
Qed.

Lemma sum_scores_perm (l l' : list Q) :
  Permutation l l' -> (sum_scores l == sum_scores l')%Q.
Proof.
  induction 1 as [|x l l' _ IH|x y l|l l' l'' _ IH1 _ IH2]; simpl.
  - reflexivity.
  - rewrite IH. reflexivity.
  - ring.
  - rewrite IH1. exact IH2.
Qed.

(** X14. The portfolio dict built from the links has at most one entry
    for each of the platforms github, linkedin and resume, hence at most
    three entries, whatever the number of links; it holds the same scores
    as the analysis stores, and the overall portfolio score of the
    analysis is the mean of its scores (0 when it is empty). *)
Theorem X14_portfolio_entries (tools : Tools) (state : AnalysisState) :
  let links := default [] (Candidate.portfolio_links (candidate_profile state)) in
  let items := portfolio_items tools links in
  NoDup items.*1
  /\ (forall k, k ∈ items.*1 -> k = "github" \/ k = "linkedin" \/ k = "resume")
  /\ (length items <= 3)%nat
  /\ (exists p : PortfolioAnalysis,
        portfolio_analysis (analyze_portfolio tools state) = Some p
        /\ detailed_analysis p = list_to_map items
        /\ (overall_portfolio_score p
            == match items with
               | [] => 0
               | _ => sum_scores items.*2 / inject_Z (Z.of_nat (length items))
               end)%Q).
Proof.
  intros links items.
  destruct (portfolio_items_ok tools links) as [(Hnd & Hkeys & _) Hmap].
  fold items in Hnd, Hkeys, Hmap.
  split; [exact Hnd|]. split.
  { intros k Hk. rewrite Forall_forall in Hkeys. exact (Hkeys k Hk). }
  split.
  { rewrite <- (length_fmap fst items).
    assert (Hsub : (list_to_set items.*1 : gset string)
                   ⊆ list_to_set ["github"; "linkedin"; "resume"]).
    { intros k. rewrite !elem_of_list_to_set. intros Hk.
      rewrite Forall_forall in Hkeys. destruct (Hkeys k Hk) as [-> | [-> | ->]].
      - left.
      - right. left.
      - right. right. left. }
    apply subseteq_size in Hsub.
    rewrite (size_list_to_set items.*1 Hnd) in Hsub.
    etransitivity; [exact Hsub|]. vm_compute. lia. }
  eexists. split; [reflexivity|]. cbn. fold links. rewrite <- Hmap.
  split; [reflexivity|].
  pose proof (map_to_list_to_map items Hnd) as Hperm.
  assert (P2 : Permutation (map_to_list (list_to_map items : gmap string Q)).*2 items.*2)
    by (apply fmap_Permutation; exact Hperm).
  pose proof (Permutation_length P2) as L. rewrite !length_fmap in L.
  destruct items as [|e items'].
  - change (list_to_map [] : gmap string Q) with (∅ : gmap string Q).
    rewrite map_to_list_empty. reflexivity.
  - destruct ((map_to_list (list_to_map (e :: items') : gmap string Q)).*2) as [|q qs] eqn:Eq.
    + apply Permutation_nil in P2. discriminate P2.
    + rewrite (sum_scores_perm _ _ P2).
      rewrite (Permutation_length P2), length_fmap. reflexivity.
Qed.

Lemma tools_fail_fold (tools : Tools) (links : list string) :
  (forall link, analyze_github_profile tools link = None) ->
  (forall link, parse_resume tools link = None) ->
  forall b : bool,
    fold_left (analyze_link tools) links
      (if b then {["linkedin" := 0.7%Q]} else ∅)
    = if b || existsb (fun link => negb (contains "github.com" link)
                                   && contains "linkedin.com" link) links
      then {["linkedin" := 0.7%Q]} else (∅ : gmap string Q).
Proof.
  intros Hg Hr. induction links as [|link links IH]; intros b; cbn [fold_left existsb].
  - rewrite orb_false_r. reflexivity.
  - unfold analyze_link at 2. rewrite Hg, Hr.
    destruct (contains "github.com" link); cbn [negb andb orb].
    + apply IH.
    + destruct (contains "linkedin.com" link); cbn [orb].
      * rewrite orb_true_r.
        assert (E : <["linkedin" := 0.7%Q]>
                      (if b then {["linkedin" := 0.7%Q]} else (∅ : gmap string Q))
                    = {["linkedin" := 0.7%Q]}).
        { destruct b; [|apply insert_empty].
          rewrite <- insert_empty, insert_insert_eq. reflexivity. }
        rewrite E. specialize (IH true). cbn [orb] in IH. exact IH.
      * destruct (_ || _ || _ || _); apply IH.
Qed.

(** X15. When the code-hosting analysis and the resume parser fail for
    every link, only the placeholder of the professional network can
    count: the overall portfolio score is 0.7 if some link names
    linkedin.com (and not github.com), and 0 if none does. *)
Theorem X15_portfolio_when_tools_fail (tools : Tools) (state : AnalysisState) :
  (forall link, analyze_github_profile tools link = None) ->
  (forall link, parse_resume tools link = None) ->
  let links := default [] (Candidate.portfolio_links (candidate_profile state)) in
  (get_portfolio_score (analyze_portfolio tools state)
   == if existsb (fun link => negb (contains "github.com" link)
                              && contains "linkedin.com" link) links
      then 0.7 else 0)%Q.
Proof.
  intros Hg Hr links. unfold get_portfolio_score, analyze_portfolio. cbn.
  fold links. rewrite (tools_fail_fold tools links Hg Hr false). cbn [orb].
  destruct (existsb _ links).
  - rewrite map_to_list_singleton. vm_compute. reflexivity.
  - rewrite map_to_list_empty. reflexivity.
Qed.

Lemma X15_portfolio_when_tools_fail_witness :
  (get_portfolio_score
     (analyze_portfolio
        {| analyze_github_profile := fun _ => None; parse_resume := fun _ => None |}
        state_P)
   == 0.7)%Q.
Proof.
  apply (X15_portfolio_when_tools_fail
           {| analyze_github_profile := fun _ => None; parse_resume := fun _ => None |}
           state_P); reflexivity.
Defined.

(** *** Strengths and weaknesses *)

Lemma strength_weakness_exclusive (entry : string * Q) :
  strength_of entry = [] \/ weakness_of entry = [].
Proof.
  destruct entry as [k v]. unfold strength_of, weakness_of.
  destruct (Qle_bool 0.7 v) eqn:E.
  - right. apply Qle_bool_iff in E.
    assert (F : Qltb v 0.5 = false) by (apply Qltb_ge; lra).
    rewrite F, !andb_false_r. reflexivity.
  - left. rewrite !andb_false_r. reflexivity.
Qed.

Lemma strength_weakness_length (items : list (string * Q)) :
  (length (flat_map strength_of items) + length (flat_map weakness_of items)
   <= length items)%nat.
Proof.
  induction items as [|e items IH]; [reflexivity|].
  cbn [flat_map]. rewrite !length_app. cbn [length].
  assert (L1 : (length (strength_of e) <= 1)%nat).
  { destruct e as [k v]. unfold strength_of.
    repeat match goal with |- context [if ?c then _ else _] => destruct c end;
      simpl; lia. }
  assert (L2 : (length (weakness_of e) <= 1)%nat).
  { destruct e as [k v]. unfold weakness_of.
    repeat match goal with |- context [if ?c then _ else _] => destruct c end;
      simpl; lia. }
  destruct (strength_weakness_exclusive e) as [E|E]; rewrite E; simpl; lia.
Qed.

Lemma weakness_of_messages (entry : string * Q) (x : string) :
  In x (weakness_of entry) ->
  x = "Limited GitHub activity or repositories"
  \/ x = "Resume could be more comprehensive"
  \/ (x = "LinkedIn profile needs improvement"
      /\ entry.1 = "linkedin" /\ (entry.2 < 0.5)%Q).
Proof.
  destruct entry as [k v]. unfold weakness_of.
  destruct (String.eqb k "github" && Qltb v 0.5).
  { intros [<-|[]]. auto. }
  destruct (String.eqb k "resume" && Qltb v 0.5).
  { intros [<-|[]]. auto. }
  destruct (String.eqb k "linkedin" && Qltb v 0.5) eqn:E; [|intros []].
  intros [<-|[]]. right. right. apply andb_prop in E. destruct E as [E1 E2].
  apply String.eqb_eq in E1. apply Qltb_lt in E2. auto.
Qed.

(** X16. For the portfolio dict built from the links: the weakness "No
    portfolio links provided" is reported exactly when the dict is empty
    (also when links were given but none produced an entry); no platform
    is both a strength and a weakness, so the two lists together are no
    longer than the dict; and the LinkedIn entry, whose score is the fixed
    0.7, is always a strength and never a weakness. *)
Theorem X16_strengths_and_weaknesses (tools : Tools) (links : list string) :
  let items := portfolio_items tools links in
  (items = [] <-> _identify_portfolio_weaknesses items = ["No portfolio links provided"])
  /\ (items = [] -> _identify_portfolio_strengths items = [])
  /\ (items <> [] ->
      (length (_identify_portfolio_strengths items)
       + length (_identify_portfolio_weaknesses items) <= length items)%nat)
  /\ (In "linkedin" items.*1
      <-> In "Professional LinkedIn profile" (_identify_portfolio_strengths items))
  /\ ~ In "LinkedIn profile needs improvement" (_identify_portfolio_weaknesses items).
Proof.
  intros items.
  destruct (portfolio_items_ok tools links) as [(_ & _ & Hli) _]. fold items in Hli.
  rewrite Forall_forall in Hli.
  split; [|split; [|split; [|split]]].
  - split; [intros ->; reflexivity|]. intros H.
    destruct items as [|e items']; [reflexivity|exfalso].
    cbn [_identify_portfolio_weaknesses] in H.
    assert (Hin : In "No portfolio links provided" (flat_map weakness_of (e :: items')))
      by (rewrite H; left; reflexivity).
    apply in_flat_map in Hin. destruct Hin as (entry & _ & Hx).
    apply weakness_of_messages in Hx. destruct Hx as [Hx|[Hx|[Hx _]]]; discriminate Hx.
  - intros ->. reflexivity.
  - intros Hne. destruct items as [|e items']; [contradiction|].
    apply strength_weakness_length.
  - split.
    + intros Hin. apply in_map_iff in Hin. destruct Hin as ([k v] & Hk & Hin).
      simpl in Hk. subst k.
      apply in_flat_map. exists ("linkedin", v). split; [exact Hin|].
      assert (Hv : v = 0.7%Q) by (apply (Hli ("linkedin", v)); [apply list_elem_of_In; exact Hin|reflexivity]).
      subst v. left. reflexivity.
    + intros Hin. apply in_flat_map in Hin. destruct Hin as ([k v] & Hin & Hx).
      apply in_map_iff. exists (k, v). split; [|exact Hin]. simpl.
      unfold strength_of in Hx.
      destruct (String.eqb k "github" && Qle_bool 0.7 v);
        [destruct Hx as [Hx|[]]; discriminate Hx|].
      destruct (String.eqb k "resume" && Qle_bool 0.7 v);
        [destruct Hx as [Hx|[]]; discriminate Hx|].
      destruct (String.eqb k "linkedin" && Qle_bool 0.7 v) eqn:E; [|destruct Hx].
      apply andb_prop in E. destruct E as [E _]. apply String.eqb_eq in E. exact E.
  - intros Hin.
    assert (Hin' : In "LinkedIn profile needs improvement" (flat_map weakness_of items)).
    { destruct items as [|e items']; [|exact Hin].
      destruct Hin as [Hx|[]]. discriminate Hx. }
    apply in_flat_map in Hin'. destruct Hin' as (entry & He & Hx).
    apply weakness_of_messages in Hx.
    destruct Hx as [Hx|[Hx|(_ & Hk & Hv)]]; try discriminate Hx.
    rewrite (Hli entry (proj2 (list_elem_of_In _ _) He) Hk) in Hv. discriminate Hv.
Qed.

Lemma X16_strengths_and_weaknesses_witness :
  portfolio_items tools_P ["https://example.com/me"] = []
  /\ _identify_portfolio_weaknesses (portfolio_items tools_P ["https://example.com/me"])
     = ["No portfolio links provided"].
Proof.
  assert (H : portfolio_items tools_P ["https://example.com/me"] = []) by reflexivity.
  split; [exact H|].
  exact (proj1 (proj1 (X16_strengths_and_weaknesses tools_P ["https://example.com/me"])) H).
Defined.

(** *** Questions and recommendations *)

(** X17. The interview questions always end with the two fixed closing
    questions, preceded by at most three others (one when there is a
    matching skill, one when there is a relevant work-history entry, one
    when the code-hosting profile was analysed): there are between two and
    five of them, and the limit of five never removes one. *)
Theorem X17_interview_questions (state : AnalysisState)
    (relevant : list (WorkExperience * Q)) :
  exists openers : list string,
    _generate_interview_questions state relevant
    = (openers ++ ["How do you prefer to work in a team environment?";
                   "What are your career goals for the next 2-3 years?"])%list
    /\ (length openers
        = (if default [] (matching_skills <$> skills_analysis state) is [] then 0 else 1)
          + (if relevant is [] then 0 else 1)
          + (if (portfolio_analysis state ≫= fun p => detailed_analysis p !! "github")
             is Some _ then 1 else 0))%nat
    /\ (2 <= length (_generate_interview_questions state relevant) <= 5)%nat.
Proof.
  unfold _generate_interview_questions.
  match goal with
  | |- exists o, firstn 5 (?a ++ ?b ++ ?c ++ _)%list = _ /\ _ =>
      exists (a ++ b ++ c)%list
  end.
  destruct (default [] (matching_skills <$> skills_analysis state)) as [|skill ?];
    destruct relevant as [|[exp ?] ?];
    (destruct (portfolio_analysis state) as [p|]; cbn [mbind option_bind];
     [destruct (detailed_analysis p !! "github")|]);
    (split; [reflexivity|]); cbn [app length firstn]; split; try reflexivity; lia.
Qed.

(** X18. In the final assessment every risk factor comes with a
    recommendation: there are at most two risk factors (missing skills,
    experience below the requirement) and at most four recommendations,
    never fewer recommendations than risk factors; there is no risk factor
    exactly when no skill is missing and the experience is not below the
    requirement. *)
Theorem X18_final_recommendations (state : AnalysisState)
    (portfolio_weaknesses : list string) :
  let recommendations := fst (final_recommendations state portfolio_weaknesses) in
  let risk_factors := snd (final_recommendations state portfolio_weaknesses) in
  (length risk_factors <= 2)%nat
  /\ (length recommendations <= 4)%nat
  /\ (length risk_factors <= length recommendations)%nat
  /\ (length recommendations
      = length risk_factors + Nat.min 2 (length portfolio_weaknesses))%nat
  /\ (risk_factors = []
      <-> default [] (missing_skills <$> skills_analysis state) = []
          /\ (experience_assessment <$> experience_analysis state) <> Some below_required).
Proof.
  intros recommendations risk_factors.
  unfold recommendations, risk_factors, final_recommendations.
  pose proof (length_firstn 2 portfolio_weaknesses) as L.
  destruct (default [] (missing_skills <$> skills_analysis state)) as [|x l];
    destruct (experience_assessment <$> experience_analysis state) as [[| |]|];
    cbn [fst snd app length]; rewrite ?length_app; cbn [length];
    (split; [lia|]); (split; [lia|]); (split; [lia|]); (split; [lia|]);
    split; intros H; try discriminate H; try (split; [reflexivity|discriminate]);
    try reflexivity; destruct H as [H1 H2]; try discriminate H1;
    exfalso; apply H2; reflexivity.
Qed.

(** *** Relevance of a work-history entry *)

Lemma count_in_le (required_skills : list string) (text : string) :
  (count_in required_skills text <= length required_skills)%nat.
Proof. unfold count_in. apply filter_length_le. Qed.

Lemma ratio_gt (a b m n : nat) :
  (0 < b)%nat -> (0 < n)%nat ->
  (inject_Z (Z.of_nat a) / inject_Z (Z.of_nat b)
   < inject_Z (Z.of_nat m) / inject_Z (Z.of_nat n))%Q
  <-> (a * n < b * m)%nat.
Proof.
  intros Hb Hn.
  set (qa := inject_Z (Z.of_nat a)). set (qb := inject_Z (Z.of_nat b)).
  set (qm := inject_Z (Z.of_nat m)). set (qn := inject_Z (Z.of_nat n)).
  assert (Pb : (0 < qb)%Q).
  { unfold qb. change 0%Q with (inject_Z 0). rewrite <- Zlt_Qlt. lia. }
  assert (Pn : (0 < qn)%Q).
  { unfold qn. change 0%Q with (inject_Z 0). rewrite <- Zlt_Qlt. lia. }
  assert (Nb : ~ (qb == 0)%Q) by (intros E; rewrite E in Pb; discriminate Pb).
  assert (Nn : ~ (qn == 0)%Q) by (intros E; rewrite E in Pn; discriminate Pn).
  assert (Pbn : (0 < qb * qn)%Q) by (apply Qmult_lt_0_compat; assumption).
  rewrite <- (Qmult_lt_r _ _ (qb * qn) Pbn).
  assert (E1 : (qa / qb * (qb * qn) == qa * qn)%Q) by (field; exact Nb).
  assert (E2 : (qm / qn * (qb * qn) == qb * qm)%Q) by (field; exact Nn).
  rewrite E1, E2. unfold qa, qb, qm, qn.
  rewrite <- !inject_Z_mult, <- Zlt_Qlt, <- !Nat2Z.inj_mul. lia.
Qed.

(** X19. The relevance of a work-history entry lies in [[0,1]]. The entry
    is kept as relevant (relevance above 0.5) only when the job requires
    some skill, and then exactly when more than 2/7 of the required skills
    occur in its description if its title matches the required role, and
    more than 5/7 of them if it does not: a matching title alone is never
    enough. *)
Theorem X19_experience_relevance (experience : WorkExperience) (job_requirements : Job.t) :
  let required_skills := map lower (default [] (Job.skills job_requirements)) in
  let n := length required_skills in
  let m := count_in required_skills (lower (default "" (description experience))) in
  let matches_title :=
    title_relevant (lower (default "" (Job.title job_requirements)))
      (lower (default "" (title experience))) in
  let r := _calculate_experience_relevance experience job_requirements in
  (0 <= r <= 1)%Q
  /\ (n = 0%nat -> (r <= 0.3)%Q)
  /\ ((0.5 < r)%Q
      <-> (0 < n)%nat
          /\ (if matches_title then (2 * n < 7 * m)%nat else (5 * n < 7 * m)%nat)).
Proof.
  intros required_skills n m matches_title r.
  unfold r, _calculate_experience_relevance.
  fold required_skills. fold m. fold matches_title.
  pose proof (count_in_le required_skills (lower (default "" (description experience))))
    as Hm. fold m n in Hm.
  destruct required_skills as [|sk rest] eqn:Es.
  - assert (Hn : n = 0%nat) by reflexivity. rewrite Hn.
    destruct matches_title;
      (split; [split; vm_compute; discriminate|]);
      (split; [intros _; vm_compute; discriminate|]);
      split; intros H; [vm_compute in H; discriminate H|lia
                       |vm_compute in H; discriminate H|lia].
  - assert (Hn : (0 < n)%nat) by (unfold n; simpl; lia).
    change (length (sk :: rest)) with n.
    set (x := (inject_Z (Z.of_nat m) / inject_Z (Z.of_nat n))%Q).
    assert (X0 : (0 <= x)%Q) by apply AnalyzeCandidatesProofs.ratio_nonneg.
    assert (X1 : (x <= 1)%Q).
    { unfold x. apply Qle_shift_div_r.
      - change 0%Q with (inject_Z 0). rewrite <- Zlt_Qlt. lia.
      - rewrite Qmult_1_l, <- Zle_Qle. lia. }
    assert (G2 : ((2 # 7) < x)%Q <-> (2 * n < 7 * m)%nat).
    { rewrite <- (ratio_gt 2 7 m n) by lia. reflexivity. }
    assert (G5 : ((5 # 7) < x)%Q <-> (5 * n < 7 * m)%nat).
    { rewrite <- (ratio_gt 5 7 m n) by lia. reflexivity. }
    destruct matches_title.
    + assert (E : (Qmin 1 (0 + 0.3 + x * 0.7) == 0 + 0.3 + x * 0.7)%Q)
        by (apply Q.min_r; lra).
      rewrite E. split; [split; lra|]. split; [intros Hz; lia|].
      rewrite <- G2. split; [intros H; split; [exact Hn|lra]|intros [_ H]; lra].
    + assert (E : (Qmin 1 (0 + x * 0.7) == 0 + x * 0.7)%Q)
        by (apply Q.min_r; lra).
      rewrite E. split; [split; lra|]. split; [intros Hz; lia|].
      rewrite <- G5. split; [intros H; split; [exact Hn|lra]|intros [_ H]; lra].
Qed.

(** *** The whole analysis *)

Lemma no_links_no_portfolio (tools : Tools) (state : AnalysisState) :
  default [] (Candidate.portfolio_links (candidate_profile state)) = [] ->
  get_portfolio_score (analyze_portfolio tools state) = 0%Q.
Proof.
  intros H. unfold get_portfolio_score, analyze_portfolio. cbn. rewrite H.
  cbn [fold_left]. rewrite map_to_list_empty. reflexivity.
Qed.

(** X20. After the five analysis stages, whatever the profile, the job
    and the answers of the external tools: the analysis is marked
    complete, and the overall score lies between 0.105 and 1 (the
    cultural-fit score is never below 0.7). When the candidate gives no
    portfolio link, the overall score is at most 0.75, so the summary is
    never the one of an excellent candidate. *)
Theorem X20_analysis_end_to_end (tools : Tools) (state : AnalysisState) :
  let final := analysis_stages tools state in
  is_complete final = true
  /\ exists r : AnalysisResults,
       analysis_results final = Some r
       /\ (0.105 <= overall_score r <= 1)%Q
       /\ (default [] (Candidate.portfolio_links (candidate_profile state)) = [] ->
           (overall_score r <= 0.75)%Q
           /\ assessment_summary r
              <> "Excellent candidate with strong alignment to job requirements.").
Proof.
  intros final. split; [reflexivity|]. eexists. split; [reflexivity|].
  cbn [overall_score assessment_summary].
  set (inner := assess_cultural_fit
                  (analyze_portfolio tools (analyze_experience (analyze_skills state)))).
  pose proof (AnalyzeCandidatesProofs.stages_sub_scores_in_unit tools state)
    as ([S0 S1] & [E0 E1] & [P0 P1] & [C0 C1]).
  fold inner in S0, S1, E0, E1, P0, P1, C0, C1.
  assert (C7 : (0.7 <= get_cultural_score inner)%Q).
  { unfold inner, get_cultural_score, assess_cultural_fit. cbn.
    unfold raw_cultural_fit_score.
    destruct (experience_aligned _), (remote_matches _), (location_compatible _);
      vm_compute; discriminate. }
  unfold weighted_overall_score.
  set (a := get_skill_score inner) in *. set (b := get_experience_score inner) in *.
  set (c := get_portfolio_score inner) in *. set (d := get_cultural_score inner) in *.
  split; [split; lra|].
  intros Hno.
  assert (Pz : c = 0%Q).
  { unfold c, inner.
    change (get_portfolio_score (assess_cultural_fit ?s)) with (get_portfolio_score s).
    apply no_links_no_portfolio. exact Hno. }
  assert (Hle : (a * 0.35 + b * 0.25 + c * 0.25 + d * 0.15 <= 0.75)%Q)
    by (rewrite Pz; lra).
  split; [exact Hle|].
  unfold _generate_assessment_summary.
  assert (F : Qle_bool 0.8 (a * 0.35 + b * 0.25 + c * 0.25 + d * 0.15) = false).
  { apply Qle_bool_false. lra. }
  rewrite F.
  repeat match goal with |- context [if ?x then _ else _] => destruct x end;
    discriminate.
Qed.

Lemma X20_analysis_end_to_end_witness :
  default [] (Candidate.portfolio_links (candidate_profile (initial_state "cand-1" job_P))) = []
  /\ exists r : AnalysisResults,
       analysis_results (analysis_stages tools_P (initial_state "cand-1" job_P)) = Some r
       /\ (overall_score r <= 0.75)%Q.
Proof.
  split; [reflexivity|].
  destruct (proj2 (X20_analysis_end_to_end tools_P (initial_state "cand-1" job_P)))
    as (r & Hr & _ & H).
  exists r. split; [exact Hr|]. exact (proj1 (H eq_refl)).
Defined.

End AnalyzeCandidatesFacts.

(** ** Further properties of the message protocol *)

Module A2AFacts.
Import Py PyFacts A2A A2ASpec A2ASend A2ASendSpec.

(** *** The tags of the message types *)

Lemma MessageType_of_Some (s : string) (t : MessageType) :
  MessageType_of s = Some t -> s = value_of t.
Proof.
  unfold MessageType_of. intros H. apply find_some in H.
  destruct H as [_ H]. apply String.eqb_eq in H. symmetry. exact H.
Qed.

Lemma value_of_inj (t t' : MessageType) : value_of t = value_of t' -> t = t'.
Proof.
  intros H. pose proof (A2AProofs.MessageType_of_value_of t) as E.
  rewrite H, A2AProofs.MessageType_of_value_of in E. congruence.
Qed.

Lemma MessageType_eqb_eq (t t' : MessageType) :
  MessageType_eqb t t' = true <-> t = t'.
Proof.
  unfold MessageType_eqb. rewrite String.eqb_eq. split.
  - apply value_of_inj.
  - intros ->. reflexivity.
Qed.

(** The fifteen message types have pairwise distinct tags, and
    [MessageType(s)] succeeds exactly on these tags, giving the type whose
    tag is [s]; on every other string it raises. Two types are equal
    exactly when their tags are. *)
Lemma message_type_tags (s : string) (t t' : MessageType) :
  (MessageType_of s = Some t <-> s = value_of t)
  /\ (MessageType_of s = None <-> forall u : MessageType, value_of u <> s)
  /\ (value_of t = value_of t' <-> t = t')
  /\ NoDup (map value_of all_message_types)
  /\ (forall u : MessageType, In u all_message_types).
Proof.
  split; [|split; [|split; [|split]]].
  - split; [apply MessageType_of_Some|].
    intros ->. apply A2AProofs.MessageType_of_value_of.
  - split.
    + intros H u <-. rewrite A2AProofs.MessageType_of_value_of in H. discriminate H.
    + intros H. destruct (MessageType_of s) as [u|] eqn:E; [|reflexivity].
      apply MessageType_of_Some in E. exfalso. apply (H u). symmetry. exact E.
  - split; [apply value_of_inj|intros ->; reflexivity].
  - refine (bool_decide_unpack _ _). vm_compute. exact I.
  - intros u. destruct u; simpl; tauto.
Qed.

(** *** Decoding *)

Lemma fromisoformat_valid (s : string) (d : datetime) :
  fromisoformat s = Some d -> valid_datetime d = true.
Proof.
  unfold fromisoformat. intros H.
  repeat match type of H with
         | (if ?c then None else _) = Some _ =>
             destruct c; [discriminate H|]
         end.
  repeat match type of H with
         | mbind _ ?o = Some _ =>
             destruct o; cbn [mbind option_bind] in H; [|discriminate H]
         end.
  cbv zeta in H.
  match type of H with
  | (if ?c then _ else _) = _ => destruct c eqn:V; [|discriminate H]
  end.
  injection H as <-. exact V.
Qed.

Lemma or_empty_dict_not_None (v : value) : or_empty_dict v <> VNone.
Proof. destruct v; discriminate. Qed.

Lemma ne_str_false (v : value) (s : string) : ne_str v s = false <-> v = VStr s.
Proof.
  destruct v; simpl; split; try discriminate.
  - intros H. apply negb_false_iff, String.eqb_eq in H. subst. reflexivity.
  - intros [= ->]. rewrite String.eqb_refl. reflexivity.
Qed.

(** X21. A message that [from_dict] decodes is well formed: its payload
    and metadata are not [None] and its timestamp is a valid date and
    time. The envelope has no key besides the seven fields; it holds the
    identifier and the sender as decoded, the tag of the decoded type and
    a text that parses to the decoded timestamp; the receiver is [None]
    when the envelope has none. Encoding the decoded message and decoding
    it again gives the same message. *)
Theorem X21_from_dict_decoded (data : gmap string value) (m : Message) :
  from_dict data = Some m ->
  post_init_ok m
  /\ valid_datetime (timestamp m) = true
  /\ (forall k : string, is_Some (data !! k) -> In k field_names)
  /\ data !! "message_id" = Some (message_id m)
  /\ data !! "sender_id" = Some (sender_id m)
  /\ data !! "message_type" = Some (VStr (value_of (message_type m)))
  /\ (exists s : string,
        data !! "timestamp" = Some (VStr s) /\ fromisoformat s = Some (timestamp m))
  /\ receiver_id m = default VNone (data !! "receiver_id")
  /\ from_dict (to_dict m) = Some m.
Proof.
  unfold from_dict. intros H.
  destruct (data !! "message_type") as [tag|] eqn:E1;
    cbn [mbind option_bind] in H; [|discriminate H].
  destruct tag as [| | | |tag_s| |]; cbn [mbind option_bind] in H; try discriminate H.
  destruct (MessageType_of tag_s) as [mt|] eqn:E2;
    cbn [mbind option_bind] in H; [|discriminate H].
  destruct (data !! "timestamp") as [ts|] eqn:E3;
    cbn [mbind option_bind] in H; [|discriminate H].
  destruct ts as [| | | |ts_s| |]; cbn [mbind option_bind] in H; try discriminate H.
  destruct (fromisoformat ts_s) as [t|] eqn:E4;
    cbn [mbind option_bind] in H; [|discriminate H].
  destruct (forallb _ _) eqn:E5; cbn [negb] in H; [|discriminate H].
  destruct (data !! "message_id") as [mid|] eqn:E6;
    cbn [mbind option_bind] in H; [|discriminate H].
  destruct (data !! "sender_id") as [sid|] eqn:E7;
    cbn [mbind option_bind] in H; [|discriminate H].
  injection H as <-.
  cbn [message_id message_type sender_id receiver_id timestamp payload metadata].
  assert (P : post_init_ok
                {| message_id := mid; message_type := mt; sender_id := sid;
                   receiver_id := default VNone (data !! "receiver_id");
                   timestamp := t;
                   payload := or_empty_dict (default VNone (data !! "payload"));
                   metadata := or_empty_dict (default VNone (data !! "metadata")) |}).
  { split; apply or_empty_dict_not_None. }
  pose proof (fromisoformat_valid _ _ E4) as V.
  split; [exact P|]. split; [exact V|]. split.
  { intros k [v Hk].
    rewrite forallb_forall in E5.
    assert (Hin : In k (map_to_list data).*1).
    { apply list_elem_of_In, list_elem_of_fmap. exists (k, v). split; [reflexivity|].
      apply elem_of_map_to_list. exact Hk. }
    specialize (E5 k Hin). apply existsb_exists in E5.
    destruct E5 as (k' & Hk' & He). apply String.eqb_eq in He. subst k'. exact Hk'. }
  split; [reflexivity|]. split; [reflexivity|]. split.
  { apply MessageType_of_Some in E2. subst tag_s. reflexivity. }
  split; [exists ts_s; split; [reflexivity|exact E4]|].
  split; [reflexivity|].
  apply A2AProofs.from_dict_to_dict; [exact V|exact P].
Qed.

Lemma X21_from_dict_decoded_witness :
  from_dict (to_dict message_M) = Some message_M
  /\ valid_datetime (timestamp message_M) = true.
Proof.
  assert (E : from_dict (to_dict message_M) = Some message_M)
    by (vm_compute; reflexivity).
  split; [exact E|].
  exact (proj1 (proj2 (X21_from_dict_decoded (to_dict message_M) message_M E))).
Defined.

(** *** The table of handlers *)

Lemma process_message_decoded {W : Type} (self : AgentToAgentProtocol W)
    (message_data : gmap string value) (m : Message) (w : W) :
  from_dict message_data = Some m ->
  truthy (receiver_id m) && ne_str (receiver_id m) (agent_id self) = false ->
  process_message self message_data w
  = match message_handlers self (message_type m) with
    | Some handler =>
        match handler m w with
        | HReturn w' => {| handled := true; invoked := [m]; final := w' |}
        | HRaise w' => {| handled := false; invoked := [m]; final := w' |}
        end
    | None => {| handled := false; invoked := []; final := w |}
    end.
Proof. intros E R. unfold process_message. rewrite E, R. reflexivity. Qed.

Lemma accepts_iff (v : value) (a : string) :
  truthy v && ne_str v a = false <-> truthy v = false \/ v = VStr a.
Proof.
  rewrite andb_false_iff, ne_str_false. reflexivity.
Qed.

(** X22. An agent that registered nothing handles exactly the heartbeat,
    status and error messages: [process_message] returns true exactly
    when the envelope decodes to a message of one of these three types
    whose receiver is absent, empty or this agent. Its default handlers
    only write to the log: the state of the agent is the same
    afterwards, whatever the envelope. *)
Theorem X22_default_handlers {W : Type} (agent : string)
    (message_data : gmap string value) (w : W) :
  let r := process_message (W:=W) (new_protocol agent) message_data w in
  final r = w
  /\ (handled r = true
      <-> exists m : Message,
            from_dict message_data = Some m
            /\ (truthy (receiver_id m) = false \/ receiver_id m = VStr agent)
            /\ (message_type m = AGENT_HEARTBEAT \/ message_type m = AGENT_STATUS
                \/ message_type m = AGENT_ERROR))
  /\ (handled r = true -> exists m : Message,
        from_dict message_data = Some m /\ invoked r = [m])
  /\ (handled r = false -> invoked r = []).
Proof.
  intros r. unfold r, process_message.
  change (agent_id (new_protocol (W:=W) agent)) with agent.
  destruct (from_dict message_data) as [m|] eqn:E.
  2:{ cbn. split; [reflexivity|]. split; [|split; [discriminate|reflexivity]].
      split; [discriminate|]. intros (m & Hm & _). discriminate Hm. }
  pose proof (accepts_iff (receiver_id m) agent) as A.
  destruct (truthy (receiver_id m) && ne_str (receiver_id m) agent).
  - cbn. split; [reflexivity|]. split; [|split; [discriminate|reflexivity]].
    split; [discriminate|].
    intros (m' & Hm' & Hr & _). injection Hm' as <-.
    apply A in Hr. discriminate Hr.
  - assert (Hr : truthy (receiver_id m) = false \/ receiver_id m = VStr agent)
      by (apply A; reflexivity).
    destruct (message_type m) eqn:Em; cbn;
      (split; [reflexivity|]);
      (split; [|split; [try discriminate; intros _; exists m; split; reflexivity
                       |try discriminate; reflexivity]]);
      (split; [try discriminate; intros _; exists m; rewrite Em; tauto
              |try (intros _; reflexivity);
               intros (m' & Hm' & _ & [Hx | [Hx | Hx]]); injection Hm' as <-;
               rewrite Em in Hx; discriminate Hx]).
Qed.

(** X23. Registering a handler for a type changes what the agent does
    with the messages of that type and with no others. The new handler
    replaces the one registered before, default handlers included; on an
    envelope that does not decode to a message of that type
    [process_message] behaves as before the registration; on one that
    does, and that this agent accepts, the new handler is the one
    called. *)
Theorem X23_register_handler {W : Type} (message_type' : MessageType)
    (handler : Handler W) (self : AgentToAgentProtocol W) :
  let self' := register_handler message_type' handler self in
  agent_id self' = agent_id self
  /\ message_handlers self' message_type' = Some handler
  /\ (forall t : MessageType,
        t <> message_type' -> message_handlers self' t = message_handlers self t)
  /\ (forall (message_data : gmap string value) (w : W),
        (forall m : Message,
           from_dict message_data = Some m -> message_type m <> message_type') ->
        process_message self' message_data w = process_message self message_data w)
  /\ (forall (message_data : gmap string value) (m : Message) (w : W),
        from_dict message_data = Some m ->
        message_type m = message_type' ->
        truthy (receiver_id m) && ne_str (receiver_id m) (agent_id self) = false ->
        invoked (process_message self' message_data w) = [m]
        /\ match handler m w with
           | HReturn w' =>
               handled (process_message self' message_data w) = true
               /\ final (process_message self' message_data w) = w'
           | HRaise w' =>
               handled (process_message self' message_data w) = false
               /\ final (process_message self' message_data w) = w'
           end).
Proof.
  intros self'.
  assert (L1 : message_handlers self' message_type' = Some handler).
  { unfold self', register_handler. cbn.
    rewrite (proj2 (MessageType_eqb_eq _ _) eq_refl). reflexivity. }
  assert (L2 : forall t, t <> message_type' ->
                         message_handlers self' t = message_handlers self t).
  { intros t Ht. unfold self', register_handler. cbn.
    destruct (MessageType_eqb t message_type') eqn:E; [|reflexivity].
    apply MessageType_eqb_eq in E. contradiction. }
  split; [reflexivity|]. split; [exact L1|]. split; [exact L2|]. split.
  - intros message_data w Hm. unfold process_message.
    change (agent_id self') with (agent_id self).
    destruct (from_dict message_data) as [m|]; [|reflexivity].
    rewrite (L2 _ (Hm m eq_refl)). reflexivity.
  - intros message_data m w Em Et Hr.
    rewrite (process_message_decoded self' message_data m w Em Hr).
    rewrite Et, L1. destruct (handler m w); repeat split.
Qed.

Lemma X23_register_handler_witness :
  invoked (process_message protocol_X (to_dict message_M) tt) = [message_M]
  /\ handled (process_message protocol_X (to_dict message_M) tt) = false.
Proof.
  assert (E : from_dict (to_dict message_M) = Some message_M)
    by (vm_compute; reflexivity).
  destruct (X23_register_handler MATCH_REQUEST (fun _ w => HRaise w)
              (new_protocol (W:=unit) "candidate_finder_agent"))
    as (_ & _ & _ & _ & H).
  destruct (H (to_dict message_M) message_M tt E eq_refl eq_refl) as [H1 [H2 _]].
  split; [exact H1|exact H2].
Defined.

(** *** Sending *)

Lemma new_message_round_trip (mid : value) (mt : MessageType) (sid rid : value)
    (ts : option datetime) (pl md : value) (now : datetime) :
  valid_datetime (default now ts) = true ->
  from_dict (to_dict (new_message mid mt sid rid ts pl md now))
  = Some (new_message mid mt sid rid ts pl md now).
Proof.
  intros V. apply A2AProofs.from_dict_to_dict; [exact V|].
  split; apply or_empty_dict_not_None.
Qed.

Lemma deliver_to_self (a : string) :
  truthy (VStr a) && ne_str (VStr a) a = false.
Proof. simpl. rewrite String.eqb_refl. apply andb_false_r. Qed.

Lemma deliver_to_other (a b : string) :
  a <> "" -> b <> a -> truthy (VStr a) && ne_str (VStr a) b = true.
Proof.
  intros Ha Hb. unfold truthy, ne_str.
  destruct (String.eqb_spec a b) as [->|_]; [contradiction|].
  destruct a; [contradiction|reflexivity].
Qed.

(** X24. A match request sent to an agent reaches the handler that this
    agent registered for match requests, as the message that was built:
    its identifier is the identifier of the request, its payload the
    fields of the request, its metadata empty and its timestamp the time
    of sending; the envelope given to the transport decodes to it.
    [send_match_request] returns true exactly when there is a client and
    its [publish_message] returns; without a client nothing is published.
    At the receiver [process_message] calls the handler once, with that
    message, and returns true exactly when the handler returns. An agent
    with another identifier drops the envelope. *)
Theorem X24_match_request_delivery {T W : Type} (kafka_client : option (KafkaClient T))
    (sender : string) (receiver other : AgentToAgentProtocol W)
    (match_request : MatchRequest) (now : datetime) (handler : Handler W)
    (t : T) (w : W) :
  valid_datetime now = true ->
  message_handlers receiver MATCH_REQUEST = Some handler ->
  agent_id receiver <> "" ->
  agent_id other <> agent_id receiver ->
  let m := match_request_envelope sender (VStr (agent_id receiver)) match_request now in
  let sent := send_match_request kafka_client sender (VStr (agent_id receiver))
                match_request now t in
  (message_id m = request_id match_request
   /\ message_type m = MATCH_REQUEST
   /\ sender_id m = VStr sender
   /\ payload m = MatchRequest_dict match_request
   /\ metadata m = VDict []
   /\ timestamp m = now)
  /\ from_dict (to_dict m) = Some m
  /\ (kafka_client = None -> sent = (false, t))
  /\ (forall client : KafkaClient T,
        kafka_client = Some client ->
        match publish_message client (to_dict m) t with
        | PReturn t' => sent = (true, t')
        | PRaise t' => sent = (false, t')
        end)
  /\ invoked (process_message receiver (to_dict m) w) = [m]
  /\ match handler m w with
     | HReturn w' =>
         handled (process_message receiver (to_dict m) w) = true
         /\ final (process_message receiver (to_dict m) w) = w'
     | HRaise w' =>
         handled (process_message receiver (to_dict m) w) = false
         /\ final (process_message receiver (to_dict m) w) = w'
     end
  /\ process_message other (to_dict m) w
     = {| handled := false; invoked := []; final := w |}.
Proof.
  intros V Hh Hne Ho m sent.
  assert (E : from_dict (to_dict m) = Some m)
    by (apply new_message_round_trip; exact V).
  split; [repeat split|]. split; [exact E|]. split.
  { intros ->. reflexivity. }
  split.
  { intros client ->. unfold sent, send_match_request, send_message. fold m.
    destruct (publish_message client (to_dict m) t); reflexivity. }
  rewrite (process_message_decoded receiver (to_dict m) m w E
             (deliver_to_self (agent_id receiver))).
  change (message_type m) with MATCH_REQUEST. rewrite Hh.
  split; [destruct (handler m w); reflexivity|].
  split; [destruct (handler m w); split; reflexivity|].
  unfold process_message. rewrite E.
  change (receiver_id m) with (VStr (agent_id receiver)).
  rewrite (deliver_to_other _ _ Hne Ho). reflexivity.
Qed.

Lemma X24_match_request_delivery_witness :
  send_match_request (Some recording_client) "job_finder_agent"
    (VStr "candidate_finder_agent") request_Q now_Q []
  = (true, [to_dict (match_request_envelope "job_finder_agent"
                       (VStr "candidate_finder_agent") request_Q now_Q)])
  /\ final (process_message counting_agent
              (to_dict (match_request_envelope "job_finder_agent"
                          (VStr "candidate_finder_agent") request_Q now_Q)) 0%nat)
     = 1%nat
  /\ handled (process_message (new_protocol (W:=nat) "job_finder_agent")
                (to_dict (match_request_envelope "job_finder_agent"
                            (VStr "candidate_finder_agent") request_Q now_Q)) 0%nat)
     = false.
Proof.
  assert (V : valid_datetime now_Q = true) by reflexivity.
  assert (Hh : message_handlers counting_agent MATCH_REQUEST
               = Some (fun _ n => HReturn (S n))) by reflexivity.
  assert (Hne : agent_id counting_agent <> "") by discriminate.
  assert (Ho : agent_id (new_protocol (W:=nat) "job_finder_agent")
               <> agent_id counting_agent) by discriminate.
  destruct (X24_match_request_delivery (Some recording_client) "job_finder_agent"
              counting_agent (new_protocol "job_finder_agent") request_Q now_Q
              (fun _ n => HReturn (S n)) [] 0%nat V Hh Hne Ho)
    as (_ & _ & _ & Hs & _ & Hf & Hd).
  split; [exact (Hs recording_client eq_refl)|].
  split; [exact (proj2 Hf)|].
  change (agent_id counting_agent) with "candidate_finder_agent" in Hd.
  rewrite Hd. reflexivity.
Defined.

(** X25. A broadcast carries no receiver, and every agent that has a
    handler for its type dispatches it, whatever the identifier of that
    agent: the sender itself, if it reads its own envelope, handles it
    too. The handler gets the message as built: the identifier is the
    identifier of the sender followed by the time stamp, a payload of
    [None] has become an empty dict. In particular a heartbeat, a status
    or an error broadcast is accepted by every agent that kept the
    default handlers, and leaves its state as it was. Without a client
    the three convenience calls publish nothing and do not raise. *)
Theorem X25_broadcast_delivery {W : Type} (sender : string)
    (agent : AgentToAgentProtocol W) (message_type' : MessageType) (payload' : value)
    (stamp : string) (now : datetime) (handler : Handler W) (w : W) :
  valid_datetime now = true ->
  message_handlers agent message_type' = Some handler ->
  let m := broadcast_envelope sender message_type' payload' stamp now in
  (receiver_id m = VNone
   /\ message_id m = VStr (sender ++ "_" ++ stamp)
   /\ sender_id m = VStr sender
   /\ payload m = or_empty_dict payload'
   /\ timestamp m = now)
  /\ invoked (process_message agent (to_dict m) w) = [m]
  /\ match handler m w with
     | HReturn w' =>
         handled (process_message agent (to_dict m) w) = true
         /\ final (process_message agent (to_dict m) w) = w'
     | HRaise w' =>
         handled (process_message agent (to_dict m) w) = false
         /\ final (process_message agent (to_dict m) w) = w'
     end
  /\ (forall (name : string) (t : MessageType),
        t = AGENT_HEARTBEAT \/ t = AGENT_STATUS \/ t = AGENT_ERROR ->
        process_message (new_protocol name)
          (to_dict (broadcast_envelope sender t payload' stamp now)) w
        = {| handled := true;
             invoked := [broadcast_envelope sender t payload' stamp now];
             final := w |})
  /\ (forall (T : Type) (t : T) (status details : value) (now0 : datetime),
        send_heartbeat None sender now0 stamp now t = t
        /\ send_status None sender status details stamp now t = t
        /\ send_error None sender status details stamp now t = t).
Proof.
  intros V Hh m.
  assert (E : forall t, from_dict (to_dict (broadcast_envelope sender t payload' stamp now))
                        = Some (broadcast_envelope sender t payload' stamp now))
    by (intros t; apply new_message_round_trip; exact V).
  split; [repeat split|].
  rewrite (process_message_decoded agent (to_dict m) m w (E message_type') eq_refl).
  change (message_type m) with message_type'. rewrite Hh.
  split; [destruct (handler m w); reflexivity|].
  split; [destruct (handler m w); split; reflexivity|].
  split.
  - intros name t Ht.
    rewrite (process_message_decoded (new_protocol name) _ _ w (E t) eq_refl).
    destruct Ht as [-> | [-> | ->]]; reflexivity.
  - intros T t status details now0. repeat split.
Qed.

Lemma X25_broadcast_delivery_witness :
  handled (process_message (new_protocol (W:=unit) "job_finder_agent")
             (to_dict (broadcast_envelope "job_finder_agent" AGENT_HEARTBEAT
                         (VDict [("status", VStr "alive")]) "1709190309.001234" now_Q))
             tt) = true.
Proof.
  assert (V : valid_datetime now_Q = true) by reflexivity.
  assert (Hh : message_handlers (new_protocol (W:=unit) "job_finder_agent")
                 AGENT_HEARTBEAT = Some _handle_heartbeat) by reflexivity.
  destruct (X25_broadcast_delivery "job_finder_agent"
              (new_protocol "job_finder_agent") AGENT_HEARTBEAT
              (VDict [("status", VStr "alive")]) "1709190309.001234" now_Q
              _handle_heartbeat tt V Hh)
    as (_ & _ & Hf & _).
  exact (proj1 Hf).
Defined.

End A2AFacts.

(** ** The workflow state and executor of [langgraph_utils.py] *)

Module LanggraphFacts.
Import LanggraphUtils LanggraphExec LanggraphSpec.

Section Facts.

Context {Any : Type}.

Lemma calls_snoc (cs : list (@Call Any)) (c : Call) (self : WorkflowState Any) :
  calls (cs ++ [c]) self = call c (calls cs self).
Proof. unfold calls. rewrite fold_left_app. reflexivity. Qed.

(** X26. Whatever sequence of [update], [add_step] and [add_error] calls
    is made on a workflow state: the lists of completed steps and of
    errors only grow, by exactly the entries of the calls in the order
    in which they were made, and nothing is ever removed from them;
    [created_at] never changes; [updated_at] is the time of the last
    [update], and is not touched by [add_step] and [add_error]; and
    [get] returns, for every key, the value of the last [update] of that
    key, or what it returned before the calls when there was none. *)
Theorem X26_workflow_state_calls (cs : list (@Call Any)) (self : WorkflowState Any)
    (key : string) (default_ : Any) :
  let self' := calls cs self in
  created_at self' = created_at self
  /\ steps_completed self' = (steps_completed self ++ steps_of cs)%list
  /\ errors self' = (errors self ++ errors_of cs)%list
  /\ updated_at self' = default (updated_at self) (last_update_time cs)
  /\ get key default_ self'
     = match last_update key cs with
       | Some v => v
       | None => get key default_ self
       end.
Proof.
  induction cs as [|c cs IH] using rev_ind.
  - cbn. rewrite !app_nil_r. repeat split.
  - cbv zeta in *. rewrite calls_snoc.
    destruct IH as (I1 & I2 & I3 & I4 & I5).
    unfold steps_of, errors_of, last_update_time, last_update in *.
    rewrite !flat_map_app, !fold_left_app. cbn [flat_map fold_left].
    rewrite !app_nil_r.
    destruct c as [k v now|n r now|n e now];
      cbn [call update add_step add_error created_at steps_completed errors
           updated_at data flat_map default]; unfold get in *;
      cbn [data update add_step add_error]; rewrite ?app_nil_r.
    + split; [exact I1|]. split; [exact I2|]. split; [exact I3|].
      split; [reflexivity|].
      destruct (String.eqb_spec k key) as [->|Hne].
      * rewrite lookup_insert_eq. reflexivity.
      * rewrite lookup_insert_ne by exact Hne. exact I5.
    + split; [exact I1|]. split; [rewrite I2, app_assoc; reflexivity|].
      split; [exact I3|]. split; [exact I4|exact I5].
    + split; [exact I1|]. split; [exact I2|].
      split; [rewrite I3, app_assoc; reflexivity|]. split; [exact I4|exact I5].
Qed.

(** X27. The executor returns a state in every case, never an exception.
    When the workflow returns, the state has no error and its data are
    the initial data overwritten by the entries of the result; when the
    workflow raises, the data are the initial data and the state has
    exactly one error, recorded for the step [workflow_execution] with
    the text of the exception. So the state has no error exactly when
    the workflow returned. The executor itself records no completed
    step. *)
Theorem X27_execute (workflow : @Workflow Any) (initial_state : option (gmap string Any))
    (now1 now2 now3 now4 now5 : string) (key : string) (default_ : Any) :
  let r := execute workflow initial_state now1 now2 now3 now4 now5 in
  let initial := default ∅ initial_state in
  steps_completed r = []
  /\ match workflow (new_state initial_state now1 now2) with
     | Returned result =>
         errors r = []
         /\ data r = result ∪ initial
         /\ get key default_ r
            = match result !! key with
              | Some v => v
              | None => default default_ (initial !! key)
              end
     | Raised str_e =>
         errors r = [{| error_step := "workflow_execution"; error := str_e;
                        error_timestamp := now5 |}]
         /\ data r = initial
     end
  /\ (errors r = []
      <-> exists result, workflow (new_state initial_state now1 now2) = Returned result).
Proof.
  intros r initial. unfold r, execute.
  destruct (workflow (new_state initial_state now1 now2)) as [result|str_e] eqn:E.
  - split; [reflexivity|]. split.
    + split; [reflexivity|]. split; [reflexivity|].
      unfold get. cbn [data new_state]. fold initial.
      destruct (result !! key) as [v|] eqn:Er.
      * rewrite (lookup_union_Some_l _ _ _ _ Er). reflexivity.
      * rewrite lookup_union_r by exact Er. reflexivity.
    + split; [intros _; exists result; reflexivity|reflexivity].
  - split; [reflexivity|]. split.
    + split; reflexivity.
    + split; [discriminate|]. intros [result H]. discriminate H.
Qed.

End Facts.

End LanggraphFacts.

(** ** The text search of [vector_db.py] *)

Module VectorDbFacts.
Import Py PyFacts PyText VectorDb VectorDbSpec.

(** *** The similarity of two texts *)

Lemma lower_ascii_idemp (c : ascii) : lower_ascii (lower_ascii c) = lower_ascii c.
Proof. destruct c as [[] [] [] [] [] [] [] []]; reflexivity. Qed.

Lemma lower_idemp (s : string) : lower (lower s) = lower s.
Proof.
  induction s as [|c s IH]; simpl; [reflexivity|].
  rewrite lower_ascii_idemp, IH. reflexivity.
Qed.

Lemma inter_sub_union (q t : gset string) : q ∩ t ⊆ q ∪ t.
Proof.
  intros x Hx. apply elem_of_intersection in Hx. apply elem_of_union.
  left. exact (proj1 Hx).
Qed.

Lemma inter_eq_union (q t : gset string) : q ∩ t = q ∪ t -> q = t.
Proof.
  intros H. apply set_eq. intros x. split; intros Hx.
  - assert (Hu : x ∈ q ∪ t) by (apply elem_of_union; left; exact Hx).
    rewrite <- H in Hu. apply elem_of_intersection in Hu. exact (proj2 Hu).
  - assert (Hu : x ∈ q ∪ t) by (apply elem_of_union; right; exact Hx).
    rewrite <- H in Hu. apply elem_of_intersection in Hu. exact (proj1 Hu).
Qed.

Lemma union_empty_l (q t : gset string) : q ∪ t = ∅ -> q = ∅.
Proof. intros H. apply empty_union_L in H. exact (proj1 H). Qed.

Lemma similarity_words (query text : string) :
  _calculate_text_similarity query text
  = if bool_decide (words query = ∅) || bool_decide (words text = ∅) then 0%Q
    else (inject_Z (Z.of_nat (size (words query ∩ words text)))
          / inject_Z (Z.of_nat (size (words query ∪ words text))))%Q.
Proof.
  unfold _calculate_text_similarity. fold (words query). fold (words text).
  destruct (bool_decide (words query = ∅)) eqn:Eq; [reflexivity|].
  destruct (bool_decide (words text = ∅)) eqn:Et; [reflexivity|].
  cbn [orb].
  destruct (Nat.ltb_spec 0 (size (words query ∪ words text))) as [_|Hu];
    [reflexivity|].
  exfalso. apply bool_decide_eq_false in Eq. apply Eq.
  assert (Hz : size (words query ∪ words text) = 0%nat) by lia.
  apply size_empty_iff, leibniz_equiv in Hz. exact (union_empty_l _ _ Hz).
Qed.

(** X28. The similarity of two texts is the share of the words of both
    that the two have in common, a text being read as its set of words
    in lower case. It lies in [[0,1]] and does not depend on the order of
    its arguments nor on the case of the letters. It is 1 exactly when
    the two texts have the same words and at least one; it is 0 exactly
    when they have no word in common, which includes the empty text. It
    passes the threshold 0.1 of the search exactly when the common words
    are more than a tenth of all the words. *)
Theorem X28_text_similarity (query text : string) :
  let s := _calculate_text_similarity query text in
  (0 <= s <= 1)%Q
  /\ _calculate_text_similarity text query = s
  /\ _calculate_text_similarity (lower query) text = s
  /\ (s == 1 <-> words query = words text /\ words query <> ∅)%Q
  /\ (s == 0 <-> words query ∩ words text = ∅)%Q
  /\ ((0.1 < s)%Q
      <-> (size (words query ∪ words text)
           < 10 * size (words query ∩ words text))%nat).
Proof.
  intros s. unfold s. rewrite !similarity_words.
  assert (L : words (lower query) = words query)
    by (unfold words; rewrite lower_idemp; reflexivity).
  rewrite L.
  assert (C1 : words text ∩ words query = words query ∩ words text)
    by apply (comm_L (∩)).
  assert (C2 : words text ∪ words query = words query ∪ words text)
    by apply (comm_L (∪)).
  rewrite C1, C2, (orb_comm (bool_decide (words text = ∅))).
  set (q := words query) in *. set (t := words text) in *.
  assert (Hiu : (size (q ∩ t) <= size (q ∪ t))%nat)
    by (apply subseteq_size, inter_sub_union).
  destruct (bool_decide (q = ∅)) eqn:Eq; [|destruct (bool_decide (t = ∅)) eqn:Et];
    cbn [orb].
  - apply bool_decide_eq_true in Eq.
    assert (Hi : q ∩ t = ∅) by (rewrite Eq; apply (left_absorb_L ∅ (∩))).
    rewrite Hi, size_empty.
    split; [split; vm_compute; discriminate|]. split; [reflexivity|].
    split; [reflexivity|]. split; [|split].
    + split; [intros H; vm_compute in H; discriminate H|].
      intros [_ H]. contradiction.
    + split; reflexivity.
    + split; [intros H; vm_compute in H; discriminate H|lia].
  - apply bool_decide_eq_true in Et.
    assert (Hi : q ∩ t = ∅) by (rewrite Et; apply (right_absorb_L ∅ (∩))).
    rewrite Hi, size_empty.
    split; [split; vm_compute; discriminate|]. split; [reflexivity|].
    split; [reflexivity|]. split; [|split].
    + split; [intros H; vm_compute in H; discriminate H|].
      intros [H Hq]. exfalso. apply Hq. rewrite H. exact Et.
    + split; reflexivity.
    + split; [intros H; vm_compute in H; discriminate H|lia].
  - apply bool_decide_eq_false in Eq. apply bool_decide_eq_false in Et.
    assert (Hu : (0 < size (q ∪ t))%nat).
    { destruct (size (q ∪ t)) eqn:Ez; [|lia]. exfalso. apply Eq.
      apply size_empty_iff, leibniz_equiv in Ez. exact (union_empty_l _ _ Ez). }
    set (i := size (q ∩ t)) in *. set (u := size (q ∪ t)) in *.
    assert (Q0 : (0 < inject_Z (Z.of_nat u))%Q)
      by (change 0%Q with (inject_Z 0); rewrite <- Zlt_Qlt; lia).
    split; [split|].
    { apply AnalyzeCandidatesProofs.ratio_nonneg. }
    { apply Qle_shift_div_r; [exact Q0|]. rewrite Qmult_1_l, <- Zle_Qle. lia. }
    split; [reflexivity|]. split; [reflexivity|]. split; [|split].
    + assert (R : (inject_Z (Z.of_nat i) / inject_Z (Z.of_nat u) == 1)%Q
                  <-> i = u).
      { split.
        - intros H.
          assert (H' : (inject_Z (Z.of_nat i) == 1 * inject_Z (Z.of_nat u))%Q).
          { rewrite <- H. field. intros Hz. rewrite Hz in Q0.
            apply (Qlt_irrefl 0). exact Q0. }
          rewrite Qmult_1_l in H'. unfold Qeq in H'. simpl in H'. lia.
        - intros ->. field. intros Hz. rewrite Hz in Q0.
          apply (Qlt_irrefl 0). exact Q0. }
      rewrite R. unfold i, u. split.
      * intros H.
        assert (Hs : q ∩ t = q ∪ t).
        { apply set_subseteq_size_eq; [apply inter_sub_union|lia]. }
        split; [exact (inter_eq_union _ _ Hs)|exact Eq].
      * intros [H _]. rewrite <- H.
        rewrite (idemp_L (∩) q), (idemp_L (∪) q). reflexivity.
    + assert (R : (inject_Z (Z.of_nat i) / inject_Z (Z.of_nat u) == 0)%Q
                  <-> i = 0%nat).
      { split.
        - intros H.
          assert (H' : (inject_Z (Z.of_nat i) == 0 * inject_Z (Z.of_nat u))%Q).
          { rewrite <- H. field. intros Hz. rewrite Hz in Q0.
            apply (Qlt_irrefl 0). exact Q0. }
          rewrite Qmult_0_l in H'. unfold Qeq in H'. simpl in H'. lia.
        - intros ->. unfold Qdiv. simpl. apply Qmult_0_l. }
      rewrite R. unfold i. rewrite size_empty_iff. split.
      * intros H. apply leibniz_equiv. exact H.
      * intros ->. reflexivity.
    + pose proof (AnalyzeCandidatesFacts.ratio_gt 1 10 i u) as G.
      assert (G' : ((0.1 < inject_Z (Z.of_nat i) / inject_Z (Z.of_nat u))%Q
                    <-> (1 * u < 10 * i)%nat)).
      { rewrite <- G by lia. reflexivity. }
      rewrite G'. lia.
Qed.

(** *** The search *)

Section Search.

Context {Payload : Type}.

Lemma similarity_unit (query text : string) :
  (0 <= _calculate_text_similarity query text <= 1)%Q.
Proof.
  rewrite similarity_words.
  destruct (bool_decide (words query = ∅) || bool_decide (words text = ∅)) eqn:E.
  - split; vm_compute; discriminate.
  - apply orb_false_iff in E. destruct E as [Eq _].
    apply bool_decide_eq_false in Eq.
    set (q := words query) in *. set (t := words text) in *.
    assert (Hu : (0 < size (q ∪ t))%nat).
    { destruct (size (q ∪ t)) eqn:Ez; [|lia]. exfalso. apply Eq.
      apply size_empty_iff, leibniz_equiv in Ez. exact (union_empty_l _ _ Ez). }
    pose proof (subseteq_size _ _ (inter_sub_union q t)) as Hiu.
    split; [apply AnalyzeCandidatesProofs.ratio_nonneg|].
    apply Qle_shift_div_r.
    + change 0%Q with (inject_Z 0). rewrite <- Zlt_Qlt. lia.
    + rewrite Qmult_1_l, <- Zle_Qle. lia.
Qed.

Lemma scored_points_In (query : string) (all_points : list (Point Payload))
    (r : SearchResult Payload) :
  In r (scored_points query all_points)
  <-> exists point : Point Payload,
        In point all_points
        /\ (0.1 < _calculate_text_similarity query (default "" (payload_text point)))%Q
        /\ r = {| document_id := point_id point;
                  text := default "" (payload_text point);
                  metadata := point_payload point;
                  score := _calculate_text_similarity query
                             (default "" (payload_text point)) |}.
Proof.
  unfold scored_points. rewrite in_flat_map. split.
  - intros (point & Hin & Hr). exists point. split; [exact Hin|].
    destruct (Qltb 0.1 _) eqn:E; [|contradiction].
    apply Qltb_lt in E. split; [exact E|].
    destruct Hr as [<-|[]]. reflexivity.
  - intros (point & Hin & Hs & ->). exists point. split; [exact Hin|].
    destruct (Qltb 0.1 _) eqn:E; [left; reflexivity|].
    apply Qltb_ge in E. exfalso. apply (Qlt_irrefl 0.1).
    eapply Qlt_le_trans; eassumption.
Qed.

Lemma scored_points_length (query : string) (all_points : list (Point Payload)) :
  (length (scored_points query all_points) <= length all_points)%nat.
Proof.
  induction all_points as [|point l IH]; [reflexivity|].
  unfold scored_points in *. cbn [flat_map]. rewrite length_app.
  destruct (Qltb 0.1 _); cbn [length]; lia.
Qed.

Lemma insert_by_score_perm (x : SearchResult Payload) (l : list (SearchResult Payload)) :
  Permutation (insert_by_score x l) (x :: l).
Proof.
  induction l as [|y l IH]; simpl; [reflexivity|].
  destruct (Qltb (score x) (score y)); [|reflexivity].
  rewrite IH. apply perm_swap.
Qed.

Lemma sort_results_perm (l : list (SearchResult Payload)) :
  Permutation (sort_results l) l.
Proof.
  induction l as [|x l IH]; simpl; [reflexivity|].
  rewrite insert_by_score_perm, IH. reflexivity.
Qed.

Lemma insert_by_score_sorted (x : SearchResult Payload) (l : list (SearchResult Payload)) :
  StronglySorted by_score l -> StronglySorted by_score (insert_by_score x l).
Proof.
  induction 1 as [|y l Hs IH Hy]; simpl.
  - repeat constructor.
  - destruct (Qltb (score x) (score y)) eqn:E.
    + constructor; [exact IH|].
      rewrite insert_by_score_perm. constructor; [|exact Hy].
      apply Qltb_lt in E. unfold by_score. apply Qlt_le_weak. exact E.
    + apply Qltb_ge in E. constructor; [constructor; assumption|].
      constructor; [exact E|].
      eapply Forall_impl; [exact Hy|].
      intros z Hz. unfold by_score in *. eapply Qle_trans; eassumption.
Qed.

Lemma sort_results_sorted (l : list (SearchResult Payload)) :
  StronglySorted by_score (sort_results l).
Proof.
  induction l as [|x l IH]; simpl; [constructor|].
  apply insert_by_score_sorted. exact IH.
Qed.

Lemma slice_to_prefix {A : Type} (limit : Z) (l : list A) :
  exists k : nat, slice_to limit l = firstn k l
                  /\ ((0 <= limit)%Z -> k = Z.to_nat limit).
Proof.
  unfold slice_to. destruct (Z.leb_spec 0 limit).
  - eexists. split; [reflexivity|]. intros _. reflexivity.
  - eexists. split; [reflexivity|]. lia.
Qed.

Lemma firstn_incl {A : Type} (k : nat) (l : list A) (x : A) :
  In x (firstn k l) -> In x l.
Proof.
  intros H. rewrite <- (firstn_skipn k l). apply in_or_app. left. exact H.
Qed.

Lemma firstn_sorted {A : Type} (R : A -> A -> Prop) (k : nat) (l : list A) :
  StronglySorted R l -> StronglySorted R (firstn k l).
Proof.
  intros H. revert k. induction H as [|x l Hs IH Hx]; intros k.
  - destruct k; constructor.
  - destruct k; cbn [firstn]; [constructor|].
    constructor; [apply IH|].
    apply List.Forall_forall. intros y Hy.
    apply (proj1 (List.Forall_forall _ _) Hx). exact (firstn_incl _ _ _ Hy).
Qed.

Lemma search_cases (self : VectorDatabase Payload) (collection_name query : string)
    (limit : Z) :
  search self collection_name query limit = []
  \/ exists (c : QdrantClient Payload) (all_points : list (Point Payload)) (k : nat),
       client self = Some c
       /\ scroll c (_get_collection_name self collection_name) = Returned all_points
       /\ search self collection_name query limit
          = firstn k (sort_results (scored_points query all_points))
       /\ ((0 <= limit)%Z -> k = Z.to_nat limit).
Proof.
  unfold search. destruct (client self) as [c|]; [|left; reflexivity].
  destruct (scroll c _) as [all_points|e] eqn:E; [|left; reflexivity].
  destruct (slice_to_prefix limit (sort_results (scored_points query all_points)))
    as (k & Hk & Hl).
  right. exists c, all_points, k. repeat split; assumption.
Qed.

Lemma search_In (self : VectorDatabase Payload) (collection_name query : string)
    (limit : Z) (r : SearchResult Payload) :
  In r (search self collection_name query limit) ->
  exists (c : QdrantClient Payload) (all_points : list (Point Payload))
         (point : Point Payload),
    client self = Some c
    /\ scroll c (_get_collection_name self collection_name) = Returned all_points
    /\ In point all_points
    /\ (0.1 < score r)%Q
    /\ r = {| document_id := point_id point;
              text := default "" (payload_text point);
              metadata := point_payload point;
              score := _calculate_text_similarity query
                         (default "" (payload_text point)) |}.
Proof.
  intros H.
  destruct (search_cases self collection_name query limit)
    as [E|(c & all_points & k & Hc & Hs & E & _)]; rewrite E in H; [destruct H|].
  apply firstn_incl in H.
  apply (Permutation_in _ (sort_results_perm _)) in H.
  apply scored_points_In in H. destruct H as (point & Hin & Hsc & ->).
  exists c, all_points, point. repeat split; assumption.
Qed.

Lemma search_sorted (self : VectorDatabase Payload) (collection_name query : string)
    (limit : Z) :
  StronglySorted by_score (search self collection_name query limit).
Proof.
  destruct (search_cases self collection_name query limit)
    as [E|(c & all_points & k & _ & _ & E & _)]; rewrite E; [constructor|].
  apply firstn_sorted, sort_results_sorted.
Qed.

Lemma search_length (self : VectorDatabase Payload) (collection_name query : string)
    (limit : Z) :
  (0 <= limit)%Z ->
  (length (search self collection_name query limit) <= Z.to_nat limit)%nat.
Proof.
  intros Hl.
  destruct (search_cases self collection_name query limit)
    as [E|(c & all_points & k & _ & _ & E & Hk)]; rewrite E; [simpl; lia|].
  rewrite (Hk Hl). apply firstn_le_length.
Qed.

(** X29. [search] never raises: without a client, and when the client
    fails, it returns no result. Every result it returns stands for a
    stored point of the collection, with the identifier, the text and the
    payload of that point and the similarity of that text to the query
    as its score, which is above 0.1 and at most 1. The results are in
    descending order of the scores, and with a limit that is not
    negative there are at most that many. When the points of the
    collection are no more than the limit, every point whose text is
    similar enough is among the results. *)
Theorem X29_search (self : VectorDatabase Payload) (collection_name query : string)
    (limit : Z) :
  let results := search self collection_name query limit in
  (forall r : SearchResult Payload,
     In r results ->
     (0.1 < score r <= 1)%Q
     /\ score r = _calculate_text_similarity query (text r)
     /\ exists (c : QdrantClient Payload) (all_points : list (Point Payload))
               (point : Point Payload),
          client self = Some c
          /\ scroll c (_get_collection_name self collection_name) = Returned all_points
          /\ In point all_points
          /\ document_id r = point_id point
          /\ text r = default "" (payload_text point)
          /\ metadata r = point_payload point)
  /\ StronglySorted by_score results
  /\ ((0 <= limit)%Z -> (length results <= Z.to_nat limit)%nat)
  /\ (forall (c : QdrantClient Payload) (all_points : list (Point Payload))
             (point : Point Payload),
        client self = Some c ->
        scroll c (_get_collection_name self collection_name) = Returned all_points ->
        (Z.of_nat (length all_points) <= limit)%Z ->
        In point all_points ->
        (0.1 < _calculate_text_similarity query (default "" (payload_text point)))%Q ->
        exists r : SearchResult Payload,
          In r results /\ document_id r = point_id point
          /\ metadata r = point_payload point)
  /\ (client self = None -> results = [])
  /\ (forall (c : QdrantClient Payload) (str_e : string),
        client self = Some c ->
        scroll c (_get_collection_name self collection_name) = Raised str_e ->
        results = []).
Proof.
  intros results. unfold results. split; [|split; [|split; [|split; [|split]]]].
  - intros r Hr.
    destruct (search_In _ _ _ _ _ Hr) as (c & all_points & point & Hc & Hs & Hin & Hsc & E).
    split; [split; [exact Hsc|]|].
    { rewrite E. cbn [score]. apply similarity_unit. }
    split; [rewrite E; reflexivity|].
    exists c, all_points, point. rewrite E. repeat split; assumption.
  - apply search_sorted.
  - apply search_length.
  - intros c all_points point Hc Hs Hl Hin Hsc.
    unfold search. rewrite Hc, Hs.
    set (l := sort_results (scored_points query all_points)).
    assert (Hlen : (length l <= length all_points)%nat).
    { unfold l. rewrite (Permutation_length (sort_results_perm _)).
      apply scored_points_length. }
    assert (El : slice_to limit l = l).
    { unfold slice_to. destruct (Z.leb_spec 0 limit); [|lia].
      apply firstn_all2. lia. }
    rewrite El.
    eexists. split.
    + unfold l. apply (Permutation_in _ (Permutation_sym (sort_results_perm _))).
      apply scored_points_In. exists point. repeat split; [exact Hin|exact Hsc].
    + split; reflexivity.
  - intros Hc. unfold search. rewrite Hc. reflexivity.
  - intros c e Hc Hs. unfold search. rewrite Hc, Hs. reflexivity.
Qed.

End Search.

End VectorDbFacts.

(** ** The job matcher on the vector database *)

Module MatchJobsSearchFacts.
Import Py PyFacts PyText MatchJobs MatchJobsSearch.

Lemma similarity_empty_query (text : string) :
  VectorDb._calculate_text_similarity "" text = 0%Q.
Proof. reflexivity. Qed.

Lemma search_empty_query {Payload : Type} (self : VectorDb.VectorDatabase Payload)
    (collection_name : string) (limit : Z) :
  VectorDb.search self collection_name "" limit = [].
Proof.
  unfold VectorDb.search. destruct (VectorDb.client self) as [c|]; [|reflexivity].
  destruct (VectorDb.scroll c _) as [all_points|e]; [|reflexivity].
  assert (E : VectorDb.scored_points "" all_points = []).
  { induction all_points as [|point l IH]; [reflexivity|].
    unfold VectorDb.scored_points in *. cbn [flat_map].
    rewrite IH, similarity_empty_query. reflexivity. }
  rewrite E. unfold VectorDb.slice_to. cbn [VectorDb.sort_results fold_right length].
  destruct (0 <=? limit)%Z; [apply firstn_nil|reflexivity].
Qed.

Section Facts.

Variable str_number : Q -> string.

Lemma create_search_query_empty (profile : Candidate.t) :
  default [] (Candidate.skills profile) = [] ->
  default [] (Candidate.preferred_roles profile) = [] ->
  (default 0 (Candidate.experience_years profile) == 0)%Q ->
  _create_search_query str_number profile = "".
Proof.
  intros Hs Hr Hy. unfold _create_search_query. rewrite Hs, Hr.
  apply Qeq_bool_iff in Hy. rewrite Hy. reflexivity.
Qed.

Lemma run_on_vector_db_fields (candidates : VectorDb.VectorDatabase Candidate.t)
    (jobs : VectorDb.VectorDatabase Job.t) (now : A2A.datetime)
    (initial : MatchingState) :
  let s1 := load_candidate_profile (get_profile candidates initial now) initial in
  let s2 := search_available_jobs (search_jobs str_number jobs s1) s1 in
  let final := run_on_vector_db str_number candidates jobs now initial in
  error_message final = error_message s1
  /\ candidate_profile final = candidate_profile s1
  /\ available_jobs final = available_jobs s2
  /\ matches final
     = sort_by_score_desc (collect_matches s2 (available_jobs s2) []).
Proof.
  intros s1 s2 final. unfold final, run_on_vector_db. fold s1. fold s2.
  assert (E : error_message s2 = error_message s1
              /\ candidate_profile s2 = candidate_profile s1).
  { unfold s2, search_available_jobs, search_jobs.
    destruct (Candidate.falsy (candidate_profile s1)); split; reflexivity. }
  unfold notify_candidate_finder.
  destruct (matches (process_job_matches s2)) eqn:Em; cbn [fst];
    (split; [exact (proj1 E)|]); (split; [exact (proj2 E)|]);
    (split; [reflexivity|]); reflexivity.
Qed.

(** X30. A run of the matching graph for a new candidate on the vector
    database of the repository. The database calls never raise, so the
    error message at the end is either empty or says that the profile
    was not found, which is also what is reported when the database of
    candidates cannot be reached; a failure of the job search is not
    reported at all and looks like a search without result. The jobs
    that are examined are at most fifty, each with a similarity to the
    query above 0.1, in descending order of similarity. A profile that
    names no skill, no preferred role and no experience gives an empty
    query, finds no job and gets no match. *)
Theorem X30_matching_on_vector_db (candidates : VectorDb.VectorDatabase Candidate.t)
    (jobs : VectorDb.VectorDatabase Job.t) (now : A2A.datetime) (cid : string) :
  let final := run_on_vector_db str_number candidates jobs now (initial_state cid) in
  (error_message final = "" \/ error_message final = "Candidate profile not found")
  /\ (VectorDb.client candidates = None ->
      error_message final = "Candidate profile not found" /\ matches final = [])
  /\ (VectorDb.client jobs = None \/
      (exists c str_e,
         VectorDb.client jobs = Some c
         /\ VectorDb.scroll c (VectorDb._get_collection_name jobs "jobs")
            = Raised str_e) ->
      available_jobs final = [] /\ matches final = []
      /\ (Candidate.falsy (candidate_profile final) = false -> error_message final = ""))
  /\ (length (available_jobs final) <= 50)%nat
  /\ Forall (fun job_data => (0.1 < score job_data <= 1)%Q) (available_jobs final)
  /\ StronglySorted (fun a b => (score b <= score a)%Q) (available_jobs final)
  /\ (default [] (Candidate.skills (candidate_profile final)) = [] ->
      default [] (Candidate.preferred_roles (candidate_profile final)) = [] ->
      (default 0 (Candidate.experience_years (candidate_profile final)) == 0)%Q ->
      available_jobs final = [] /\ matches final = []).
Proof.
  intros final.
  destruct (run_on_vector_db_fields candidates jobs now (initial_state cid))
    as (Fe & Fp & Fa & Fm).
  fold final in Fe, Fp, Fa, Fm.
  set (s1 := load_candidate_profile (get_profile candidates (initial_state cid) now)
               (initial_state cid)) in *.
  set (s2 := search_available_jobs (search_jobs str_number jobs s1) s1) in *.
  set (found := VectorDb.search jobs "jobs"
                  (_create_search_query str_number (candidate_profile s1)) 50).
  assert (A1 : available_jobs s1 = []).
  { unfold s1, load_candidate_profile, get_profile.
    destruct (VectorDb.get_document _ _ _ _); reflexivity. }
  assert (A2 : available_jobs s2 = []
               \/ (Candidate.falsy (candidate_profile s1) = false
                   /\ available_jobs s2
                      = map (fun r => {| id := VectorDb.document_id r;
                                         metadata := VectorDb.metadata r;
                                         score := VectorDb.score r |}) found)).
  { unfold s2, search_available_jobs, search_jobs.
    destruct (Candidate.falsy (candidate_profile s1)); [left; exact A1|].
    right. split; [reflexivity|].
    cbn [available_jobs set_available_jobs]. rewrite map_map. reflexivity. }
  assert (M0 : available_jobs s2 = [] -> matches final = []).
  { intros H. rewrite Fm, H. reflexivity. }
  split; [|split; [|split; [|split; [|split; [|split]]]]].
  - rewrite Fe. unfold s1, load_candidate_profile, get_profile.
    destruct (VectorDb.get_document _ _ _ _); [left|right]; reflexivity.
  - intros Hc.
    assert (E1 : s1 = set_error_message "Candidate profile not found" (initial_state cid)).
    { unfold s1, load_candidate_profile, get_profile, VectorDb.get_document.
      rewrite Hc. reflexivity. }
    split; [rewrite Fe, E1; reflexivity|].
    apply M0. unfold s2. rewrite E1. reflexivity.
  - intros Hj.
    assert (Ef : found = []).
    { unfold found, VectorDb.search.
      destruct Hj as [Hc|(c & e & Hc & Hs)]; rewrite Hc; [reflexivity|].
      rewrite Hs. reflexivity. }
    assert (Ea : available_jobs s2 = []).
    { destruct A2 as [H|[_ H]]; [exact H|]. rewrite H, Ef. reflexivity. }
    split; [rewrite Fa; exact Ea|]. split; [exact (M0 Ea)|].
    rewrite Fp, Fe. unfold s1, load_candidate_profile, get_profile.
    destruct (VectorDb.get_document _ _ _ _); [reflexivity|].
    cbn. discriminate.
  - rewrite Fa. destruct A2 as [H|[_ H]]; rewrite H; [simpl; lia|].
    rewrite length_map.
    exact (VectorDbFacts.search_length jobs "jobs" _ 50 ltac:(lia)).
  - rewrite Fa. destruct A2 as [H|[_ H]]; rewrite H; [constructor|].
    apply List.Forall_forall. intros j Hj. apply in_map_iff in Hj.
    destruct Hj as (r & <- & Hr). cbn [score].
    destruct (VectorDbFacts.search_In _ _ _ _ _ Hr)
      as (c & all_points & point & _ & _ & _ & Hsc & E).
    split; [exact Hsc|]. rewrite E. cbn [VectorDb.score].
    apply VectorDbFacts.similarity_unit.
  - rewrite Fa. destruct A2 as [H|[_ H]]; rewrite H; [constructor|].
    pose proof (VectorDbFacts.search_sorted jobs "jobs"
                  (_create_search_query str_number (candidate_profile s1)) 50) as Hs.
    fold found in Hs. clearbody found. clear -Hs.
    induction Hs as [|x l Hs IH Hx]; cbn [map]; constructor; [exact IH|].
    apply List.Forall_forall. intros j Hj. apply in_map_iff in Hj.
    destruct Hj as (r & <- & Hr). cbn [score].
    exact (proj1 (List.Forall_forall _ _) Hx r Hr).
  - rewrite Fp. intros Hs Hr Hy.
    assert (Ea : available_jobs s2 = []).
    { destruct A2 as [H|[_ H]]; [exact H|]. rewrite H. unfold found.
      rewrite (create_search_query_empty _ Hs Hr Hy), search_empty_query.
      reflexivity. }
    split; [rewrite Fa; exact Ea|exact (M0 Ea)].
Qed.

End Facts.

End MatchJobsSearchFacts.
